(** * UI-Smith: the agent pipeline, embedded and verified

    A shallow embedding of the multi-agent pipeline of UI-Smith
    (src/agents/ui-architect.ts, design-critic.ts, accessibility-agent.ts,
    orchestrator.ts) and of the export MCP server (src/mcp/export/server.ts),
    followed by the properties proved of them.

    Conventions of the embedding.
    - A JavaScript value that went through JSON is a [JSON] tree; [undefined]
      is [None] of [option JSON].  Numbers are the integers ([Z]), printed in
      decimal; [v + 1] is the sum of doubles, rounded ([Js.add_one]).
      Strings are sequences of 8-bit characters; [toLowerCase] and
      [toUpperCase] fold the letters A-Z and a-z only, which is the folding
      of the program on ASCII text ([Str.is_ascii]): a statement that rests
      on how the text of a request is folded assumes such text.
    - An object is an association list in property enumeration order, with
      distinct keys, none of which is an array index or ["__proto__"].
    - [JSON.parse(JSON.stringify(x))] is a copy equal to [x]; values are
      immutable here, so the copy is [x] itself.
    - [uuidv4()] and [new Date().toISOString()] read a [World]: two streams of
      strings and the position reached in each.
    - A thrown exception is [Throw e]; [String(error)] is [error_text e].  The
      message texts of a TypeError are those of V8; no statement depends on
      them beyond the failing run of the modify path.
    - [async] functions are run to completion in call order: the pipeline
      awaits every call before the next statement. *)

From Stdlib Require Import ZArith List String Ascii Bool Lia.
From stdpp Require Import base list strings.

Open Scope string_scope.
Open Scope Z_scope.

(** ** Strings *)

Module Str.

Definition lower_ascii (c : ascii) : ascii :=
  let n := nat_of_ascii c in
  if ((65 <=? n) && (n <=? 90))%nat then ascii_of_nat (n + 32) else c.

Definition upper_ascii (c : ascii) : ascii :=
  let n := nat_of_ascii c in
  if ((97 <=? n) && (n <=? 122))%nat then ascii_of_nat (n - 32) else c.

Fixpoint map_string (f : ascii -> ascii) (s : string) : string :=
  match s with
  | EmptyString => EmptyString
  | String c r => String (f c) (map_string f r)
  end.

(** [s.toLowerCase()] and [s.toUpperCase()]. *)
Definition toLowerCase : string -> string := map_string lower_ascii.
Definition toUpperCase : string -> string := map_string upper_ascii.

(** ASCII text: every character is below 128.  On such text the two functions
    above are [String.prototype.toLowerCase] and [toUpperCase]; beyond it the
    program also folds letters that are not ASCII (U+212A, the Kelvin sign,
    becomes [k]). *)
Fixpoint is_ascii (s : string) : bool :=
  match s with
  | EmptyString => true
  | String c r => (nat_of_ascii c <? 128)%nat && is_ascii r
  end.

(** [s.includes(t)]: [t] occurs in [s] as a contiguous substring. *)
Fixpoint includes (s t : string) : bool :=
  String.prefix t s ||
  match s with
  | EmptyString => false
  | String _ r => includes r t
  end.

(** [terms.some(term => s.includes(term))]. *)
Definition includes_any (s : string) (terms : list string) : bool :=
  existsb (includes s) terms.

(** [l.join(sep)] on an array of strings. *)
Fixpoint join (sep : string) (l : list string) : string :=
  match l with
  | [] => EmptyString
  | [x] => x
  | x :: r => x ++ sep ++ join sep r
  end.

(** [s.split("\n").join(t)]: every line feed replaced by [t]. *)
Fixpoint replace_newlines (t : string) (s : string) : string :=
  match s with
  | EmptyString => EmptyString
  | String c r =>
      if Ascii.eqb c "010"%char then t ++ replace_newlines t r
      else String c (replace_newlines t r)
  end.

(** Decimal digits of a natural number, most significant first. *)
Fixpoint digits_fuel (fuel : nat) (n : N) (acc : string) : string :=
  match fuel with
  | O => acc
  | S f =>
      let d := ascii_of_N (48 + N.modulo n 10) in
      let q := N.div n 10 in
      if N.eqb q 0 then String d acc else digits_fuel f q (String d acc)
  end.

Definition of_N (n : N) : string := digits_fuel (S (N.to_nat (N.log2 n))) n EmptyString.

(** [String(n)] for an integer [n]. *)
Definition of_Z (z : Z) : string :=
  match z with
  | Z0 => "0"
  | Zpos p => of_N (Npos p)
  | Zneg p => "-" ++ of_N (Npos p)
  end.

Definition of_nat (n : nat) : string := of_N (N.of_nat n).

(** The double quote, and a string between double quotes. *)
Definition dquote : string := String (ascii_of_nat 34) EmptyString.
Definition quoted (s : string) : string := dquote ++ s ++ dquote.

End Str.

(** ** JSON values and the JavaScript operations applied to them *)

#[local] Unset Elimination Schemes.
Inductive JSON : Type :=
| JNull
| JBool (b : bool)
| JNum (n : Z)
| JStr (s : string)
| JArr (elems : list JSON)
| JObj (fields : list (string * JSON)).
#[local] Set Elimination Schemes.

(** [Record<string, unknown>]. *)
Definition Props : Type := list (string * JSON).

(** A thrown JavaScript error, by class and message. *)
Inductive JsError : Type :=
| TypeError (msg : string)
| OtherError (text : string).

(** [String(error)]. *)
Definition error_text (e : JsError) : string :=
  match e with
  | TypeError msg => "TypeError: " ++ msg
  | OtherError text => text
  end.

Inductive outcome (A : Type) : Type :=
| Ok (a : A)
| Throw (e : JsError).
Arguments Ok {A} a.
Arguments Throw {A} e.

Module Js.

(** [o[k]] on an object. *)
Fixpoint get (o : Props) (k : string) : option JSON :=
  match o with
  | [] => None
  | (k', v) :: r => if String.eqb k' k then Some v else get r k
  end.

(** [o[k] = v]: an existing key keeps its place, a new key goes last. *)
Fixpoint set (o : Props) (k : string) (v : JSON) : Props :=
  match o with
  | [] => [(k, v)]
  | (k', v') :: r =>
      if String.eqb k' k then (k', v) :: r else (k', v') :: set r k v
  end.

(** [{ ...a, ...b }]. *)
Definition spread (a b : Props) : Props :=
  fold_left (fun acc kv => set acc (fst kv) (snd kv)) b a.

(** ToBoolean. *)
Definition truthy (v : option JSON) : bool :=
  match v with
  | None | Some JNull => false
  | Some (JBool b) => b
  | Some (JNum n) => negb (n =? 0)
  | Some (JStr s) => negb (String.eqb s EmptyString)
  | Some (JArr _) | Some (JObj _) => true
  end.

(** [v.k] for a value [v] that is neither [null] nor [undefined] and a key
    [k] that is not a built-in property of strings, numbers or arrays: only
    an object can hold it. *)
Definition member (v : JSON) (k : string) : option JSON :=
  match v with
  | JObj o => get o k
  | _ => None
  end.

(** [v.k], throwing on [null]. *)
Definition member_of (v : JSON) (k : string) : outcome (option JSON) :=
  match v with
  | JNull =>
      Throw (TypeError ("Cannot read properties of null (reading '" ++ k ++ "')"))
  | _ => Ok (member v k)
  end.

(** [v === "s"]. *)
Definition is_str (v : option JSON) (s : string) : bool :=
  match v with
  | Some (JStr s') => String.eqb s' s
  | _ => false
  end.

(** [v === false]. *)
Definition is_false (v : option JSON) : bool :=
  match v with
  | Some (JBool false) => true
  | _ => false
  end.

(** [a || b]. *)
Definition or_else (a b : option JSON) : option JSON :=
  if truthy a then a else b.

Definition not_a_function {A : Type} (what : string) : outcome A :=
  Throw (TypeError (what ++ " is not a function")).

(** ToString of a value that is not [undefined], as in a template literal
    or [String(v)].  An array joins its elements with commas, [null]
    elements giving the empty string.  A plain object gives
    ["[object Object]"]; one with an own ["toString"] property, which cannot
    be callable, has no primitive value and the conversion throws. *)
Fixpoint to_string (v : JSON) : outcome string :=
  match v with
  | JNull => Ok "null"
  | JBool true => Ok "true"
  | JBool false => Ok "false"
  | JNum n => Ok (Str.of_Z n)
  | JStr s => Ok s
  | JArr l =>
      (fix elems (l : list JSON) : outcome string :=
         match l with
         | [] => Ok EmptyString
         | x :: r =>
             match (match x with JNull => Ok EmptyString | _ => to_string x end) with
             | Throw e => Throw e
             | Ok sx =>
                 match r with
                 | [] => Ok sx
                 | _ => match elems r with
                        | Ok sr => Ok (sx ++ "," ++ sr)
                        | Throw e => Throw e
                        end
                 end
             end
         end) l
  | JObj o =>
      match get o "toString" with
      | Some _ => Throw (TypeError "Cannot convert object to primitive value")
      | None => Ok "[object Object]"
      end
  end.

(** ToString of a possibly [undefined] value. *)
Definition string_of (v : option JSON) : outcome string :=
  match v with
  | None => Ok "undefined"
  | Some j => to_string j
  end.

Definition is_digit (c : ascii) : bool :=
  let n := nat_of_ascii c in ((48 <=? n) && (n <=? 57))%nat.

Fixpoint digits_value (s : string) (acc : Z) : option Z :=
  match s with
  | EmptyString => Some acc
  | String c r =>
      if is_digit c then digits_value r (10 * acc + Z.of_nat (nat_of_ascii c) - 48)
      else None
  end.

(** The number a string denotes, [None] standing for NaN.  Only the empty
    string (zero) and optionally signed decimal integers are converted;
    blanks around the digits, fractions, exponents, radix prefixes and
    [Infinity] lie outside the integers of this model and are read as NaN. *)
Definition string_to_number (s : string) : option Z :=
  match s with
  | EmptyString => Some 0
  | String "-" (String c r) => option_map Z.opp (digits_value (String c r) 0)
  | String "+" (String c r) => digits_value (String c r) 0
  | _ => match s with
         | String c _ => if is_digit c then digits_value s 0 else None
         | EmptyString => Some 0
         end
  end.

(** [v < k] for an integer literal [k]: ToNumber of [v] compared with [k];
    NaN compares false. *)
Definition less_than (v : option JSON) (k : Z) : outcome bool :=
  match v with
  | None => Ok false
  | Some JNull => Ok (0 <? k)
  | Some (JBool b) => Ok ((if b then 1 else 0) <? k)
  | Some (JNum n) => Ok (n <? k)
  | Some (JStr s) =>
      Ok (match string_to_number s with Some n => n <? k | None => false end)
  | Some j =>
      match to_string j with
      | Ok s => Ok (match string_to_number s with Some n => n <? k | None => false end)
      | Throw e => Throw e
      end
  end.

(** [v.length] for a truthy [v]: arrays and strings have a length, an
    object has whatever its ["length"] key holds. *)
Definition length_of (v : JSON) : option JSON :=
  match v with
  | JArr l => Some (JNum (Z.of_nat (List.length l)))
  | JStr s => Some (JNum (Z.of_nat (String.length s)))
  | JObj o => get o "length"
  | _ => None
  end.

(** SameValueZero on two values, as a [Set] compares its members: primitives
    by value; an array or object is equal only to itself, and two
    occurrences in a specification are never the same object. *)
Definition same_value (a b : JSON) : bool :=
  match a, b with
  | JNull, JNull => true
  | JBool x, JBool y => Bool.eqb x y
  | JNum x, JNum y => x =? y
  | JStr x, JStr y => String.eqb x y
  | _, _ => false
  end.

(** [new Set(values).size]. *)
Fixpoint set_size (values : list JSON) (seen : list JSON) : nat :=
  match values with
  | [] => List.length seen
  | v :: r => if existsb (same_value v) seen then set_size r seen else set_size r (seen ++ [v])
  end.

(** The double nearest to an integer, ties going to the even significand:
    the integers below 2^53 in magnitude are doubles; from there on a double
    has 53 significant bits, the rest being zero. *)
Definition round_double (z : Z) : Z :=
  let m := Z.abs z in
  if m <? 2 ^ 53 then z
  else
    let ulp := 2 ^ (Z.log2 m - 52) in
    let q := m / ulp in
    let r := m mod ulp in
    let q' :=
      if 2 * r <? ulp then q
      else if ulp <? 2 * r then q + 1
      else if Z.even q then q else q + 1 in
    Z.sgn z * (q' * ulp).

(** [v + 1] on numbers. *)
Definition add_one (v : Z) : Z := round_double (v + 1).

(** [Number.isSafeInteger(v)] for an integer [v]. *)
Definition safe_integer (v : Z) : bool := (- 2 ^ 53 <? v) && (v <? 2 ^ 53).

End Js.

(** Builders for object literals. *)
Definition str (k v : string) : string * JSON := (k, JStr v).
Definition num (k : string) (n : Z) : string * JSON := (k, JNum n).
Definition flag (k : string) (b : bool) : string * JSON := (k, JBool b).
Definition arr (k : string) (l : list JSON) : string * JSON := (k, JArr l).
Definition obj (k : string) (o : Props) : string * JSON := (k, JObj o).

(** ** The data model (src/agents/types.ts) *)

Record ComponentMeta : Type := mkComponentMeta {
  reason : option string;
  alternatives : option (list string)
}.

Record ComponentSpec : Type := mkComponentSpec {
  comp_name : string;
  comp_props : Props;
  comp_children : option (list JSON);
  comp_metadata : option ComponentMeta
}.

Inductive LayoutType : Type := stack | grid | flex | custom.

Record Layout : Type := mkLayout {
  layout_type : option LayoutType;
  spacing : option string;
  maxWidth : option string
}.

Record SpecMeta : Type := mkSpecMeta {
  createdAt : option string;
  updatedAt : option string;
  version : option Z
}.

Record UISpec : Type := mkUISpec {
  ui_id : string;
  ui_name : option string;
  ui_description : option string;
  ui_components : list ComponentSpec;
  ui_layout : option Layout;
  ui_metadata : option SpecMeta
}.

Inductive AgentRole : Type :=
| orchestrator | ui_architect | design_critic | accessibility | export_engineer | user.

Inductive AgentActionType : Type :=
| CREATE_UI | MODIFY_UI | VALIDATE_DESIGN | VALIDATE_ACCESSIBILITY | EXPORT_CODE
| ANALYZE_REQUEST.

Inductive ErrorSeverity : Type := sev_error | sev_warning | sev_info.

Record AgentError : Type := mkAgentError {
  code : string;
  message : string;
  severity : ErrorSeverity
}.

(** [AgentResponse], with the type of [data] as a parameter.  An absent
    [errors] or [suggestions] array is the empty list: every reader goes
    through [errors?.[0]?.code || default]. *)
Record AgentResponse (D : Type) : Type := mkAgentResponse {
  success : bool;
  data : option D;
  errors : list AgentError;
  suggestions : list string;
  nextAgent : option AgentRole
}.
Arguments mkAgentResponse {D}.
Arguments success {D}.
Arguments data {D}.
Arguments errors {D}.
Arguments suggestions {D}.
Arguments nextAgent {D}.

Inductive IssueType : Type := spacing_issue | hierarchy | contrast | alignment | consistency.
Inductive IssueSeverity : Type := error | warning | suggestion.

Record Issue : Type := mkIssue {
  issue_type : IssueType;
  issue_severity : IssueSeverity;
  issue_message : string;
  issue_fix : option ComponentSpec
}.

Record Improvement : Type := mkImprovement {
  componentIndex : nat;
  improvement_suggestion : string;
  proposedProps : option Props
}.

Record DesignFeedback : Type := mkDesignFeedback {
  score : Z;
  issues : list Issue;
  improvements : list Improvement
}.

Inductive Impact : Type := critical | serious | moderate | minor.

Record Violation : Type := mkViolation {
  rule : string;
  impact : Impact;
  description : string;
  fix_text : string;
  violation_index : option nat
}.

Record Warning : Type := mkWarning {
  warning_rule : string;
  warning_description : string;
  recommendation : string
}.

Record AccessibilityReport : Type := mkAccessibilityReport {
  passed : bool;
  a11y_score : Z;
  violations : list Violation;
  warnings : list Warning
}.

Inductive FileType : Type := file_component | file_style | file_config.

Record ExportFile : Type := mkExportFile {
  file_name : string;
  file_content : string;
  file_type : FileType
}.

Record ExportPackage : Type := mkExportPackage {
  format : string;
  files : list ExportFile;
  instructions : string
}.

(** The payloads the orchestrator logs. *)
Inductive Payload : Type :=
| PayloadMessage (message : string)
| PayloadUserMessage (userMessage : string)
| PayloadUISpec (uiSpec : UISpec).

Record AgentMessage : Type := mkAgentMessage {
  msg_id : string;
  msg_from : AgentRole;
  msg_to : AgentRole;
  msg_action : AgentActionType;
  msg_payload : Payload;
  msg_timestamp : string
}.

Record AgentContext : Type := mkAgentContext {
  conversationId : string;
  currentUI : option UISpec;
  history : list AgentMessage
}.

(** [uiSpec.components = components] and [component.props = props]. *)
Definition set_components (ui : UISpec) (components : list ComponentSpec) : UISpec :=
  mkUISpec (ui_id ui) (ui_name ui) (ui_description ui) components
           (ui_layout ui) (ui_metadata ui).

Definition set_props (c : ComponentSpec) (props : Props) : ComponentSpec :=
  mkComponentSpec (comp_name c) props (comp_children c) (comp_metadata c).

(** A failure response with one error of severity ["error"] and no data. *)
Definition fail {D : Type} (code message : string) : AgentResponse D :=
  mkAgentResponse false None [mkAgentError code message sev_error] [] None.

(** ** Effects: identifiers, the clock and exceptions *)

Record World : Type := mkWorld {
  uuids : nat -> string;
  uuid_pos : nat;
  dates : nat -> string;
  date_pos : nat
}.

Definition M (A : Type) : Type := World -> outcome A * World.

#[export] Instance M_ret : MRet M := fun A a w => (Ok a, w).

#[export] Instance M_bind : MBind M := fun A B f m w =>
  match m w with
  | (Ok a, w') => f a w'
  | (Throw e, w') => (Throw e, w')
  end.

(** [uuidv4()]. *)
Definition uuidv4 : M string := fun w =>
  (Ok (uuids w (uuid_pos w)),
   mkWorld (uuids w) (S (uuid_pos w)) (dates w) (date_pos w)).

(** [new Date().toISOString()]. *)
Definition now : M string := fun w =>
  (Ok (dates w (date_pos w)),
   mkWorld (uuids w) (uuid_pos w) (dates w) (S (date_pos w))).

Definition throw {A : Type} (e : JsError) : M A := fun w => (Throw e, w).

(** [try { m } catch (error) { h error }]. *)
Definition try_catch {A : Type} (m : M A) (h : JsError -> M A) : M A := fun w =>
  match m w with
  | (Ok a, w') => (Ok a, w')
  | (Throw e, w') => h e w'
  end.

Definition lift {A : Type} (o : outcome A) : M A := fun w => (o, w).

(** A function without effects, as a computation. *)
Definition pure {A B : Type} (f : A -> B) : A -> M B := fun a => mret (f a).

(** ** The UI Architect agent (src/agents/ui-architect.ts) *)

Module UIArchitectAgent.

Inductive RequestType : Type := Create | Modify | Unknown.

Definition modifyKeywords : list string :=
  [ "change"; "update"; "modify"; "make it"; "add to";
    "remove"; "improve"; "fix"; "adjust"; "tweak";
    "instead"; "replace"; "bigger"; "smaller"; "more" ].

Definition createKeywords : list string :=
  [ "create"; "build"; "make"; "generate"; "design";
    "new"; "start"; "begin"; "i want"; "i need" ].

Definition hasModifyKeyword (message : string) : bool :=
  Str.includes_any (Str.toLowerCase message) modifyKeywords.

Definition hasCreateKeyword (message : string) : bool :=
  Str.includes_any (Str.toLowerCase message) createKeywords.

(** [analyzeRequestType]: the three returns of the source, in order. *)
Definition analyzeRequestType (context : AgentContext) (message : string) : RequestType :=
  if hasModifyKeyword message && bool_decide (is_Some (currentUI context)) then Modify
  else if hasCreateKeyword message || negb (bool_decide (is_Some (currentUI context)))
  then Create
  else match currentUI context with Some _ => Modify | None => Create end.

Definition componentKeywords : list (string * list string) :=
  [ ("button", ["button"; "cta"; "action"; "click"; "submit"]);
    ("card", ["card"; "container"; "box"; "section"; "panel"]);
    ("pricing", ["pricing"; "plans"; "tiers"; "subscription"; "cost"]);
    ("dashboard", ["dashboard"; "admin"; "panel"; "analytics"; "stats"]);
    ("chart", ["chart"; "graph"; "data"; "visualization"; "metrics"]);
    ("form", ["form"; "input"; "submit"; "contact"; "sign up"; "login"]);
    ("modal", ["modal"; "dialog"; "popup"; "overlay"; "confirm"]);
    ("testimonial", ["testimonial"; "review"; "quote"; "feedback"; "customer"]) ].

Definition styleKeywords : list string :=
  ["modern"; "minimal"; "clean"; "professional"; "vibrant"; "dark"; "light"].

Definition extractKeywords (description : string) : list string :=
  let lowerDesc := Str.toLowerCase description in
  map fst (List.filter (fun entry => Str.includes_any lowerDesc (snd entry)) componentKeywords)
  ++ map (fun style => "style:" ++ style)
         (List.filter (fun style => Str.includes lowerDesc style) styleKeywords).

(** [keywords.includes(k)]. *)
Definition has (keywords : list string) (k : string) : bool :=
  existsb (String.eqb k) keywords.

Definition createButtonSpec (description : string) : ComponentSpec :=
  let lowerDesc := Str.toLowerCase description in
  let text :=
    if Str.includes lowerDesc "contact" then "Contact Us"
    else if Str.includes lowerDesc "sign up" then "Sign Up"
    else if Str.includes lowerDesc "learn more" then "Learn More"
    else if Str.includes lowerDesc "try" then "Try for Free"
    else "Get Started" in
  mkComponentSpec "Button"
    [ str "text" text; str "variant" "solid"; str "color" "primary"; str "size" "lg" ]
    None
    (Some (mkComponentMeta (Some "Primary call-to-action button") None)).

Definition createCardSpec (description : string) : ComponentSpec :=
  let lowerDesc := Str.toLowerCase description in
  let variant :=
    if Str.includes lowerDesc "modern" || Str.includes lowerDesc "glass" then "glass"
    else if Str.includes lowerDesc "gradient" then "gradient"
    else "elevated" in
  mkComponentSpec "Card"
    [ str "variant" variant; str "title" "Welcome";
      str "content" "Your content goes here. Describe your product or service.";
      flag "hoverable" true; str "size" "lg" ]
    None
    (Some (mkComponentMeta (Some "Content container for hero or feature section") None)).

Definition feature (text : string) (included : bool) : JSON :=
  JObj [ str "text" text; flag "included" included ].

Definition createPricingTableSpec (_description : string) : ComponentSpec :=
  mkComponentSpec "PricingTable"
    [ str "headline" "Choose Your Plan";
      str "subheadline" "Select the perfect plan for your needs";
      arr "tiers"
        [ JObj [ str "id" "starter"; str "name" "Starter"; num "price" 9;
                 str "currency" "USD"; str "billingPeriod" "month";
                 str "description" "Perfect for getting started";
                 arr "features"
                   [ feature "5 Projects" true; feature "Basic Support" true;
                     feature "1GB Storage" true; feature "API Access" false ];
                 str "ctaText" "Get Started" ];
          JObj [ str "id" "pro"; str "name" "Professional"; num "price" 29;
                 str "currency" "USD"; str "billingPeriod" "month";
                 str "description" "Best for professionals";
                 arr "features"
                   [ feature "Unlimited Projects" true; feature "Priority Support" true;
                     feature "10GB Storage" true; feature "API Access" true ];
                 str "ctaText" "Start Free Trial"; flag "featured" true;
                 str "badge" "Most Popular" ];
          JObj [ str "id" "enterprise"; str "name" "Enterprise"; num "price" 99;
                 str "currency" "USD"; str "billingPeriod" "month";
                 str "description" "For large organizations";
                 arr "features"
                   [ feature "Unlimited Everything" true; feature "24/7 Support" true;
                     feature "Unlimited Storage" true; feature "Custom Integrations" true ];
                 str "ctaText" "Contact Sales" ] ];
      flag "showBillingToggle" true;
      num "yearlyDiscount" 20 ]
    None
    (Some (mkComponentMeta (Some "Pricing table for SaaS subscription plans") None)).

Definition createDashboardSpec (_description : string) : ComponentSpec :=
  mkComponentSpec "DashboardLayout"
    [ obj "sidebar"
        [ str "title" "Dashboard";
          arr "navItems"
            [ JObj [ str "id" "home"; str "label" "Home"; str "icon" "home";
                     str "href" "/"; flag "active" true ];
              JObj [ str "id" "analytics"; str "label" "Analytics"; str "icon" "bar-chart";
                     str "href" "/analytics" ];
              JObj [ str "id" "projects"; str "label" "Projects"; str "icon" "folder";
                     str "href" "/projects" ];
              JObj [ str "id" "settings"; str "label" "Settings"; str "icon" "settings";
                     str "href" "/settings" ] ];
          flag "collapsible" true;
          flag "showUserProfile" true;
          obj "userInfo" [ str "name" "John Doe"; str "email" "john@example.com" ] ];
      flag "showSidebar" true;
      obj "header"
        [ str "title" "Overview"; flag "showSearch" true;
          flag "showNotifications" true; flag "showUserMenu" true ];
      flag "showHeader" true;
      str "pageTitle" "Dashboard";
      str "contentPadding" "md" ]
    None
    (Some (mkComponentMeta (Some "Dashboard layout with navigation sidebar and header") None)).

Definition point (name : string) (value : Z) : JSON :=
  JObj [ str "name" name; num "value" value ].

Definition createChartSpec (_description : string) : ComponentSpec :=
  mkComponentSpec "Chart"
    [ str "type" "line"; str "title" "Performance Overview"; str "subtitle" "Last 6 months";
      arr "data"
        [ point "Jan" 1200; point "Feb" 1900; point "Mar" 1500;
          point "Apr" 2400; point "May" 2100; point "Jun" 2800 ];
      flag "showLegend" true; flag "showGrid" true; flag "animated" true;
      str "colorScheme" "default" ]
    None
    (Some (mkComponentMeta (Some "Data visualization chart") None)).

Definition field (id type label placeholder : string) : JSON :=
  JObj [ str "id" id; str "name" id; str "type" type; str "label" label;
         str "placeholder" placeholder; flag "required" true ].

Definition createFormSpec (_description : string) : ComponentSpec :=
  mkComponentSpec "Form"
    [ str "title" "Contact Us";
      str "description" "Fill out the form below and we'll get back to you";
      arr "fields"
        [ field "name" "text" "Full Name" "John Doe";
          field "email" "email" "Email" "john@example.com";
          field "message" "textarea" "Message" "How can we help?" ];
      str "submitText" "Send Message";
      flag "showSubmitButton" true;
      flag "showValidationOnBlur" true ]
    None
    (Some (mkComponentMeta (Some "Contact or input form") None)).

Definition createModalSpec (_description : string) : ComponentSpec :=
  mkComponentSpec "Modal"
    [ str "title" "Confirm Action";
      str "description" "Are you sure you want to proceed?";
      str "variant" "default"; str "size" "md"; flag "showCloseButton" true;
      obj "primaryAction" [ str "text" "Confirm"; str "variant" "solid" ];
      obj "secondaryAction" [ str "text" "Cancel"; str "variant" "outline" ];
      flag "isOpen" true ]
    None
    (Some (mkComponentMeta (Some "Modal dialog for confirmations or focused content") None)).

Definition testimonial (id quote authorName authorRole authorCompany : string) : JSON :=
  JObj [ str "id" id; str "quote" quote; str "authorName" authorName;
         str "authorRole" authorRole; str "authorCompany" authorCompany; num "rating" 5 ].

Definition createTestimonialSpec (_description : string) : ComponentSpec :=
  mkComponentSpec "TestimonialSection"
    [ str "headline" "What Our Customers Say";
      str "subheadline" "Don't just take our word for it";
      arr "testimonials"
        [ testimonial "1"
            "This product has completely transformed how we work. Highly recommended!"
            "Sarah Johnson" "CEO" "TechCorp";
          testimonial "2"
            "The best investment we've made this year. The results speak for themselves."
            "Michael Chen" "Director of Operations" "StartupXYZ";
          testimonial "3"
            "Incredible support team and a product that just works. Love it!"
            "Emily Brown" "Product Manager" "InnovateCo" ];
      str "layout" "grid"; num "columns" 3; flag "showRatings" true;
      flag "showAvatars" true; str "cardStyle" "elevated" ]
    None
    (Some (mkComponentMeta (Some "Customer testimonials for social proof") None)).

(** [components.push(c)] under a condition. *)
Definition push_if (cond : bool) (c : ComponentSpec) (components : list ComponentSpec)
  : list ComponentSpec :=
  if cond then components ++ [c] else components.

Definition selectComponents (keywords : list string) (description : string)
  : list ComponentSpec :=
  let lowerDesc := Str.toLowerCase description in
  let components := [] in
  let components := push_if (has keywords "pricing") (createPricingTableSpec description) components in
  let components := push_if (has keywords "dashboard") (createDashboardSpec description) components in
  let components := push_if (has keywords "chart") (createChartSpec description) components in
  let components := push_if (has keywords "form") (createFormSpec description) components in
  let components := push_if (has keywords "modal") (createModalSpec description) components in
  let components := push_if (has keywords "testimonial") (createTestimonialSpec description) components in
  let components :=
    push_if (has keywords "card" || Str.includes lowerDesc "hero" || Str.includes lowerDesc "feature")
            (createCardSpec description) components in
  let components :=
    push_if ((0 <? length components)%nat &&
             (Str.includes lowerDesc "landing" || Str.includes lowerDesc "hero"
              || Str.includes lowerDesc "cta"))
            (createButtonSpec description) components in
  if (length components =? 0)%nat
  then components ++ [createCardSpec description] ++ [createButtonSpec description]
  else components.

Definition determineLayout (components : list ComponentSpec) : option Layout :=
  let hasFullWidth :=
    existsb (fun c => String.eqb (comp_name c) "DashboardLayout"
                      || String.eqb (comp_name c) "PricingTable") components in
  if hasFullWidth then Some (mkLayout (Some stack) (Some "0") None)
  else Some (mkLayout (Some stack) (Some "2rem") (Some "1200px")).

Definition generateUIName (description : string) : string :=
  let lowerDesc := Str.toLowerCase description in
  if Str.includes lowerDesc "pricing" then "Pricing Page"
  else if Str.includes lowerDesc "dashboard" then "Dashboard"
  else if Str.includes lowerDesc "landing" then "Landing Page"
  else if Str.includes lowerDesc "hero" then "Hero Section"
  else if Str.includes lowerDesc "contact" then "Contact Form"
  else if Str.includes lowerDesc "testimonial" then "Testimonials Section"
  else "Generated UI".

(** [createNewUI]: the object literal evaluates [uuidv4()] before
    [new Date()]. *)
Definition createNewUI (description : string) : M UISpec :=
  let keywords := extractKeywords description in
  let components := selectComponents keywords description in
  id ← uuidv4;
  let name := generateUIName description in
  let layout := determineLayout components in
  createdAt ← now;
  mret (mkUISpec id (Some name) (Some description) components layout
                 (Some (mkSpecMeta (Some createdAt) None (Some 1)))).

(** The entries [determineModifications] builds: ["update"] entries carry a
    component index and props, ["add"] entries a component.  It builds no
    ["remove"] or ["replace"] entry, so those two arms of the switch in
    [modifyExistingUI] are never taken and are left out. *)
Inductive Modification : Type :=
| update (componentIndex : nat) (props : Props)
| add (component : ComponentSpec).

Definition determineModifications (request : string) (keywords : list string)
  : list Modification :=
  let lowerRequest := Str.toLowerCase request in
  (if Str.includes lowerRequest "more modern" || Str.includes lowerRequest "modern"
   then [update 0 [str "variant" "glass"]] else [])
  ++ (if Str.includes lowerRequest "bigger" || Str.includes lowerRequest "larger"
      then [update 0 [str "size" "xl"]] else [])
  ++ (if Str.includes lowerRequest "smaller"
      then [update 0 [str "size" "sm"]] else [])
  ++ (if Str.includes lowerRequest "add button" || Str.includes lowerRequest "add cta"
      then [add (createButtonSpec request)] else [])
  ++ (if Str.includes lowerRequest "add testimonial"
      then [add (createTestimonialSpec request)] else []).

(** One turn of the loop of [modifyExistingUI].  In the ["update"] arm
    [newUI.components[i]] is read without a guard: when it is [undefined]
    the property access throws. *)
Definition applyModification (newUI : UISpec) (mod_ : Modification) : outcome UISpec :=
  match mod_ with
  | add component => Ok (set_components newUI (ui_components newUI ++ [component]))
  | update i props =>
      match ui_components newUI !! i with
      | Some c =>
          Ok (set_components newUI
                (<[i := set_props c (Js.spread (comp_props c) props)]> (ui_components newUI)))
      | None =>
          Throw (TypeError "Cannot read properties of undefined (reading 'props')")
      end
  end.

Fixpoint applyModifications (newUI : UISpec) (mods : list Modification) : outcome UISpec :=
  match mods with
  | [] => Ok newUI
  | m :: rest =>
      match applyModification newUI m with
      | Ok ui' => applyModifications ui' rest
      | Throw e => Throw e
      end
  end.

(** [(newUI.metadata?.version || 0) + 1]. *)
Definition next_version (metadata : option SpecMeta) : Z :=
  Js.add_one
    match metadata with
    | Some m => match version m with Some v => v | None => 0 end
    | None => 0
    end.

(** [modifyExistingUI].  [JSON.parse(JSON.stringify(currentUI))] yields a
    copy equal to [currentUI] and sharing nothing with it. *)
Definition modifyExistingUI (request : string) (currentUI : UISpec) : M UISpec :=
  let keywords := extractKeywords request in
  let modifications := determineModifications request keywords in
  let newUI := currentUI in
  id ← uuidv4;
  updatedAt ← now;
  let metadata :=
    mkSpecMeta (m ← ui_metadata newUI; createdAt m) (Some updatedAt)
               (Some (next_version (ui_metadata newUI))) in
  let newUI :=
    mkUISpec id (ui_name newUI) (ui_description newUI) (ui_components newUI)
             (ui_layout newUI) (Some metadata) in
  lift (applyModifications newUI modifications).

Definition succeed (uiSpec : UISpec) : AgentResponse UISpec :=
  mkAgentResponse true (Some uiSpec) [] [] (Some design_critic).

(** [UIArchitectAgent.processRequest]. *)
Definition processRequest (context : AgentContext) (userMessage : string)
  : M (AgentResponse UISpec) :=
  try_catch
    (match analyzeRequestType context userMessage with
     | Create =>
         uiSpec ← createNewUI userMessage;
         mret (succeed uiSpec)
     | Modify =>
         match currentUI context with
         | None =>
             mret (fail "NO_EXISTING_UI"
                        "No existing UI to modify. Please create a UI first.")
         | Some ui =>
             uiSpec ← modifyExistingUI userMessage ui;
             mret (succeed uiSpec)
         end
     | Unknown =>
         mret (fail "UNKNOWN_REQUEST"
                    "Could not understand the request. Please describe what UI you want to create.")
     end)
    (fun error => mret (fail "PROCESSING_ERROR" (error_text error))).

(** The statements of [processRequest] that follow
    [const requestType = this.analyzeRequestType(userMessage)], as a function
    of [requestType]: the three branches, inside the same [try]. *)
Definition processClassified (requestType : RequestType) (context : AgentContext)
    (userMessage : string) : M (AgentResponse UISpec) :=
  try_catch
    (match requestType with
     | Create =>
         uiSpec ← createNewUI userMessage;
         mret (succeed uiSpec)
     | Modify =>
         match currentUI context with
         | None =>
             mret (fail "NO_EXISTING_UI"
                        "No existing UI to modify. Please create a UI first.")
         | Some ui =>
             uiSpec ← modifyExistingUI userMessage ui;
             mret (succeed uiSpec)
         end
     | Unknown =>
         mret (fail "UNKNOWN_REQUEST"
                    "Could not understand the request. Please describe what UI you want to create.")
     end)
    (fun error => mret (fail "PROCESSING_ERROR" (error_text error))).

End UIArchitectAgent.

(** A world for examples. *)
Definition world0 : World :=
  mkWorld (fun n => "uuid-" ++ Str.of_nat n) 0
          (fun n => "2026-01-01T00:00:0" ++ Str.of_nat n ++ ".000Z") 0.

Definition context0 : AgentContext := mkAgentContext "conversation-0" None [].

(** ** The Design Critic agent (src/agents/design-critic.ts) *)

Module DesignCriticAgent.

Definition push_issue (i : Issue) (feedback : DesignFeedback) : DesignFeedback :=
  mkDesignFeedback (score feedback) (issues feedback ++ [i]) (improvements feedback).

Definition push_improvement (i : Improvement) (feedback : DesignFeedback) : DesignFeedback :=
  mkDesignFeedback (score feedback) (issues feedback) (improvements feedback ++ [i]).

Definition when_ (cond : bool) (f : DesignFeedback -> DesignFeedback)
  (feedback : DesignFeedback) : DesignFeedback :=
  if cond then f feedback else feedback.

(** [tiers.some(t => t.featured)] on the elements of an array. *)
Fixpoint some_featured (tiers : list JSON) : outcome bool :=
  match tiers with
  | [] => Ok false
  | t :: r =>
      match Js.member_of t "featured" with
      | Throw e => Throw e
      | Ok v => if Js.truthy v then Ok true else some_featured r
      end
  end.

Definition checkButton (props : Props) (index : nat) (feedback : DesignFeedback)
  : DesignFeedback :=
  let size := Js.get props "size" in
  let feedback :=
    when_ (Js.is_str size "xs" || Js.is_str size "sm")
      (push_improvement
         (mkImprovement index "Consider using a larger button for better visibility"
                        (Some [str "size" "md"]))) feedback in
  when_ (Js.truthy (Js.get props "iconOnly") && negb (Js.truthy (Js.get props "ariaLabel"))
         && negb (Js.truthy (Js.get props "aria-label")))
    (push_issue
       (mkIssue hierarchy warning
          ("Button at index " ++ Str.of_nat index ++ " is icon-only without an aria-label")
          None)) feedback.

Definition checkCard (props : Props) (index : nat) (feedback : DesignFeedback)
  : DesignFeedback :=
  let feedback :=
    when_ (negb (Js.truthy (Js.get props "title")) && negb (Js.truthy (Js.get props "header")))
      (push_improvement
         (mkImprovement index "Add a title for better visual hierarchy"
                        (Some [str "title" "Section Title"]))) feedback in
  when_ (negb (Js.truthy (Js.get props "variant")))
    (push_improvement
       (mkImprovement index "Specify a card variant for visual interest"
                      (Some [str "variant" "elevated"]))) feedback.

(** The two pricing checks.  A truthy [tiers] that is not an array has no
    [some] method, and the call throws. *)
Definition checkPricingTable (props : Props) (index : nat) (feedback : DesignFeedback)
  : outcome DesignFeedback :=
  let tiers := Js.get props "tiers" in
  if Js.truthy tiers then
    match tiers with
    | Some (JArr l) =>
        match some_featured l with
        | Throw e => Throw e
        | Ok featured =>
            let feedback :=
              when_ (negb featured)
                (push_improvement
                   (mkImprovement index "Mark one tier as featured to guide user attention"
                                  None)) feedback in
            Ok (when_ (List.length l <? 2)%nat
                  (push_issue
                     (mkIssue hierarchy suggestion
                        "Consider adding more pricing tiers for comparison" None)) feedback)
        end
    | _ => Js.not_a_function "tiers.some"
    end
  else Ok feedback.

Definition checkForm (props : Props) (index : nat) (feedback : DesignFeedback)
  : DesignFeedback :=
  when_ (negb (Js.truthy (Js.get props "showValidationOnBlur"))
         && negb (Js.truthy (Js.get props "showValidationOnChange")))
    (push_improvement
       (mkImprovement index "Enable validation feedback for better UX"
                      (Some [flag "showValidationOnBlur" true]))) feedback.

Definition checkChart (props : Props) (index : nat) (feedback : DesignFeedback)
  : DesignFeedback :=
  let feedback :=
    when_ (negb (Js.truthy (Js.get props "title")))
      (push_improvement
         (mkImprovement index "Add a title to provide context for the chart"
                        (Some [str "title" "Data Overview"]))) feedback in
  when_ (Js.is_false (Js.get props "showLegend"))
    (push_improvement
       (mkImprovement index "Consider showing the legend for better data understanding"
                      (Some [flag "showLegend" true]))) feedback.

Definition checkDashboardLayout (props : Props) (index : nat) (feedback : DesignFeedback)
  : DesignFeedback :=
  let header := Js.get props "header" in
  when_ (Js.truthy header
         && negb (Js.truthy (match header with
                             | Some h => Js.member h "showBreadcrumbs"
                             | None => None
                             end)))
    (push_improvement
       (mkImprovement index "Add breadcrumbs for better navigation context" None)) feedback.

Definition checkTestimonialSection (props : Props) (index : nat) (feedback : DesignFeedback)
  : outcome DesignFeedback :=
  let testimonials := Js.get props "testimonials" in
  match (if Js.truthy testimonials
         then match testimonials with
              | Some t => Js.less_than (Js.length_of t) 3
              | None => Ok false
              end
         else Ok false) with
  | Throw e => Throw e
  | Ok few =>
      let feedback :=
        when_ few
          (push_improvement
             (mkImprovement index "Add more testimonials for stronger social proof" None))
          feedback in
      Ok (when_ (negb (Js.truthy (Js.get props "showRatings")))
            (push_improvement
               (mkImprovement index "Show ratings to increase credibility"
                              (Some [flag "showRatings" true]))) feedback)
  end.

(** [checkComponent]: a component has one name, so at most one of the
    seven blocks of the source runs. *)
Definition checkComponent (component : ComponentSpec) (index : nat)
  (feedback : DesignFeedback) : outcome DesignFeedback :=
  let props := comp_props component in
  let name := comp_name component in
  if String.eqb name "Button" then Ok (checkButton props index feedback)
  else if String.eqb name "Card" then Ok (checkCard props index feedback)
  else if String.eqb name "PricingTable" then checkPricingTable props index feedback
  else if String.eqb name "Form" then Ok (checkForm props index feedback)
  else if String.eqb name "Chart" then Ok (checkChart props index feedback)
  else if String.eqb name "DashboardLayout" then Ok (checkDashboardLayout props index feedback)
  else if String.eqb name "TestimonialSection" then checkTestimonialSection props index feedback
  else Ok feedback.

(** [uiSpec.components.forEach((component, index) => checkComponent(...))]. *)
Fixpoint checkComponents (components : list ComponentSpec) (index : nat)
  (feedback : DesignFeedback) : outcome DesignFeedback :=
  match components with
  | [] => Ok feedback
  | c :: r =>
      match checkComponent c index feedback with
      | Ok feedback' => checkComponents r (S index) feedback'
      | Throw e => Throw e
      end
  end.

Definition named (n : string) (c : ComponentSpec) : bool := String.eqb (comp_name c) n.

Definition checkLayout (uiSpec : UISpec) (feedback : DesignFeedback) : DesignFeedback :=
  let components := ui_components uiSpec in
  let feedback :=
    when_ (10 <? List.length components)%nat
      (push_issue
         (mkIssue hierarchy warning "Too many components may cause cognitive overload" None))
      feedback in
  let hasHeroContent :=
    existsb (fun c =>
               named "Card" c
               && (Js.is_str (Js.get (comp_props c) "size") "lg"
                   || Js.is_str (Js.get (comp_props c) "size") "xl")) components in
  let feedback :=
    when_ (negb hasHeroContent && (0 <? List.length components)%nat)
      (push_improvement
         (mkImprovement 0 "Consider making the first element larger for visual impact"
                        (Some [str "size" "lg"]))) feedback in
  let hasButton := existsb (named "Button") components in
  when_ (negb hasButton && negb (existsb (named "Form") components))
    (push_issue
       (mkIssue hierarchy suggestion "Consider adding a call-to-action button" None))
    feedback.

(** The defined values of property [k] over the components named [n]. *)
Definition defined_values (n k : string) (components : list ComponentSpec) : list JSON :=
  omap (fun c => Js.get (comp_props c) k) (List.filter (named n) components).

Definition checkConsistency (components : list ComponentSpec) (feedback : DesignFeedback)
  : DesignFeedback :=
  let uniqueSizes := Js.set_size (defined_values "Button" "size" components) [] in
  let feedback :=
    when_ (2 <? uniqueSizes)%nat
      (push_issue
         (mkIssue consistency warning
            "Too many different button sizes (use max 2 for consistency)" None)) feedback in
  let uniqueVariants := Js.set_size (defined_values "Card" "variant" components) [] in
  when_ (2 <? uniqueVariants)%nat
    (push_issue
       (mkIssue consistency suggestion
          "Consider using fewer card variants for visual consistency" None)) feedback.

Definition penalty (s : IssueSeverity) : Z :=
  match s with
  | error => 20
  | warning => 10
  | suggestion => 5
  end.

(** [calculateScore]: the penalties are subtracted one issue at a time, the
    bonus is added next, and the floor at 0 is applied last. *)
Definition calculateScore (feedback : DesignFeedback) : Z :=
  let score := fold_left (fun score issue => score - penalty (issue_severity issue))
                         (issues feedback) 100 in
  let score :=
    if (0 <? List.length (improvements feedback))%nat
       && (List.length (improvements feedback) <=? 3)%nat
    then Z.min 100 (score + 5) else score in
  Z.max 0 score.

Definition analyzeDesign (uiSpec : UISpec) : outcome DesignFeedback :=
  let feedback := mkDesignFeedback 100 [] [] in
  match checkComponents (ui_components uiSpec) 0 feedback with
  | Throw e => Throw e
  | Ok feedback =>
      let feedback := checkLayout uiSpec feedback in
      let feedback := checkConsistency (ui_components uiSpec) feedback in
      Ok (mkDesignFeedback (calculateScore feedback) (issues feedback) (improvements feedback))
  end.

(** One improvement of [applyImprovements]: the patch is merged only when
    the improvement carries props and the indexed component exists. *)
Definition applyImprovement (improved : UISpec) (improvement : Improvement) : UISpec :=
  match proposedProps improvement with
  | Some patch =>
      match ui_components improved !! componentIndex improvement with
      | Some component =>
          set_components improved
            (<[componentIndex improvement :=
                 set_props component
                   (Js.spread (comp_props component) patch)]> (ui_components improved))
      | None => improved
      end
  | None => improved
  end.

(** [applyImprovements]: the JSON copy of [uiSpec] with every improvement
    applied in order. *)
Definition applyImprovements (uiSpec : UISpec) (feedback : DesignFeedback) : UISpec :=
  fold_left applyImprovement (improvements feedback) uiSpec.

(** What [review] puts in [data]: the feedback alone in the blocking
    return, the pair [{ feedback, improvedUI }] otherwise. *)
Inductive ReviewData : Type :=
| FeedbackOnly (feedback : DesignFeedback)
| Reviewed (feedback : DesignFeedback) (improvedUI : UISpec).

Definition is_error (i : Issue) : bool :=
  match issue_severity i with error => true | _ => false end.

(** The body of [review] after [analyzeDesign] has returned [feedback]. *)
Definition review_feedback (uiSpec : UISpec) (feedback : DesignFeedback)
  : AgentResponse ReviewData :=
  let hasCriticalIssues := existsb is_error (issues feedback) in
  if hasCriticalIssues then
    mkAgentResponse false (Some (FeedbackOnly feedback))
      [ mkAgentError "DESIGN_ISSUES"
          ("Found " ++ Str.of_nat (List.length (List.filter is_error (issues feedback)))
           ++ " critical design issues")
          sev_error ]
      (map improvement_suggestion (improvements feedback))
      None
  else
    let improvedUI := applyImprovements uiSpec feedback in
    mkAgentResponse true (Some (Reviewed feedback improvedUI)) [] [] (Some accessibility).

Definition review (uiSpec : UISpec) : AgentResponse ReviewData :=
  match analyzeDesign uiSpec with
  | Ok feedback => review_feedback uiSpec feedback
  | Throw e => fail "REVIEW_ERROR" (error_text e)
  end.

End DesignCriticAgent.

(** ** The Accessibility agent (src/agents/accessibility-agent.ts) *)

Module AccessibilityAgent.

Definition push_violation (v : Violation) (report : AccessibilityReport) : AccessibilityReport :=
  mkAccessibilityReport (passed report) (a11y_score report) (violations report ++ [v])
                        (warnings report).

Definition push_warning (w : Warning) (report : AccessibilityReport) : AccessibilityReport :=
  mkAccessibilityReport (passed report) (a11y_score report) (violations report)
                        (warnings report ++ [w]).

Definition when_ (cond : bool) (f : AccessibilityReport -> AccessibilityReport)
  (report : AccessibilityReport) : AccessibilityReport :=
  if cond then f report else report.

(** A monadic fold for [array.forEach((x, i) => ...)] with a body that may
    throw. *)
Fixpoint forEach {A St : Type} (f : A -> nat -> St -> outcome St) (l : list A) (i : nat)
  (s : St) : outcome St :=
  match l with
  | [] => Ok s
  | x :: r =>
      match f x i s with
      | Ok s' => forEach f r (S i) s'
      | Throw e => Throw e
      end
  end.

Definition checkButton (props : Props) (index : nat) (report : AccessibilityReport)
  : AccessibilityReport :=
  let report :=
    when_ (Js.truthy (Js.get props "iconOnly") && negb (Js.truthy (Js.get props "ariaLabel"))
           && negb (Js.truthy (Js.get props "aria-label")))
      (push_violation
         (mkViolation "button-name" critical
            ("Button at index " ++ Str.of_nat index ++ " is icon-only without accessible name")
            "Add ariaLabel prop to the Button component" (Some index))) report in
  when_ (negb (Js.truthy (Js.get props "iconOnly")) && negb (Js.truthy (Js.get props "text"))
         && negb (Js.truthy (Js.get props "children")))
    (push_violation
       (mkViolation "button-name" critical
          ("Button at index " ++ Str.of_nat index ++ " has no text content")
          "Add text prop or children to the Button" (Some index))) report.

(** [fields[0]] for a truthy [fields]. *)
Definition first_of (fields : JSON) : option JSON :=
  match fields with
  | JArr l => head l
  | JStr (String c _) => Some (JStr (String c EmptyString))
  | JObj o => Js.get o "0"
  | _ => None
  end.

(** [x?.k]. *)
Definition optional_member (x : option JSON) (k : string) : option JSON :=
  match x with
  | None | Some JNull => None
  | Some v => Js.member v k
  end.

(** [fields.flatMap(s => s.fields || [])] on the elements of an array. *)
Fixpoint flatMap_fields (sections : list JSON) : outcome (list JSON) :=
  match sections with
  | [] => Ok []
  | s :: r =>
      match Js.member_of s "fields" with
      | Throw e => Throw e
      | Ok v =>
          let here := match Js.or_else v (Some (JArr [])) with
                      | Some (JArr l) => l
                      | Some x => [x]
                      | None => []
                      end in
          match flatMap_fields r with
          | Ok rest => Ok (here ++ rest)%list
          | Throw e => Throw e
          end
      end
  end.

(** The body of [flatFields.forEach((field, fieldIndex) => ...)]. *)
Definition checkField (index : nat) (field : JSON) (fieldIndex : nat)
  (report : AccessibilityReport) : outcome AccessibilityReport :=
  match Js.member_of field "label" with
  | Throw e => Throw e
  | Ok label =>
      let name := Js.member field "name" in
      match (if negb (Js.truthy label) && negb (Js.truthy (Js.member field "aria-label"))
             then match Js.string_of name with
                  | Throw e => Throw e
                  | Ok n =>
                      Ok (push_violation
                            (mkViolation "form-field-label" critical
                               ("Form field " ++ Str.quoted n ++ " at index " ++ Str.of_nat fieldIndex
                                ++ " has no label")
                               ("Add label prop to field " ++ Str.quoted n) (Some index))
                            report)
                  end
             else Ok report) with
      | Throw e => Throw e
      | Ok report =>
          if Js.truthy (Js.member field "required") then
            match (match label with
                   | None | Some JNull => Ok false
                   | Some l => match Js.to_string l with
                               | Ok s => Ok (Str.includes s "*")
                               | Throw e => Throw e
                               end
                   end) with
            | Throw e => Throw e
            | Ok starred =>
                if negb starred then
                  match Js.string_of name with
                  | Throw e => Throw e
                  | Ok n =>
                      Ok (push_warning
                            (mkWarning "required-indication"
                               ("Required field " ++ Str.quoted n
                                ++ " doesn't visually indicate requirement")
                               "Required fields should be visually indicated (e.g., asterisk)")
                            report)
                  end
                else Ok report
            end
          else Ok report
      end
  end.

Definition checkForm (props : Props) (index : nat) (report : AccessibilityReport)
  : outcome AccessibilityReport :=
  let fields := Js.or_else (Js.get props "fields") (Js.get props "sections") in
  match fields with
  | Some f =>
      if Js.truthy fields then
        let nested := match optional_member (first_of f) "fields" with
                      | Some (JArr _) => true
                      | _ => false
                      end in
        match (if nested
               then match f with
                    | JArr l => flatMap_fields l
                    | _ => Js.not_a_function "fields.flatMap"
                    end
               else match f with
                    | JArr l => Ok l
                    | _ => Js.not_a_function "flatFields.forEach"
                    end) with
        | Throw e => Throw e
        | Ok flatFields => forEach (checkField index) flatFields 0%nat report
        end
      else Ok report
  | None => Ok report
  end.

Definition checkModal (props : Props) (index : nat) (report : AccessibilityReport)
  : AccessibilityReport :=
  let report :=
    when_ (negb (Js.truthy (Js.get props "title")) && negb (Js.truthy (Js.get props "aria-label"))
           && negb (Js.truthy (Js.get props "ariaLabel")))
      (push_violation
         (mkViolation "modal-name" serious
            ("Modal at index " ++ Str.of_nat index ++ " has no accessible name")
            "Add title or aria-label prop to the Modal" (Some index))) report in
  when_ (Js.is_false (Js.get props "showCloseButton")
         && negb (Js.truthy (Js.get props "closeOnEscape"))
         && negb (Js.truthy (Js.get props "closeOnOverlayClick")))
    (push_violation
       (mkViolation "modal-escape" serious
          ("Modal at index " ++ Str.of_nat index ++ " has no way to close")
          "Enable at least one close mechanism: showCloseButton, closeOnEscape, or closeOnOverlayClick"
          (Some index))) report.

Definition checkCard (props : Props) (index : nat) (report : AccessibilityReport)
  : AccessibilityReport :=
  let report :=
    when_ (Js.truthy (Js.get props "clickable") && negb (Js.truthy (Js.get props "href"))
           && negb (Js.truthy (Js.get props "onClick")))
      (push_warning
         (mkWarning "card-interactive"
            ("Clickable card at index " ++ Str.of_nat index
             ++ " should have clear interactive purpose")
            "Add href or ensure onClick handles keyboard events")) report in
  when_ (Js.truthy (Js.get props "imageUrl") && negb (Js.truthy (Js.get props "imageAlt")))
    (push_violation
       (mkViolation "image-alt" serious
          ("Card image at index " ++ Str.of_nat index ++ " has no alt text")
          "Add imageAlt prop with descriptive text" (Some index))) report.

Definition checkChart (props : Props) (index : nat) (report : AccessibilityReport)
  : AccessibilityReport :=
  when_ (negb (Js.truthy (Js.get props "title")) && negb (Js.truthy (Js.get props "aria-label")))
    (push_violation
       (mkViolation "chart-label" serious
          ("Chart at index " ++ Str.of_nat index ++ " has no accessible label")
          "Add title or aria-label to describe the chart data" (Some index))) report.

Definition checkTestimonial (testimonial : JSON) (tIndex : nat) (report : AccessibilityReport)
  : outcome AccessibilityReport :=
  match Js.member_of testimonial "authorAvatarUrl" with
  | Throw e => Throw e
  | Ok avatar =>
      Ok (when_ (Js.truthy avatar && negb (Js.truthy (Js.member testimonial "authorName")))
            (push_warning
               (mkWarning "image-alt"
                  ("Testimonial " ++ Str.of_nat tIndex
                   ++ " has avatar without author name for alt text")
                  "Ensure authorName is provided for avatar alt text")) report)
  end.

Definition checkTestimonialSection (props : Props) (index : nat) (report : AccessibilityReport)
  : outcome AccessibilityReport :=
  let testimonials := Js.get props "testimonials" in
  if Js.truthy testimonials then
    match testimonials with
    | Some (JArr l) => forEach checkTestimonial l 0%nat report
    | _ => Js.not_a_function "testimonials.forEach"
    end
  else Ok report.

Definition checkNavItem (index : nat) (item : JSON) (itemIndex : nat)
  (report : AccessibilityReport) : outcome AccessibilityReport :=
  match Js.member_of item "icon" with
  | Throw e => Throw e
  | Ok icon =>
      Ok (when_ (Js.truthy icon && negb (Js.truthy (Js.member item "label")))
            (push_violation
               (mkViolation "nav-item-label" serious
                  ("Navigation item " ++ Str.of_nat itemIndex ++ " has icon but no label")
                  "Add label prop to navigation item" (Some index))) report)
  end.

Definition checkDashboardLayout (props : Props) (index : nat) (report : AccessibilityReport)
  : outcome AccessibilityReport :=
  let sidebar := Js.get props "sidebar" in
  if Js.truthy sidebar then
    let navItems := match sidebar with Some s => Js.member s "navItems" | None => None end in
    if Js.truthy navItems then
      match navItems with
      | Some (JArr l) => forEach (checkNavItem index) l 0%nat report
      | _ => Js.not_a_function "navItems.forEach"
      end
    else Ok report
  else Ok report.

(** [checkComponentAccessibility]: as in the critic, one name selects at
    most one block. *)
Definition checkComponentAccessibility (component : ComponentSpec) (index : nat)
  (report : AccessibilityReport) : outcome AccessibilityReport :=
  let props := comp_props component in
  let name := comp_name component in
  if String.eqb name "Button" then Ok (checkButton props index report)
  else if String.eqb name "Form" then checkForm props index report
  else if String.eqb name "Modal" then Ok (checkModal props index report)
  else if String.eqb name "Card" then Ok (checkCard props index report)
  else if String.eqb name "Chart" then Ok (checkChart props index report)
  else if String.eqb name "TestimonialSection" then checkTestimonialSection props index report
  else if String.eqb name "DashboardLayout" then checkDashboardLayout props index report
  else Ok report.

Definition checkPageStructure (uiSpec : UISpec) (report : AccessibilityReport)
  : AccessibilityReport :=
  let components := ui_components uiSpec in
  let hasDashboard := existsb (DesignCriticAgent.named "DashboardLayout") components in
  let report :=
    when_ (negb hasDashboard)
      (push_warning
         (mkWarning "landmark-main" "Consider using semantic landmarks for page structure"
            "Wrap content in main, nav, aside elements as appropriate")) report in
  let hasHeadings :=
    existsb (fun c => Js.truthy (Js.or_else (Js.get (comp_props c) "title")
                                            (Js.get (comp_props c) "headline"))) components in
  when_ (negb hasHeadings && (0 <? List.length components)%nat)
    (push_warning
       (mkWarning "heading-structure" "Page may lack proper heading structure"
          "Add headings to organize content hierarchically")) report.

Definition impact_penalty (i : Impact) : Z :=
  match i with
  | critical => 25
  | serious => 15
  | moderate => 10
  | minor => 5
  end.

Definition calculateA11yScore (report : AccessibilityReport) : Z :=
  let score := fold_left (fun score violation => score - impact_penalty (impact violation))
                         (violations report) 100 in
  let score := fold_left (fun score _ => score - 2) (warnings report) score in
  Z.max 0 score.

Definition is_critical (v : Violation) : bool :=
  match impact v with critical => true | _ => false end.

(** [report.violations.filter(v => v.impact === "critical")]. *)
Definition criticalViolations (report : AccessibilityReport) : list Violation :=
  List.filter is_critical (violations report).

Definition runAccessibilityChecks (uiSpec : UISpec) : outcome AccessibilityReport :=
  let report := mkAccessibilityReport true 100 [] [] in
  match forEach checkComponentAccessibility (ui_components uiSpec) 0%nat report with
  | Throw e => Throw e
  | Ok report =>
      let report := checkPageStructure uiSpec report in
      let score := calculateA11yScore report in
      Ok (mkAccessibilityReport
            (List.length (criticalViolations report) =? 0)%nat
            score (violations report) (warnings report))
  end.

(** The four auto-fixes on the props of the indexed component. *)
Definition fixProps (violation : Violation) (props : Props) : outcome Props :=
  match (if String.eqb (rule violation) "button-name" && Js.truthy (Js.get props "iconOnly")
         then match Js.string_of (Js.or_else (Js.get props "icon") (Some (JStr "Action"))) with
              | Ok s => Ok (Js.set props "ariaLabel" (JStr (s ++ " button")))
              | Throw e => Throw e
              end
         else Ok props) with
  | Throw e => Throw e
  | Ok props =>
      let props :=
        if String.eqb (rule violation) "modal-name" && negb (Js.truthy (Js.get props "title"))
        then Js.set props "aria-label" (JStr "Dialog") else props in
      match (if String.eqb (rule violation) "image-alt" && Js.truthy (Js.get props "imageUrl")
             then match Js.string_of (Js.or_else (Js.get props "title") (Some (JStr "Image"))) with
                  | Ok s => Ok (Js.set props "imageAlt" (JStr s))
                  | Throw e => Throw e
                  end
             else Ok props) with
      | Throw e => Throw e
      | Ok props =>
          if String.eqb (rule violation) "chart-label"
          then match Js.string_of (Js.or_else (Js.get props "subtitle")
                                              (Some (JStr "Data visualization"))) with
               | Ok s => Ok (Js.set props "aria-label" (JStr ("Chart: " ++ s)))
               | Throw e => Throw e
               end
          else Ok props
      end
  end.

(** One violation of [applyAccessibilityFixes]: nothing happens without a
    component index or without a component at that index. *)
Definition applyFix (fixed : UISpec) (violation : Violation) : outcome UISpec :=
  match violation_index violation with
  | None => Ok fixed
  | Some i =>
      match ui_components fixed !! i with
      | None => Ok fixed
      | Some component =>
          match fixProps violation (comp_props component) with
          | Ok props =>
              Ok (set_components fixed (<[i := set_props component props]> (ui_components fixed)))
          | Throw e => Throw e
          end
      end
  end.

Fixpoint applyFixes (fixed : UISpec) (vs : list Violation) : outcome UISpec :=
  match vs with
  | [] => Ok fixed
  | v :: r =>
      match applyFix fixed v with
      | Ok fixed' => applyFixes fixed' r
      | Throw e => Throw e
      end
  end.

Definition applyAccessibilityFixes (uiSpec : UISpec) (report : AccessibilityReport)
  : outcome UISpec :=
  applyFixes uiSpec (violations report).

Record ValidationData : Type := mkValidationData {
  report : AccessibilityReport;
  fixedUI : UISpec
}.

Definition validate (uiSpec : UISpec) : AgentResponse ValidationData :=
  match runAccessibilityChecks uiSpec with
  | Throw e => fail "VALIDATION_ERROR" (error_text e)
  | Ok report =>
      match applyAccessibilityFixes uiSpec report with
      | Throw e => fail "VALIDATION_ERROR" (error_text e)
      | Ok fixedUI =>
          let criticalViolations := criticalViolations report in
          if (0 <? List.length criticalViolations)%nat then
            mkAgentResponse false (Some (mkValidationData report fixedUI))
              (map (fun v => mkAgentError ("A11Y_" ++ Str.toUpperCase (rule v))
                                          (description v) sev_error) criticalViolations)
              (map fix_text criticalViolations)
              None
          else
            mkAgentResponse true (Some (mkValidationData report fixedUI)) [] []
                            (Some export_engineer)
      end
  end.

End AccessibilityAgent.

(** ** The export MCP server (src/mcp/export/server.ts) *)

Module ExportServer.

Definition hex_digit (n : nat) : ascii :=
  if (n <? 10)%nat then ascii_of_nat (48 + n) else ascii_of_nat (87 + n).

(** The escape of one character inside a JSON string literal. *)
Definition escape_char (c : ascii) : string :=
  let n := nat_of_ascii c in
  if (n =? 34)%nat then String "\" Str.dquote
  else if (n =? 92)%nat then "\\"
  else if (n =? 8)%nat then "\b"
  else if (n =? 12)%nat then "\f"
  else if (n =? 10)%nat then "\n"
  else if (n =? 13)%nat then "\r"
  else if (n =? 9)%nat then "\t"
  else if (n <? 32)%nat
       then "\u00" ++ String (hex_digit (n / 16)) (String (hex_digit (n mod 16)) EmptyString)
  else String c EmptyString.

Fixpoint escape (s : string) : string :=
  match s with
  | EmptyString => EmptyString
  | String c r => escape_char c ++ escape r
  end.

(** QuoteJSONString. *)
Definition quote (s : string) : string := Str.dquote ++ escape s ++ Str.dquote.

(** Join the serialized members of an array or object: [open] and [close]
    are the brackets, [gap] the indentation unit, [indent] the indentation
    of the enclosing line. *)
Definition wrap (open close gap indent : string) (parts : list string) : string :=
  match parts with
  | [] => open ++ close
  | _ =>
      if String.eqb gap EmptyString then open ++ Str.join "," parts ++ close
      else
        let inner := indent ++ gap in
        let nl := String (ascii_of_nat 10) EmptyString in
        open ++ nl ++ inner ++ Str.join ("," ++ nl ++ inner) parts ++ nl ++ indent ++ close
  end.

(** SerializeJSONProperty with indentation unit [gap] at indentation
    [indent]. *)
Fixpoint serialize (gap indent : string) (v : JSON) : string :=
  match v with
  | JNull => "null"
  | JBool true => "true"
  | JBool false => "false"
  | JNum n => Str.of_Z n
  | JStr s => quote s
  | JArr l =>
      wrap "[" "]" gap indent
        ((fix elems (l : list JSON) : list string :=
            match l with
            | [] => []
            | x :: r => serialize gap (indent ++ gap) x :: elems r
            end) l)
  | JObj o =>
      wrap "{" "}" gap indent
        ((fix members (o : list (string * JSON)) : list string :=
            match o with
            | [] => []
            | (k, x) :: r =>
                (quote k ++ (if String.eqb gap EmptyString then ":" else ": ")
                 ++ serialize gap (indent ++ gap) x) :: members r
            end) o)
  end.

Fixpoint spaces (n : nat) : string :=
  match n with
  | O => EmptyString
  | S k => String " " (spaces k)
  end.

(** [JSON.stringify(v, null, n)]. *)
Definition stringify_indent (n : nat) (v : JSON) : string := serialize (spaces n) EmptyString v.

Record Component : Type := mkComponent {
  name : string;
  props : Props
}.

Definition nl : string := String (ascii_of_nat 10) EmptyString.

(** One attribute of [generatePageCode]. *)
Definition pageProp (entry : string * JSON) : string :=
  let (key, value) := entry in
  match value with
  | JStr s => key ++ "=" ++ Str.quoted s
  | JBool true => key
  | JBool false => key ++ "={false}"
  | JNum n => key ++ "={" ++ Str.of_Z n ++ "}"
  | _ =>
      key ++ "={" ++ Str.replace_newlines (nl ++ spaces 8) (stringify_indent 8 value) ++ "}"
  end.

(** [[...new Set(names)]]: first occurrences, in order. *)
Fixpoint unique (names : list string) (seen : list string) : list string :=
  match names with
  | [] => seen
  | n :: r =>
      if existsb (String.eqb n) seen then unique r seen else unique r (seen ++ [n])
  end.

Inductive Framework : Type := nextjs | vite | cra.

Definition generatePageCode (components : list Component) (typescript : bool)
  (framework : Framework) : string :=
  let imports := Str.join ", " (unique (map name components) []) in
  let componentCode :=
    Str.join (nl ++ nl)
      (map (fun comp =>
              let propsString := Str.join (nl ++ spaces 8) (map pageProp (props comp)) in
              "      <" ++ name comp ++ nl ++ "        " ++ propsString ++ nl ++ "      />")
           components) in
  match framework with
  | nextjs =>
      Str.quoted "use client" ++ ";" ++ nl ++ nl
      ++ "import { " ++ imports ++ " } from " ++ Str.quoted "@/components/generative" ++ ";"
      ++ nl ++ nl
      ++ "export default function GeneratedPage() {" ++ nl
      ++ "  return (" ++ nl
      ++ "    <main className=" ++ Str.quoted "min-h-screen bg-slate-50 dark:bg-slate-950"
      ++ ">" ++ nl
      ++ componentCode ++ nl
      ++ "    </main>" ++ nl
      ++ "  );" ++ nl
      ++ "}"
  | _ =>
      "import { " ++ imports ++ " } from " ++ Str.quoted "@/components/generative" ++ ";"
      ++ nl ++ nl
      ++ "function GeneratedPage() {" ++ nl
      ++ "  return (" ++ nl
      ++ "    <main className=" ++ Str.quoted "min-h-screen bg-slate-50 dark:bg-slate-950"
      ++ ">" ++ nl
      ++ componentCode ++ nl
      ++ "    </main>" ++ nl
      ++ "  );" ++ nl
      ++ "}" ++ nl ++ nl
      ++ "export default GeneratedPage;"
  end.

(** [generateTailwindCSS]: a constant text. *)
Definition generateTailwindCSS (components : list Component) : string :=
"/* Custom styles for generated components */

/* Base component customizations */
.generated-ui {
  @apply min-h-screen bg-slate-50 dark:bg-slate-950;
}

/* Button customizations */
.generated-button-primary {
  @apply bg-gradient-to-r from-violet-600 to-purple-600 text-white;
  @apply hover:from-violet-700 hover:to-purple-700;
  @apply shadow-lg shadow-violet-500/25;
}

/* Card customizations */
.generated-card {
  @apply bg-white dark:bg-slate-900;
  @apply rounded-xl shadow-lg;
  @apply border border-slate-200 dark:border-slate-800;
}

/* Form customizations */
.generated-form-input {
  @apply w-full px-4 py-2;
  @apply border border-slate-200 dark:border-slate-700;
  @apply rounded-lg bg-white dark:bg-slate-800;
  @apply focus:ring-2 focus:ring-violet-500/50 focus:border-violet-500;
}

/* Chart customizations */
.generated-chart {
  @apply bg-white dark:bg-slate-900;
  @apply rounded-xl border border-slate-200 dark:border-slate-800;
  @apply p-6;
}

/* Animation classes */
@keyframes fade-in {
  from { opacity: 0; }
  to { opacity: 1; }
}

@keyframes slide-up {
  from { 
    opacity: 0;
    transform: translateY(20px);
  }
  to { 
    opacity: 1;
    transform: translateY(0);
  }
}

.animate-fade-in {
  animation: fade-in 0.3s ease-out;
}

.animate-slide-up {
  animation: slide-up 0.4s ease-out;
}
".

(** [components.map((comp, index) => f comp index)]. *)
Fixpoint mapi {A B : Type} (f : A -> nat -> B) (l : list A) (i : nat) : list B :=
  match l with
  | [] => []
  | x :: r => f x i :: mapi f r (S i)
  end.

(** The tool [export_json_schema]: the text it returns.  The clock is read
    only when metadata is included. *)
Definition export_json_schema (components : list Component) (includeMetadata : bool)
  : M string :=
  metadata ← (if includeMetadata return M Props
              then generatedAt ← now;
                   mret [ obj "metadata"
                            [ str "generatedAt" generatedAt;
                              str "generatedBy" "UI-Smith";
                              num "componentCount" (Z.of_nat (List.length components)) ] ]
              else mret []);
  let schema : Props :=
    ([ str "$schema" "https://json-schema.org/draft/2020-12/schema";
       str "title" "UI-Smith Generated UI";
       str "version" "1.0.0" ]
     ++ metadata
     ++ [ arr "components"
            (mapi (fun comp index =>
                     JObj [ str "id" ("component-" ++ Str.of_nat index)%string;
                            str "type" (name comp);
                            obj "props" (props comp) ])
                  components 0%nat) ])%list in
  mret (stringify_indent 2 (JObj schema)).

Record PackageFile : Type := mkPackageFile {
  path : string;
  content : string
}.

Definition readme (projectName : string) (components : list Component) (generatedAt : string)
  : string :=
  "# " ++ projectName ++ nl ++ nl
  ++ "This UI was generated with [UI-Smith](https://github.com/your-repo/ui-smith)." ++ nl ++ nl
  ++ "## Components Used" ++ nl ++ nl
  ++ Str.join nl (map (fun c => "- " ++ name c) components) ++ nl ++ nl
  ++ "## Installation" ++ nl ++ nl
  ++ "1. Copy the generated files to your project" ++ nl
  ++ "2. Ensure you have the required dependencies:" ++ nl ++ nl
  ++ "```bash" ++ nl
  ++ "npm install @tambo-ai/react framer-motion lucide-react recharts" ++ nl
  ++ "```" ++ nl ++ nl
  ++ "3. Import and use the components in your app" ++ nl ++ nl
  ++ "## Customization" ++ nl ++ nl
  ++ "Edit `generated.css` to customize styles or modify the component props directly."
  ++ nl ++ nl
  ++ "---" ++ nl
  ++ "Generated at " ++ generatedAt ++ nl.

(** The files of the tool [generate_export_package], in the order they are
    pushed; the clock is read for the config and again for the README. *)
Definition package_files (components : list Component) (projectName : string)
  : M (list PackageFile) :=
  let pageCode := generatePageCode components true nextjs in
  let css := generateTailwindCSS components in
  configAt ← now;
  let config :=
    JObj [ str "name" projectName; str "version" "1.0.0"; str "generatedAt" configAt;
           arr "components"
             (map (fun c => JObj [ str "name" (name c); obj "props" (props c) ]) components) ] in
  readmeAt ← now;
  mret [ mkPackageFile (projectName ++ "/app/page.tsx") pageCode;
         mkPackageFile (projectName ++ "/styles/generated.css") css;
         mkPackageFile (projectName ++ "/ui-smith.config.json") (stringify_indent 2 config);
         mkPackageFile (projectName ++ "/README.md") (readme projectName components readmeAt) ].

(** The tool [generate_export_package]: the text it returns. *)
Definition generate_export_package (components : list Component) (projectName : string)
  : M string :=
  files ← package_files components projectName;
  mret (stringify_indent 2
          (JObj [ flag "success" true;
                  str "projectName" projectName;
                  num "fileCount" (Z.of_nat (List.length files));
                  arr "files"
                    (map (fun f =>
                            JObj [ str "path" (path f);
                                   num "size" (Z.of_nat (String.length (content f)));
                                   str "preview" (String.substring 0 100 (content f) ++ "...") ])
                         files);
                  arr "fullFiles"
                    (map (fun f => JObj [ str "path" (path f); str "content" (content f) ])
                         files) ])).

(** [JSON.stringify(v)]. *)
Definition stringify (v : JSON) : string := serialize EmptyString EmptyString v.

(** One attribute of [generateReactCode]; the entries whose value is [null]
    are filtered out before. *)
Definition reactProp (entry : string * JSON) : string :=
  let (key, value) := entry in
  match value with
  | JStr s => key ++ "=" ++ Str.quoted s
  | JBool true => key
  | JBool false => key ++ "={false}"
  | JNum n => key ++ "={" ++ Str.of_Z n ++ "}"
  | _ => key ++ "={" ++ stringify value ++ "}"
  end.

Definition not_null (entry : string * JSON) : bool :=
  match snd entry with JNull => false | _ => true end.

(** [generateReactCode]; its options are not read. *)
Definition generateReactCode (componentName : string) (props : Props) : string :=
  let propsString :=
    Str.join (nl ++ spaces 6) (map reactProp (List.filter not_null props)) in
  "import { " ++ componentName ++ " } from " ++ Str.quoted "@/components/generative" ++ ";"
  ++ nl ++ nl
  ++ "export function Example" ++ componentName ++ "() {" ++ nl
  ++ "  return (" ++ nl
  ++ "    <" ++ componentName ++ nl
  ++ "      " ++ propsString ++ nl
  ++ "    />" ++ nl
  ++ "  );" ++ nl
  ++ "}".

(** The options of the tool [export_react_code], each key present or
    absent. *)
Record ReactOptions : Type := mkReactOptions {
  typescript : option bool;
  framework : option Framework;
  includeCSS : option bool;
  singleFile : option bool
}.

Record ReactFile : Type := mkReactFile {
  filename : string;
  file_content : string
}.

(** The files the tool [export_react_code] collects, in the order they are
    pushed. *)
Definition react_files (components : list Component) (options : option ReactOptions)
  : list ReactFile :=
  let options := default (mkReactOptions None None None None) options in
  let opts_typescript := default true (typescript options) in
  let opts_framework := default nextjs (framework options) in
  let opts_includeCSS := default true (includeCSS options) in
  let opts_singleFile := default true (singleFile options) in
  let files :=
    if opts_singleFile then
      [ mkReactFile (if opts_typescript then "page.tsx" else "page.jsx")
          (generatePageCode components opts_typescript opts_framework) ]
    else
      mapi (fun comp index =>
              mkReactFile
                (if opts_typescript
                 then name comp ++ "Example" ++ Str.of_nat index ++ ".tsx"
                 else name comp ++ "Example" ++ Str.of_nat index ++ ".jsx")
                (generateReactCode (name comp) (props comp)))
           components 0%nat in
  if opts_includeCSS
  then (files ++ [ mkReactFile "generated.css" (generateTailwindCSS components) ])%list
  else files.

(** The tool [export_react_code]: the text it returns. *)
Definition export_react_code (components : list Component) (options : option ReactOptions)
  : string :=
  let files := react_files components options in
  stringify_indent 2
    (JObj [ flag "success" true;
            num "fileCount" (Z.of_nat (List.length files));
            arr "files"
              (map (fun f =>
                      JObj [ str "filename" (filename f);
                             str "preview"
                               (String.substring 0 200 (file_content f)
                                ++ (if (200 <? String.length (file_content f))%nat
                                    then "..." else EmptyString));
                             str "fullContent" (file_content f) ])
                   files) ]).

End ExportServer.

(** ** The orchestrator (src/agents/orchestrator.ts) *)

Module AgentOrchestrator.

Record PipelineError : Type := mkPipelineError {
  agent : AgentRole;
  error_code : string;
  error_message : string
}.

Record PipelineResult : Type := mkPipelineResult {
  result_conversationId : string;
  result_success : bool;
  uiSpec : option UISpec;
  designFeedback : option DesignFeedback;
  accessibilityReport : option AccessibilityReport;
  exportPackage : option ExportPackage;
  result_errors : list PipelineError;
  result_messages : list AgentMessage
}.

Record OrchestratorOptions : Type := mkOrchestratorOptions {
  autoApplyDesignImprovements : bool;
  autoApplyAccessibilityFixes : bool;
  skipDesignReview : bool;
  skipAccessibilityCheck : bool;
  exportOnSuccess : bool;
  exportOptions : option Props
}.

Definition defaultOptions : OrchestratorOptions :=
  mkOrchestratorOptions true true false false true
    (Some [ str "format" "full"; flag "typescript" true; str "framework" "nextjs" ]).

(** The fields of an [AgentOrchestrator] instance. *)
Record Orchestrator : Type := mkOrchestrator {
  context : AgentContext;
  options : OrchestratorOptions;
  messages : list AgentMessage
}.

(** The state a run of [processRequest] works on: the instance and the
    local [result]. *)
Record Run : Type := mkRun {
  self : Orchestrator;
  result : PipelineResult
}.

(** Computations of a run: they update the run and the world, and may
    throw; what was written before a throw stays written. *)
Definition P (A : Type) : Type := Run -> World -> outcome A * Run * World.

#[export] Instance P_ret : MRet P := fun A a r w => (Ok a, r, w).

#[export] Instance P_bind : MBind P := fun A B f m r w =>
  match m r w with
  | (Ok a, r', w') => f a r' w'
  | (Throw e, r', w') => (Throw e, r', w')
  end.

Definition call {A : Type} (m : M A) : P A := fun r w =>
  let (o, w') := m w in (o, r, w').

Definition get_self : P Orchestrator := fun r w => (Ok (self r), r, w).

Definition update_self (f : Orchestrator -> Orchestrator) : P unit := fun r w =>
  (Ok tt, mkRun (f (self r)) (result r), w).

Definition get_result : P PipelineResult := fun r w => (Ok (result r), r, w).

Definition update_result (f : PipelineResult -> PipelineResult) : P unit := fun r w =>
  (Ok tt, mkRun (self r) (f (result r)), w).

Definition catch {A : Type} (m : P A) (h : JsError -> P A) : P A := fun r w =>
  match m r w with
  | (Ok a, r', w') => (Ok a, r', w')
  | (Throw e, r', w') => h e r' w'
  end.

(** [logMessage]: the message goes to [this.messages] and to
    [this.context.history]. *)
Definition logMessage (from to : AgentRole) (action : AgentActionType) (payload : Payload)
  : P unit :=
  id ← call uuidv4;
  timestamp ← call now;
  let message := mkAgentMessage id from to action payload timestamp in
  update_self (fun o =>
    mkOrchestrator
      (mkAgentContext (conversationId (context o)) (currentUI (context o))
                      (history (context o) ++ [message]))
      (options o)
      (messages o ++ [message])).

(** [this.context.currentUI = ui]. *)
Definition set_context_ui (ui : UISpec) : P unit :=
  update_self (fun o =>
    mkOrchestrator
      (mkAgentContext (conversationId (context o)) (Some ui) (history (context o)))
      (options o) (messages o)).

Definition push_error (a : AgentRole) (c m : string) : P unit :=
  update_result (fun r =>
    mkPipelineResult (result_conversationId r) (result_success r) (uiSpec r)
      (designFeedback r) (accessibilityReport r) (exportPackage r)
      (result_errors r ++ [mkPipelineError a c m]) (result_messages r)).

Definition set_uiSpec (ui : UISpec) : P unit :=
  update_result (fun r =>
    mkPipelineResult (result_conversationId r) (result_success r) (Some ui)
      (designFeedback r) (accessibilityReport r) (exportPackage r)
      (result_errors r) (result_messages r)).

Definition set_designFeedback (f : option DesignFeedback) : P unit :=
  update_result (fun r =>
    mkPipelineResult (result_conversationId r) (result_success r) (uiSpec r)
      f (accessibilityReport r) (exportPackage r)
      (result_errors r) (result_messages r)).

Definition set_accessibilityReport (a : option AccessibilityReport) : P unit :=
  update_result (fun r =>
    mkPipelineResult (result_conversationId r) (result_success r) (uiSpec r)
      (designFeedback r) a (exportPackage r)
      (result_errors r) (result_messages r)).

Definition set_exportPackage (e : ExportPackage) : P unit :=
  update_result (fun r =>
    mkPipelineResult (result_conversationId r) (result_success r) (uiSpec r)
      (designFeedback r) (accessibilityReport r) (Some e)
      (result_errors r) (result_messages r)).

Definition set_success (b : bool) : P unit :=
  update_result (fun r =>
    mkPipelineResult (result_conversationId r) b (uiSpec r)
      (designFeedback r) (accessibilityReport r) (exportPackage r)
      (result_errors r) (result_messages r)).

(** [result.messages = this.messages; return result]. *)
Definition finish : P PipelineResult :=
  o ← get_self;
  _ ← update_result (fun r =>
    mkPipelineResult (result_conversationId r) (result_success r) (uiSpec r)
      (designFeedback r) (accessibilityReport r) (exportPackage r)
      (result_errors r) (messages o));
  get_result.

(** [errors?.[0]?.code || fallback] and [errors?.[0]?.message || fallback]. *)
Definition first_code (errors : list AgentError) (fallback : string) : string :=
  match errors with
  | e :: _ => if String.eqb (code e) EmptyString then fallback else code e
  | [] => fallback
  end.

Definition first_message (errors : list AgentError) (fallback : string) : string :=
  match errors with
  | e :: _ => if String.eqb (message e) EmptyString then fallback else message e
  | [] => fallback
  end.

(** [criticData.feedback] and [criticData.improvedUI]: the blocking return
    of [review] stores the feedback itself in [data], an object with
    neither key. *)
Definition data_feedback (d : DesignCriticAgent.ReviewData) : option DesignFeedback :=
  match d with
  | DesignCriticAgent.Reviewed feedback _ => Some feedback
  | DesignCriticAgent.FeedbackOnly _ => None
  end.

Definition data_improvedUI (d : DesignCriticAgent.ReviewData) : option UISpec :=
  match d with
  | DesignCriticAgent.Reviewed _ improvedUI => Some improvedUI
  | DesignCriticAgent.FeedbackOnly _ => None
  end.

(** [e.agent === "accessibility" && e.code.startsWith("A11Y_")]. *)
Definition is_a11y_error (e : PipelineError) : bool :=
  match agent e with
  | accessibility => String.prefix "A11Y_" (error_code e)
  | _ => false
  end.

Section Pipeline.

(** The four agents the factories create.  The export engineer
    (src/agents/export-engineer.ts) is not part of the sources at hand and
    stays a parameter throughout. *)
Variable architect : AgentContext -> string -> M (AgentResponse UISpec).
Variable critic : UISpec -> M (AgentResponse DesignCriticAgent.ReviewData).
Variable a11yAgent : UISpec -> M (AgentResponse AccessibilityAgent.ValidationData).
Variable exportEngineer : UISpec -> option Props -> M (AgentResponse ExportPackage).

(** Step 2, returning the new value of the local [currentUI]. *)
Definition designStep (opts : OrchestratorOptions) (currentUI : UISpec) : P UISpec :=
  _ ← logMessage orchestrator design_critic VALIDATE_DESIGN (PayloadUISpec currentUI);
  criticResponse ← call (critic currentUI);
  currentUI ←
    match data criticResponse with
    | Some criticData =>
        _ ← set_designFeedback (data_feedback criticData);
        match data_improvedUI criticData with
        | Some improvedUI =>
            if autoApplyDesignImprovements opts then
              _ ← set_uiSpec improvedUI;
              _ ← set_context_ui improvedUI;
              mret improvedUI
            else mret currentUI
        | None => mret currentUI
        end
    | None => mret currentUI
    end;
  _ ← (if negb (success criticResponse)
       then push_error design_critic
              (first_code (errors criticResponse) "DESIGN_ISSUES")
              (first_message (errors criticResponse) "Design review found issues")
       else mret tt);
  mret currentUI.

(** Step 3, returning the new [currentUI] and whether the run returns
    here. *)
Definition accessibilityStep (opts : OrchestratorOptions) (currentUI : UISpec)
  : P (UISpec * bool) :=
  _ ← logMessage orchestrator accessibility VALIDATE_ACCESSIBILITY (PayloadUISpec currentUI);
  a11yResponse ← call (a11yAgent currentUI);
  currentUI ←
    match data a11yResponse with
    | Some a11yData =>
        _ ← set_accessibilityReport (Some (AccessibilityAgent.report a11yData));
        if autoApplyAccessibilityFixes opts then
          _ ← set_uiSpec (AccessibilityAgent.fixedUI a11yData);
          _ ← set_context_ui (AccessibilityAgent.fixedUI a11yData);
          mret (AccessibilityAgent.fixedUI a11yData)
        else mret currentUI
    | None => mret currentUI
    end;
  if negb (success a11yResponse) then
    _ ← push_error accessibility
          (first_code (errors a11yResponse) "A11Y_ISSUES")
          (first_message (errors a11yResponse) "Accessibility validation found issues");
    r ← get_result;
    match accessibilityReport r with
    | Some report => mret (currentUI, negb (passed report))
    | None => mret (currentUI, false)
    end
  else mret (currentUI, false).

(** Step 4. *)
Definition exportStep (opts : OrchestratorOptions) (currentUI : UISpec) : P unit :=
  _ ← logMessage orchestrator export_engineer EXPORT_CODE (PayloadUISpec currentUI);
  exportResponse ← call (exportEngineer currentUI (exportOptions opts));
  match success exportResponse, data exportResponse with
  | true, Some package => set_exportPackage package
  | _, _ =>
      push_error export_engineer
        (first_code (errors exportResponse) "EXPORT_FAILED")
        (first_message (errors exportResponse) "Failed to export code")
  end.

(** Steps 2 to 4 and the end of the [try] block, from the specification
    the architect returned. *)
Definition stages (opts : OrchestratorOptions) (currentUI : UISpec) : P PipelineResult :=
  currentUI ← (if negb (skipDesignReview opts) then designStep opts currentUI
               else mret currentUI);
  checked ← (if negb (skipAccessibilityCheck opts) then accessibilityStep opts currentUI
             else mret (currentUI, false));
  let (currentUI, stop) := checked : UISpec * bool in
  if stop then finish
  else
    _ ← (if exportOnSuccess opts then exportStep opts currentUI else mret tt);
    r ← get_result;
    _ ← set_success (bool_decide (is_Some (uiSpec r))
                     && (List.length (List.filter is_a11y_error (result_errors r)) =? 0)%nat);
    finish.

(** The [try] block of [processRequest]. *)
Definition pipeline (userMessage : string) : P PipelineResult :=
  o ← get_self;
  let opts := options o in
  _ ← logMessage orchestrator ui_architect CREATE_UI (PayloadUserMessage userMessage);
  o ← get_self;
  architectResponse ← call (architect (context o) userMessage);
  match success architectResponse, data architectResponse with
  | true, Some currentUI =>
      _ ← set_uiSpec currentUI;
      _ ← set_context_ui currentUI;
      stages opts currentUI
  | _, _ =>
      _ ← push_error ui_architect
            (first_code (errors architectResponse) "UNKNOWN")
            (first_message (errors architectResponse) "Failed to create UI");
      finish
  end.

(** [processRequest]. *)
Definition processRequest (userMessage : string) : P PipelineResult :=
  _ ← logMessage user orchestrator ANALYZE_REQUEST (PayloadMessage userMessage);
  o ← get_self;
  _ ← update_result (fun _ =>
         mkPipelineResult (conversationId (context o)) false None None None None [] []);
  catch (pipeline userMessage)
        (fun error =>
           _ ← push_error orchestrator "ORCHESTRATION_ERROR" (error_text error);
           finish).

(** [modifyUI]. *)
Definition modifyUI (modificationRequest : string) : P PipelineResult :=
  o ← get_self;
  match currentUI (context o) with
  | None =>
      mret (mkPipelineResult (conversationId (context o)) false None None None None
              [ mkPipelineError orchestrator "NO_UI"
                  "No existing UI to modify. Use processRequest() first." ]
              (messages o))
  | Some _ => processRequest modificationRequest
  end.

End Pipeline.

(** A run starts from the instance; the local [result] does not exist yet. *)
Definition start (o : Orchestrator) : Run :=
  mkRun o (mkPipelineResult (conversationId (context o)) false None None None None [] []).

(** The orchestrator with the agents of the source; the export engineer is
    a parameter. *)
Definition run_processRequest
  (exportEngineer : UISpec -> option Props -> M (AgentResponse ExportPackage))
  (o : Orchestrator) (userMessage : string) (w : World)
  : outcome PipelineResult * Run * World :=
  processRequest UIArchitectAgent.processRequest
    (pure DesignCriticAgent.review) (pure AccessibilityAgent.validate)
    exportEngineer userMessage (start o) w.

(** [modifyUI] with the agents of the source. *)
Definition run_modifyUI
  (exportEngineer : UISpec -> option Props -> M (AgentResponse ExportPackage))
  (o : Orchestrator) (modificationRequest : string) (w : World)
  : outcome PipelineResult * Run * World :=
  modifyUI UIArchitectAgent.processRequest
    (pure DesignCriticAgent.review) (pure AccessibilityAgent.validate)
    exportEngineer modificationRequest (start o) w.

(** [Partial<OrchestratorOptions>]: each key is present or absent. *)
Record PartialOptions : Type := mkPartialOptions {
  given_autoApplyDesignImprovements : option bool;
  given_autoApplyAccessibilityFixes : option bool;
  given_skipDesignReview : option bool;
  given_skipAccessibilityCheck : option bool;
  given_exportOnSuccess : option bool;
  given_exportOptions : option Props
}.

(** [{ ...defaultOptions, ...options }]: a key that is present replaces the
    default, [exportOptions] as a whole. *)
Definition mergeOptions (options : option PartialOptions) : OrchestratorOptions :=
  match options with
  | None => defaultOptions
  | Some p =>
      mkOrchestratorOptions
        (default (autoApplyDesignImprovements defaultOptions)
                 (given_autoApplyDesignImprovements p))
        (default (autoApplyAccessibilityFixes defaultOptions)
                 (given_autoApplyAccessibilityFixes p))
        (default (skipDesignReview defaultOptions) (given_skipDesignReview p))
        (default (skipAccessibilityCheck defaultOptions) (given_skipAccessibilityCheck p))
        (default (exportOnSuccess defaultOptions) (given_exportOnSuccess p))
        (match given_exportOptions p with
         | Some e => Some e
         | None => exportOptions defaultOptions
         end)
  end.

(** The constructor, and [createOrchestrator], which only calls it. *)
Definition new_AgentOrchestrator (options : option PartialOptions) : M Orchestrator :=
  conversationId ← uuidv4;
  mret (mkOrchestrator (mkAgentContext conversationId None []) (mergeOptions options) []).

Definition createOrchestrator (options : option PartialOptions) : M Orchestrator :=
  new_AgentOrchestrator options.

Definition getCurrentUI (o : Orchestrator) : option UISpec := currentUI (context o).

Definition getContext (o : Orchestrator) : AgentContext := context o.

(** [reset]: a new context and a new, empty message list; the options
    stay. *)
Definition reset (o : Orchestrator) : M Orchestrator :=
  conversationId ← uuidv4;
  mret (mkOrchestrator (mkAgentContext conversationId None []) (options o) []).

(** [generateUI]: a new orchestrator runs one request. *)
Definition generateUI
  (exportEngineer : UISpec -> option Props -> M (AgentResponse ExportPackage))
  (userMessage : string) (options : option PartialOptions) (w : World)
  : option (outcome PipelineResult * Run * World) :=
  match createOrchestrator options w with
  | (Ok o, w') => Some (run_processRequest exportEngineer o userMessage w')
  | (Throw _, _) => None
  end.

(** The steps of an [OrchestrationPlan]. *)
Record PlanStep : Type := mkPlanStep {
  order : Z;
  step_agent : AgentRole;
  step_action : AgentActionType;
  dependsOn : option (list Z);
  required : bool
}.

Record OrchestrationPlan : Type := mkOrchestrationPlan {
  plan_id : string;
  steps : list PlanStep;
  estimatedDuration : Z
}.

(** [createPlan]: [order] counts the steps pushed so far, plus one.  The
    request itself is not read. *)
Definition createPlan (o : Orchestrator) (_userMessage : string) : M OrchestrationPlan :=
  let steps := [] in
  let order := 1 in
  let steps :=
    (steps ++ [ mkPlanStep order ui_architect
                  (if bool_decide (is_Some (currentUI (context o)))
                   then MODIFY_UI else CREATE_UI)
                  None true ])%list in
  let order := order + 1 in
  let '(steps, order) :=
    if negb (skipDesignReview (options o))
    then ((steps ++ [ mkPlanStep order design_critic VALIDATE_DESIGN (Some [1]) false ])%list,
          order + 1)
    else (steps, order) in
  let '(steps, order) :=
    if negb (skipAccessibilityCheck (options o))
    then ((steps ++ [ mkPlanStep order accessibility VALIDATE_ACCESSIBILITY
                        (Some (if skipDesignReview (options o) then [1] else [2])) true ])%list,
          order + 1)
    else (steps, order) in
  let '(steps, order) :=
    if exportOnSuccess (options o)
    then ((steps ++ [ mkPlanStep order export_engineer EXPORT_CODE
                        (Some [(order + 1) - 2]) false ])%list,
          order + 1)
    else (steps, order) in
  id ← uuidv4;
  mret (mkOrchestrationPlan id steps (Z.of_nat (List.length steps) * 1000)).

End AgentOrchestrator.

(** * Inputs and measures used in the statements *)

(** What a computation in [M] returns, and the errors of a response it
    returns. *)
Definition returned {A : Type} (r : outcome A * World) : option A :=
  match r with
  | (Ok a, _) => Some a
  | (Throw _, _) => None
  end.

Definition response_errors {D : Type} (r : outcome (AgentResponse D) * World)
  : list AgentError :=
  match returned r with
  | Some resp => errors resp
  | None => []
  end.


(** An icon-only button without an accessible name beside a modal without
    a title: one critical and one serious violation. *)
Definition unlabeled_ui : UISpec :=
  mkUISpec "ui-1" None None
    [ mkComponentSpec "Button" [ flag "iconOnly" true; str "icon" "search" ] None None;
      mkComponentSpec "Modal" [ str "size" "md" ] None None ]
    None (Some (mkSpecMeta None None (Some 1))).

(** The same modal alone: one serious violation, none critical. *)
Definition untitled_modal_ui : UISpec :=
  mkUISpec "ui-2" None None
    [ mkComponentSpec "Modal" [ str "size" "md" ] None None ]
    None (Some (mkSpecMeta None None (Some 1))).

(** The data [validate] returns for it. *)
Definition untitled_modal_data : AccessibilityAgent.ValidationData :=
  Eval vm_compute in
    match data (AccessibilityAgent.validate untitled_modal_ui) with
    | Some d => d
    | None => AccessibilityAgent.mkValidationData (mkAccessibilityReport true 100 [] [])
                untitled_modal_ui
    end.

Definition severity_eqb (a b : IssueSeverity) : bool :=
  match a, b with
  | error, error | warning, warning | suggestion, suggestion => true
  | _, _ => false
  end.

(** The number of issues of one severity. *)
Definition count_severity (s : IssueSeverity) (l : list Issue) : Z :=
  Z.of_nat (List.length (List.filter (fun i => severity_eqb (issue_severity i) s) l)).

(** 100 minus 20 per error, 10 per warning and 5 per suggestion. *)
Definition points (l : list Issue) : Z :=
  100 - 20 * count_severity error l - 10 * count_severity warning l
  - 5 * count_severity suggestion l.

(** Between one and three improvements. *)
Definition has_bonus (l : list Improvement) : bool :=
  (1 <=? List.length l)%nat && (List.length l <=? 3)%nat.

(** The score as the specification words it: the points floored at 0, then
    the bonus of 5 capped at 100. *)
Definition score_floor_then_bonus (feedback : DesignFeedback) : Z :=
  let floored := Z.max 0 (points (issues feedback)) in
  if has_bonus (improvements feedback) then Z.min 100 (floored + 5) else floored.

(** The score as the code computes it: the bonus of 5 capped at 100 first,
    the floor at 0 last. *)
Definition score_bonus_then_floor (feedback : DesignFeedback) : Z :=
  Z.max 0 (if has_bonus (improvements feedback)
           then Z.min 100 (points (issues feedback) + 5)
           else points (issues feedback)).

(** Eleven icon-only buttons without a label. *)
Definition eleven_icon_buttons : UISpec :=
  mkUISpec "ui-11" None None
    (repeat (mkComponentSpec "Button" [ flag "iconOnly" true; str "size" "md" ] None None) 11)
    None (Some (mkSpecMeta None None (Some 1))).

(** The feedback and the report for the eleven buttons. *)
Definition eleven_feedback : DesignFeedback :=
  Eval vm_compute in
    match DesignCriticAgent.analyzeDesign eleven_icon_buttons with
    | Ok f => f
    | Throw _ => mkDesignFeedback 100 [] []
    end.

Definition eleven_report : AccessibilityReport :=
  Eval vm_compute in
    match AccessibilityAgent.runAccessibilityChecks eleven_icon_buttons with
    | Ok r => r
    | Throw _ => mkAccessibilityReport true 100 [] []
    end.

(** A small button: the critic proposes two patches for it. *)
Definition small_button_ui : UISpec :=
  mkUISpec "ui-3" (Some "Generated UI") None
    [ mkComponentSpec "Button" [ str "text" "Go"; str "size" "sm" ] None None ]
    None (Some (mkSpecMeta (Some "2026-01-01T00:00:00.000Z") None (Some 1))).

(** [metadata?.version]. *)
Definition version_of (ui : UISpec) : option Z :=
  m ← ui_metadata ui; version m.

(** The version, when there is one, is a safe integer: adding 1 to it is
    exact. *)
Definition safe_version (ui : UISpec) : bool :=
  match version_of ui with
  | Some v => Js.safe_integer v
  | None => true
  end.

(** The small button at the first version that is not a safe integer. *)
Definition late_button_ui : UISpec :=
  mkUISpec "ui-3" (Some "Generated UI") None
    [ mkComponentSpec "Button" [ str "text" "Go"; str "size" "sm" ] None None ]
    None (Some (mkSpecMeta (Some "2026-01-01T00:00:00.000Z") None (Some (2 ^ 53)))).

(** A pricing table whose tiers are an object keyed by plan, not an array. *)
Definition keyed_tiers_ui : UISpec :=
  mkUISpec "ui-4" (Some "Pricing") None
    [ mkComponentSpec "PricingTable"
        [ ("tiers", JObj [ ("basic", JObj [ str "name" "Basic"; num "price" 0 ]);
                           ("pro", JObj [ str "name" "Pro"; num "price" 20 ]) ]) ]
        None None ]
    None None.

(** The unlabeled button and modal after the request "make it bigger", and
    what the critic and the validator compute for them. *)
Definition unlabeled_bigger_ui : UISpec :=
  Eval vm_compute in
    match UIArchitectAgent.modifyExistingUI "make it bigger" unlabeled_ui world0 with
    | (Ok ui, _) => ui
    | (Throw _, _) => unlabeled_ui
    end.

Definition unlabeled_feedback : DesignFeedback :=
  Eval vm_compute in
    match DesignCriticAgent.analyzeDesign unlabeled_ui with
    | Ok f => f
    | Throw _ => mkDesignFeedback 100 [] []
    end.

Definition unlabeled_report : AccessibilityReport :=
  Eval vm_compute in
    match AccessibilityAgent.runAccessibilityChecks unlabeled_ui with
    | Ok r => r
    | Throw _ => mkAccessibilityReport true 100 [] []
    end.

Definition unlabeled_fixed_ui : UISpec :=
  Eval vm_compute in
    match AccessibilityAgent.applyAccessibilityFixes unlabeled_ui unlabeled_report with
    | Ok ui => ui
    | Throw _ => unlabeled_ui
    end.

(** A feedback with one issue of severity "error" and one improvement for
    the small button. *)
Definition blocking_feedback : DesignFeedback :=
  mkDesignFeedback 80
    [ mkIssue contrast error "Text contrast is too low" None ]
    [ mkImprovement 0 "Consider using a larger button for better visibility"
        (Some [ str "size" "md" ]) ].

(** No rule of the critic reports an issue of severity "error". *)
Definition no_error (feedback : DesignFeedback) : Prop :=
  Forall (fun i => issue_severity i <> error) (issues feedback).

(** A specification with no component, as the current one of a
    conversation. *)
Definition empty_ui : UISpec :=
  mkUISpec "ui-0" (Some "Generated UI") None [] None
           (Some (mkSpecMeta (Some "2026-01-01T00:00:00.000Z") None (Some 1))).

Definition context_empty_ui : AgentContext :=
  mkAgentContext "conversation-0" (Some empty_ui) [].

(** The components of the pricing page, as the export tools receive them. *)
Definition pricing_components : list ExportServer.Component :=
  [ ExportServer.mkComponent "PricingTable"
      (comp_props (UIArchitectAgent.createPricingTableSpec "Create a SaaS pricing page")) ].

(** The same computation run twice in a row. *)
Definition twice {A : Type} (m : M A) : M (A * A) :=
  first ← m; second ← m; mret (first, second).

(** The same clock as [world0] behind another stream of identifiers. *)
Definition world1 : World :=
  mkWorld (fun n => "id-" ++ Str.of_nat (n + 7)) 3 (dates world0) 0.

(** The report holds at least one violation of impact "critical". *)
Definition report_blocks (a : option AccessibilityReport) : bool :=
  match a with
  | Some report => existsb AccessibilityAgent.is_critical (violations report)
  | None => false
  end.

(** The stages a run logs after a successful generation: the review and
    the validation unless skipped, the export when it is enabled and the
    validation report does not block. *)
Definition stages_after_generation (opts : AgentOrchestrator.OrchestratorOptions)
  (res : AgentOrchestrator.PipelineResult) : list AgentActionType :=
  ((if AgentOrchestrator.skipDesignReview opts then [] else [VALIDATE_DESIGN])
   ++ (if AgentOrchestrator.skipAccessibilityCheck opts then [] else [VALIDATE_ACCESSIBILITY])
   ++ (if AgentOrchestrator.exportOnSuccess opts
          && negb (report_blocks (AgentOrchestrator.accessibilityReport res))
       then [EXPORT_CODE] else []))%list.

(** For a logged review of [ui]: a failing answer of the critic has left an
    error of the design critic in the result. *)
Definition critique_recorded
  (critic : UISpec -> AgentResponse DesignCriticAgent.ReviewData)
  (res : AgentOrchestrator.PipelineResult) (m : AgentMessage) : Prop :=
  match msg_action m, msg_payload m with
  | VALIDATE_DESIGN, PayloadUISpec ui =>
      success (critic ui) = false ->
      Exists (fun e => AgentOrchestrator.agent e = design_critic)
             (AgentOrchestrator.result_errors res)
  | _, _ => True
  end.

(** For a logged validation of [ui]: the report of the result is the one
    [validate] returned for [ui]. *)
Definition validation_recorded
  (res : AgentOrchestrator.PipelineResult) (m : AgentMessage) : Prop :=
  match msg_action m, msg_payload m with
  | VALIDATE_ACCESSIBILITY, PayloadUISpec ui =>
      AgentOrchestrator.accessibilityReport res
      = option_map AccessibilityAgent.report (data (AccessibilityAgent.validate ui))
  | _, _ => True
  end.

(** For a logged validation of [ui] among the new log entries [delta]: when
    the report [validate] returns for [ui] holds a critical violation, no
    export is logged, and the result has no export package and no success. *)
Definition validation_gate
  (res : AgentOrchestrator.PipelineResult) (delta : list AgentMessage) (m : AgentMessage)
  : Prop :=
  match msg_action m, msg_payload m with
  | VALIDATE_ACCESSIBILITY, PayloadUISpec ui =>
      report_blocks (option_map AccessibilityAgent.report
                       (data (AccessibilityAgent.validate ui))) = true ->
      ~ In EXPORT_CODE (map msg_action delta)
      /\ AgentOrchestrator.exportPackage res = None
      /\ AgentOrchestrator.result_success res = false
  | _, _ => True
  end.

Definition stamp (w : World) (from to : AgentRole) (action : AgentActionType)
  (payload : Payload) : AgentMessage :=
  mkAgentMessage (uuids w (uuid_pos w)) from to action payload (dates w (date_pos w)).

Definition tick (w : World) : World :=
  mkWorld (uuids w) (S (uuid_pos w)) (dates w) (S (date_pos w)).

(** An export engineer for the examples: one file naming the specification. *)
Definition sample_exporter : UISpec -> option Props -> M (AgentResponse ExportPackage) :=
  fun ui _ =>
    mret (mkAgentResponse true
            (Some (mkExportPackage "react"
                     [mkExportFile "page.tsx" (ui_id ui) file_component] "none"))
            [] [] None).

(** A critic that blocks on every specification. *)
Definition blocking_critic : UISpec -> AgentResponse DesignCriticAgent.ReviewData :=
  fun ui => DesignCriticAgent.review_feedback ui blocking_feedback.

Definition fresh_orchestrator : AgentOrchestrator.Orchestrator :=
  AgentOrchestrator.mkOrchestrator context0 AgentOrchestrator.defaultOptions [].

Definition orchestrator_with_unlabeled_ui : AgentOrchestrator.Orchestrator :=
  AgentOrchestrator.mkOrchestrator
    (mkAgentContext "conversation-0" (Some unlabeled_ui) [])
    AgentOrchestrator.defaultOptions [].

(** What the examples observe of a run: the success flag, the actions
    logged, the agents of the recorded errors and whether a package was
    exported. *)
Definition observe
  (r : outcome AgentOrchestrator.PipelineResult * AgentOrchestrator.Run * World)
  : option (bool * list AgentActionType * list AgentRole * bool) :=
  match r with
  | (Ok res, _, _) =>
      Some (AgentOrchestrator.result_success res,
            map msg_action (AgentOrchestrator.result_messages res),
            map AgentOrchestrator.agent (AgentOrchestrator.result_errors res),
            bool_decide (is_Some (AgentOrchestrator.exportPackage res)))
  | (Throw _, _, _) => None
  end.

(** The component kinds of the create path, in the order [selectComponents]
    pushes them. *)
Definition selection_order : list string :=
  [ "PricingTable"; "DashboardLayout"; "Chart"; "Form"; "Modal"; "TestimonialSection";
    "Card"; "Button" ].

(** The request names none of the changes [determineModifications] knows. *)
Definition names_no_change (request : string) : bool :=
  let lowerRequest := Str.toLowerCase request in
  negb (Str.includes lowerRequest "more modern")
  && negb (Str.includes lowerRequest "modern") && negb (Str.includes lowerRequest "bigger")
  && negb (Str.includes lowerRequest "larger") && negb (Str.includes lowerRequest "smaller")
  && negb (Str.includes lowerRequest "add button") && negb (Str.includes lowerRequest "add cta")
  && negb (Str.includes lowerRequest "add testimonial").

(** A conversation whose current specification is the small button. *)
Definition context_small_button : AgentContext :=
  mkAgentContext "conversation-0" (Some small_button_ui) [].

(** [c'] is [c] with possibly other props: same name, children and
    metadata, and every key of the props of [c] is still a key of the props
    of [c']. *)
Definition same_frame (c c' : ComponentSpec) : Prop :=
  comp_name c' = comp_name c
  /\ comp_children c' = comp_children c
  /\ comp_metadata c' = comp_metadata c
  /\ forall k, is_Some (Js.get (comp_props c) k) -> is_Some (Js.get (comp_props c') k).

(** [ui'] is [ui] up to the props of its components. *)
Definition same_outline (ui ui' : UISpec) : Prop :=
  ui_id ui' = ui_id ui
  /\ ui_name ui' = ui_name ui
  /\ ui_description ui' = ui_description ui
  /\ ui_layout ui' = ui_layout ui
  /\ ui_metadata ui' = ui_metadata ui
  /\ Forall2 same_frame (ui_components ui) (ui_components ui').

(** The violation points at one of the first [n] components. *)
Definition points_below (n : nat) (v : Violation) : Prop :=
  exists i, violation_index v = Some i /\ (i < n)%nat.

(** From [feedback] to [feedback'] only improvements for the component at
    [index] were added. *)
Definition improves_at (index : nat) (feedback feedback' : DesignFeedback) : Prop :=
  exists new,
    improvements feedback' = (improvements feedback ++ new)%list
    /\ Forall (fun i => componentIndex i = index) new.

(** The impact each rule of the validator is reported with. *)
Definition rule_impact (rule : string) : option Impact :=
  if String.eqb rule "button-name" || String.eqb rule "form-field-label" then Some critical
  else if existsb (String.eqb rule)
            ["modal-name"; "modal-escape"; "image-alt"; "chart-label"; "nav-item-label"]
  then Some serious
  else None.

(** A violation of the component at [index], reported with the impact of
    its rule. *)
Definition violation_at (index : nat) (v : Violation) : Prop :=
  violation_index v = Some index /\ rule_impact (rule v) = Some (impact v).

(** From [report] to [report'] only violations of the component at [index]
    were added. *)
Definition reports_at (index : nat) (report report' : AccessibilityReport) : Prop :=
  exists new,
    violations report' = (violations report ++ new)%list
    /\ Forall (violation_at index) new.

(** An icon-only button without a label, and the violation the validator
    reports for it at index 0. *)
Definition icon_button : ComponentSpec :=
  mkComponentSpec "Button" [ flag "iconOnly" true; str "icon" "search" ] None None.

Definition icon_button_violation : Violation :=
  mkViolation "button-name" critical
    "Button at index 0 is icon-only without accessible name"
    "Add ariaLabel prop to the Button component" (Some 0%nat).

(** The error [validate] reports for a critical violation. *)
Definition a11y_error (v : Violation) : AgentError :=
  mkAgentError ("A11Y_" ++ Str.toUpperCase (rule v)) (description v) sev_error.

(** The codes of the errors [validate] can report. *)
Definition validation_codes : list string :=
  ["VALIDATION_ERROR"; "A11Y_BUTTON-NAME"; "A11Y_FORM-FIELD-LABEL"].

(** The violations the automatic fixes act on without a further condition
    on the props: an icon-only button, a modal and a chart. *)
Definition fixable (c : ComponentSpec) (v : Violation) : bool :=
  (String.eqb (comp_name c) "Button" && String.eqb (rule v) "button-name"
   && Js.truthy (Js.get (comp_props c) "iconOnly"))
  || (String.eqb (comp_name c) "Modal" && String.eqb (rule v) "modal-name")
  || (String.eqb (comp_name c) "Chart" && String.eqb (rule v) "chart-label").

(** The violations of one rule in a list. *)
Definition of_rule (r : string) (vs : list Violation) : list Violation :=
  List.filter (fun v => String.eqb (rule v) r) vs.
(** The eight components [selectComponents] chooses from, in the order it
    pushes them. *)
Definition templates (description : string) : list ComponentSpec :=
  [ UIArchitectAgent.createPricingTableSpec description;
    UIArchitectAgent.createDashboardSpec description;
    UIArchitectAgent.createChartSpec description;
    UIArchitectAgent.createFormSpec description;
    UIArchitectAgent.createModalSpec description;
    UIArchitectAgent.createTestimonialSpec description;
    UIArchitectAgent.createCardSpec description;
    UIArchitectAgent.createButtonSpec description ].

(** The check of the component returns and reports no violation, at any
    index and after any report. *)
Definition quiet (c : ComponentSpec) : Prop :=
  forall index report,
    exists report',
      AccessibilityAgent.checkComponentAccessibility c index report = Ok report'
      /\ violations report' = violations report.

(** An improvement that carries no props, or a size alone. *)
Definition resizes_only (i : Improvement) : Prop :=
  proposedProps i = None \/ exists v, proposedProps i = Some [("size", v)].

(** The specification the create path returns in world [w]. *)
Definition created (description : string) (w : World) : UISpec :=
  mkUISpec (uuids w (uuid_pos w)) (Some (UIArchitectAgent.generateUIName description))
    (Some description)
    (UIArchitectAgent.selectComponents (UIArchitectAgent.extractKeywords description)
       description)
    (UIArchitectAgent.determineLayout
       (UIArchitectAgent.selectComponents (UIArchitectAgent.extractKeywords description)
          description))
    (Some (mkSpecMeta (Some (dates w (date_pos w))) None (Some 1))).

(** The stages a plan lists after the generation: those the options
    enable. *)
Definition planned_stages (opts : AgentOrchestrator.OrchestratorOptions)
  : list AgentActionType :=
  ((if AgentOrchestrator.skipDesignReview opts then [] else [VALIDATE_DESIGN])
   ++ (if AgentOrchestrator.skipAccessibilityCheck opts then [] else [VALIDATE_ACCESSIBILITY])
   ++ (if AgentOrchestrator.exportOnSuccess opts then [EXPORT_CODE] else []))%list.

(** The specification the run goes on with after the review and after the
    validation of [ui]: the improved or fixed one when the stage returned
    one and the option to apply it is set. *)
Definition reviewed (opts : AgentOrchestrator.OrchestratorOptions) (ui : UISpec) : UISpec :=
  if AgentOrchestrator.autoApplyDesignImprovements opts then
    match data (DesignCriticAgent.review ui) with
    | Some d => default ui (AgentOrchestrator.data_improvedUI d)
    | None => ui
    end
  else ui.

Definition validated (opts : AgentOrchestrator.OrchestratorOptions) (ui : UISpec) : UISpec :=
  if AgentOrchestrator.autoApplyAccessibilityFixes opts then
    match data (AccessibilityAgent.validate ui) with
    | Some d => AccessibilityAgent.fixedUI d
    | None => ui
    end
  else ui.

Definition after_review (opts : AgentOrchestrator.OrchestratorOptions) (ui : UISpec) : UISpec :=
  if AgentOrchestrator.skipDesignReview opts then ui else reviewed opts ui.

Definition after_validation (opts : AgentOrchestrator.OrchestratorOptions) (ui : UISpec)
  : UISpec :=
  if AgentOrchestrator.skipAccessibilityCheck opts then ui else validated opts ui.

(** The report and the feedback a run records for the specification [ui]
    the architect returned. *)
Definition report_for (opts : AgentOrchestrator.OrchestratorOptions) (ui : UISpec)
  : option AccessibilityReport :=
  if AgentOrchestrator.skipAccessibilityCheck opts then None
  else option_map AccessibilityAgent.report
         (data (AccessibilityAgent.validate (after_review opts ui))).

Definition feedback_for (opts : AgentOrchestrator.OrchestratorOptions) (ui : UISpec)
  : option DesignFeedback :=
  if AgentOrchestrator.skipDesignReview opts then None
  else d ← data (DesignCriticAgent.review ui); AgentOrchestrator.data_feedback d.

(** The instance and the result of a run agree on the specification. *)
Definition synced (r : AgentOrchestrator.Run) (ui : UISpec) : Prop :=
  currentUI (AgentOrchestrator.context (AgentOrchestrator.self r)) = Some ui
  /\ AgentOrchestrator.uiSpec (AgentOrchestrator.result r) = Some ui.

(** From [r] to [r'] the messages [delta] were logged, in the message list
    and in the history alike, and the conversation and the options are the
    same. *)
Definition logs (r r' : AgentOrchestrator.Run) (delta : list AgentMessage) : Prop :=
  AgentOrchestrator.messages (AgentOrchestrator.self r')
  = (AgentOrchestrator.messages (AgentOrchestrator.self r) ++ delta)%list
  /\ history (AgentOrchestrator.context (AgentOrchestrator.self r'))
     = (history (AgentOrchestrator.context (AgentOrchestrator.self r)) ++ delta)%list
  /\ conversationId (AgentOrchestrator.context (AgentOrchestrator.self r'))
     = conversationId (AgentOrchestrator.context (AgentOrchestrator.self r))
  /\ AgentOrchestrator.options (AgentOrchestrator.self r')
     = AgentOrchestrator.options (AgentOrchestrator.self r)
  /\ AgentOrchestrator.result_conversationId (AgentOrchestrator.result r')
     = AgentOrchestrator.result_conversationId (AgentOrchestrator.result r).

(** The errors of a result that count against its success. *)
Definition a11y_errors (res : AgentOrchestrator.PipelineResult)
  : list AgentOrchestrator.PipelineError :=
  List.filter AgentOrchestrator.is_a11y_error (AgentOrchestrator.result_errors res).

(** The export engineer answers every call: it does not throw. *)
Definition answers (exportEngineer : UISpec -> option Props -> M (AgentResponse ExportPackage))
  : Prop :=
  forall ui opts w, exists response w', exportEngineer ui opts w = (Ok response, w').

(** The specification the architect returns in the run of [userMessage]
    that starts from [o] in world [w], if it returns one: the two log
    entries before its call have each drawn an identifier and a time. *)
Definition generated (o : AgentOrchestrator.Orchestrator) (userMessage : string) (w : World)
  : option UISpec :=
  response ← returned (UIArchitectAgent.processRequest (AgentOrchestrator.context o)
                         userMessage (tick (tick w)));
  data response.

(** The conversation has no current specification, or one with at least
    one component. *)
Definition well_formed (o : AgentOrchestrator.Orchestrator) : Prop :=
  match AgentOrchestrator.getCurrentUI o with
  | Some ui => ui_components ui <> []
  | None => True
  end.

(** The orchestrator and the world after the requests have been processed
    one after the other. *)
Fixpoint after_requests
  (exportEngineer : UISpec -> option Props -> M (AgentResponse ExportPackage))
  (o : AgentOrchestrator.Orchestrator) (requests : list string) (w : World)
  : AgentOrchestrator.Orchestrator * World :=
  match requests with
  | [] => (o, w)
  | userMessage :: rest =>
      match AgentOrchestrator.run_processRequest exportEngineer o userMessage w with
      | (_, r', w') => after_requests exportEngineer (AgentOrchestrator.self r') rest w'
      end
  end.

(** The six topics of the keyword table that select a component of their
    own, with the component each selects. *)
Definition topics : list (string * string) :=
  [ ("pricing", "PricingTable"); ("dashboard", "DashboardLayout"); ("chart", "Chart");
    ("form", "Form"); ("modal", "Modal"); ("testimonial", "TestimonialSection") ].

(** One of the words the keyword table lists for [topic] occurs in the
    lower-cased request. *)
Definition mentions (description topic : string) : bool :=
  existsb (fun entry =>
             String.eqb topic (fst entry)
             && Str.includes_any (Str.toLowerCase description) (snd entry))
          UIArchitectAgent.componentKeywords.

(** The create path puts a component named [kind] in the specification. *)
Definition selects (description kind : string) : bool :=
  existsb (String.eqb kind)
    (map comp_name
       (UIArchitectAgent.selectComponents (UIArchitectAgent.extractKeywords description)
          description)).

(** A string read backwards, a string of decimal digits, and the number a
    string of digits denotes after the digits read so far denote [a]. *)
Fixpoint reverse (s : string) : string :=
  match s with
  | EmptyString => EmptyString
  | String c r => reverse r ++ String c EmptyString
  end.

Fixpoint digits_only (s : string) : bool :=
  match s with
  | EmptyString => true
  | String c r => Js.is_digit c && digits_only r
  end.

Fixpoint value_from (a : N) (s : string) : N :=
  match s with
  | EmptyString => a
  | String c r => value_from (10 * a + (N_of_ascii c - 48)) r
  end.

(** The specification with the prop [size] of component [i] set to [v]; a
    specification without a component [i] is left as it is. *)
Definition resize (ui : UISpec) (i : nat) (v : JSON) : UISpec :=
  match ui_components ui !! i with
  | Some c =>
      set_components ui
        (<[i := set_props c (Js.set (comp_props c) "size" v)]> (ui_components ui))
  | None => ui
  end.

(** * Checks on concrete inputs *)

Example toLowerCase_ex : Str.toLowerCase "Make It BIGGER!" = "make it bigger!".
Proof. reflexivity. Qed.

Example includes_ex :
  Str.includes "a pricing page" "pricing" = true /\
  Str.includes "a pricing page" "prices" = false.
Proof. split; reflexivity. Qed.

Example of_Z_ex : Str.of_Z 1200 = "1200" /\ Str.of_Z (-15) = "-15" /\ Str.of_Z 0 = "0".
Proof. repeat split; reflexivity. Qed.

Example spread_ex :
  Js.spread [str "variant" "elevated"; str "size" "lg"] [str "size" "xl"; flag "x" true]
  = [str "variant" "elevated"; str "size" "xl"; flag "x" true].
Proof. reflexivity. Qed.

Example asdf_creates :
  option_map (fun ui => map comp_name (ui_components ui))
    (match UIArchitectAgent.processRequest context0 "asdf" world0 with
     | (Ok r, _) => data r
     | _ => None
     end) = Some ["Card"; "Button"].
Proof. vm_compute. reflexivity. Qed.

(** * Properties of the generation stage *)

Section Generation.

Import UIArchitectAgent.

Lemma analyzeRequestType_cases context message :
  analyzeRequestType context message = Create \/
  analyzeRequestType context message = Modify.
Proof.
  unfold analyzeRequestType.
  destruct (hasModifyKeyword message && _); [now right |].
  destruct (hasCreateKeyword message || _); [now left |].
  destruct (currentUI context); [now right | now left].
Qed.

Lemma analyzeRequestType_no_prior cid hist message :
  analyzeRequestType (mkAgentContext cid None hist) message = Create.
Proof.
  unfold analyzeRequestType. cbn [currentUI].
  rewrite bool_decide_eq_false_2 by (intros [x Hx]; discriminate).
  rewrite andb_false_r, orb_true_r. reflexivity.
Qed.

Lemma try_catch_returns {A : Type} (m : M A) (f : JsError -> A) w :
  exists a w', try_catch m (fun e => mret (f e)) w = (Ok a, w').
Proof.
  unfold try_catch. destruct (m w) as [[a | e] w']; cbn; eauto.
Qed.

(** [processRequest] always returns a response: every throw is caught. *)
Lemma processRequest_returns context message w :
  exists resp w', processRequest context message w = (Ok resp, w').
Proof.
  unfold processRequest. apply try_catch_returns.
Qed.

(** The create path: a new specification, version 1, with the identifier
    and the time read from the world. *)
Lemma processRequest_create context message w :
  analyzeRequestType context message = Create ->
  processRequest context message w =
    (Ok (succeed
           (mkUISpec (uuids w (uuid_pos w)) (Some (generateUIName message)) (Some message)
              (selectComponents (extractKeywords message) message)
              (determineLayout (selectComponents (extractKeywords message) message))
              (Some (mkSpecMeta (Some (dates w (date_pos w))) None (Some 1))))),
     mkWorld (uuids w) (S (uuid_pos w)) (dates w) (S (date_pos w))).
Proof.
  intros H. unfold processRequest. rewrite H. reflexivity.
Qed.

Lemma processRequest_codes context message w :
  Forall (fun e => code e = "NO_EXISTING_UI" \/ code e = "PROCESSING_ERROR")
         (response_errors (processRequest context message w)).
Proof.
  unfold processRequest, response_errors, returned, try_catch.
  destruct (analyzeRequestType_cases context message) as [H | H]; rewrite H.
  - cbn. constructor.
  - destruct (currentUI context) as [ui |].
    + unfold mbind, M_bind.
      destruct (modifyExistingUI message ui w) as [[ui' | e] w']; cbn.
      * constructor.
      * constructor; [now right | constructor].
    + cbn. constructor; [now left | constructor].
Qed.

End Generation.

(** C10.  The request classifier answers "create" or "modify" and never
    "unknown"; no response of the generation stage carries the code
    UNKNOWN_REQUEST; and without a prior specification every request is
    classified "create". *)
Theorem C10_classifier_never_unknown (context : AgentContext) (message : string)
  (w : World) :
  UIArchitectAgent.analyzeRequestType context message <> UIArchitectAgent.Unknown
  /\ Forall (fun e => code e <> "UNKNOWN_REQUEST")
            (response_errors (UIArchitectAgent.processRequest context message w))
  /\ UIArchitectAgent.analyzeRequestType
       (mkAgentContext (conversationId context) None (history context)) message
     = UIArchitectAgent.Create.
Proof.
  split; [| split].
  - destruct (analyzeRequestType_cases context message) as [H | H]; rewrite H; discriminate.
  - eapply Forall_impl; [apply processRequest_codes |].
    intros e [H | H]; rewrite H; discriminate.
  - apply analyzeRequestType_no_prior.
Qed.

(** With no prior specification, the request "change the button" contains
    the modify trigger word "change" and is classified "create" all the
    same: generation answers with a newly created two-component
    specification. *)
Example modify_wording_without_prior_creates :
  UIArchitectAgent.hasModifyKeyword "change the button" = true
  /\ currentUI context0 = None
  /\ UIArchitectAgent.analyzeRequestType context0 "change the button"
     = UIArchitectAgent.Create
  /\ option_map success
       (returned (UIArchitectAgent.processRequest context0 "change the button" world0))
     = Some true
  /\ option_map (fun resp => option_map (fun ui => map comp_name (ui_components ui)) (data resp))
       (returned (UIArchitectAgent.processRequest context0 "change the button" world0))
     = Some (Some ["Card"; "Button"])
  /\ response_errors (UIArchitectAgent.processRequest context0 "change the button" world0) = [].
Proof. vm_compute. repeat split; reflexivity. Qed.

(** When no prior specification exists no request is classified as a
    modification: every request, whatever its wording, is classified
    "create" and generation succeeds with a new specification of version 1
    carrying the identifier drawn, so the NO_EXISTING_UI return is not
    reached through [analyzeRequestType]. *)
Lemma no_prior_specification_creates
  (cid : string) (hist : list AgentMessage) (message : string) (w : World) :
  let context := mkAgentContext cid None hist in
  UIArchitectAgent.analyzeRequestType context message = UIArchitectAgent.Create
  /\ (exists ui,
        returned (UIArchitectAgent.processRequest context message w)
          = Some (UIArchitectAgent.succeed ui)
        /\ ui_id ui = uuids w (uuid_pos w)
        /\ option_bind _ _ version (ui_metadata ui) = Some 1)
  /\ Forall (fun e => code e <> "NO_EXISTING_UI")
            (response_errors (UIArchitectAgent.processRequest context message w)).
Proof.
  cbv zeta.
  pose proof (analyzeRequestType_no_prior cid hist message) as Hc.
  split; [exact Hc |].
  split.
  - eexists. rewrite (processRequest_create _ _ w Hc). cbn. repeat split.
  - rewrite (processRequest_create _ _ w Hc). cbn. constructor.
Qed.

(** C2.  [processRequest] is its branches run on the classification of the
    request, and on the classification "modify", when the conversation has
    no current specification, the answer is the failure NO_EXISTING_UI: it
    carries no specification, and neither an identifier nor the clock has
    been read, so nothing was created.  The orchestrator's [modifyUI], called
    without a current specification, is refused with code NO_UI before any
    stage runs. *)
Theorem C2_modification_without_prior_is_refused
  (context : AgentContext) (message : string) (w : World)
  (architect : AgentContext -> string -> M (AgentResponse UISpec))
  (critic : UISpec -> M (AgentResponse DesignCriticAgent.ReviewData))
  (a11yAgent : UISpec -> M (AgentResponse AccessibilityAgent.ValidationData))
  (exportEngineer : UISpec -> option Props -> M (AgentResponse ExportPackage))
  (opts : AgentOrchestrator.OrchestratorOptions) (msgs : list AgentMessage) :
  currentUI context = None ->
  UIArchitectAgent.processRequest context message w
  = UIArchitectAgent.processClassified
      (UIArchitectAgent.analyzeRequestType context message) context message w
  /\ UIArchitectAgent.processClassified UIArchitectAgent.Modify context message w
     = (Ok (mkAgentResponse false None
              [ mkAgentError "NO_EXISTING_UI"
                  "No existing UI to modify. Please create a UI first." sev_error ]
              [] None),
        w)
  /\ AgentOrchestrator.modifyUI architect critic a11yAgent exportEngineer message
       (AgentOrchestrator.start (AgentOrchestrator.mkOrchestrator context opts msgs)) w
     = (Ok (AgentOrchestrator.mkPipelineResult (conversationId context) false
              None None None None
              [ AgentOrchestrator.mkPipelineError orchestrator "NO_UI"
                  "No existing UI to modify. Use processRequest() first." ]
              msgs),
        AgentOrchestrator.start (AgentOrchestrator.mkOrchestrator context opts msgs), w).
Proof.
  intros H. split; [reflexivity |]. split.
  - unfold UIArchitectAgent.processClassified. rewrite H. reflexivity.
  - destruct context as [cid ui hist]. cbn [currentUI] in H. subst ui. reflexivity.
Qed.

(** C2, at the request "change the button" in a new conversation. *)
Lemma C2_change_the_button_is_refused :
  currentUI context0 = None
  /\ UIArchitectAgent.processClassified UIArchitectAgent.Modify context0
       "change the button" world0
     = (Ok (mkAgentResponse false None
              [ mkAgentError "NO_EXISTING_UI"
                  "No existing UI to modify. Please create a UI first." sev_error ]
              [] None),
        world0).
Proof.
  split; [reflexivity |].
  apply (C2_modification_without_prior_is_refused context0 "change the button" world0
           UIArchitectAgent.processRequest (pure DesignCriticAgent.review)
           (pure AccessibilityAgent.validate) sample_exporter
           AgentOrchestrator.defaultOptions []).
  reflexivity.
Defined.

Section Fallback.

Import UIArchitectAgent.

Lemma prefix_append (s t : string) : String.prefix s (s ++ t) = true.
Proof.
  induction s as [| c s IH]; [now destruct t |].
  change (String c s ++ t) with (String c (s ++ t)). cbn [String.prefix].
  destruct (ascii_dec c c) as [_ | Hne]; [exact IH | now destruct Hne].
Qed.




End Fallback.

Section FallbackComponents.

Import UIArchitectAgent.


End FallbackComponents.



(** * Properties of the validation stage *)

Section Validation.

Import AccessibilityAgent.

Lemma runAccessibilityChecks_passed uiSpec report :
  runAccessibilityChecks uiSpec = Ok report ->
  passed report = (List.length (criticalViolations report) =? 0)%nat.
Proof.
  unfold runAccessibilityChecks.
  destruct (forEach _ _ _ _) as [r | e]; [| discriminate].
  intros H. injection H as <-. reflexivity.
Qed.

(** What [validate] returns when it returns data: the report of the
    checks, the specification after the fixes, and [success] equal to
    [report.passed]. *)
Lemma validate_data uiSpec d :
  data (validate uiSpec) = Some d ->
  runAccessibilityChecks uiSpec = Ok (report d)
  /\ applyAccessibilityFixes uiSpec (report d) = Ok (fixedUI d)
  /\ success (validate uiSpec) = passed (report d).
Proof.
  unfold validate.
  destruct (runAccessibilityChecks uiSpec) as [r | e] eqn:Hr; [| discriminate].
  destruct (applyAccessibilityFixes uiSpec r) as [f | e] eqn:Hf; [| discriminate].
  pose proof (runAccessibilityChecks_passed _ _ Hr) as Hp.
  destruct (0 <? List.length (criticalViolations r))%nat eqn:Hc;
    cbn [data success]; intros H; injection H as <-; cbn [report fixedUI];
    (split; [reflexivity | split; [exact Hf |]]); rewrite Hp.
  - apply Nat.ltb_lt in Hc. symmetry. apply Nat.eqb_neq. lia.
  - apply Nat.ltb_ge in Hc. symmetry. apply Nat.eqb_eq. lia.
Qed.

Lemma no_critical_filter (vs : list Violation) :
  Forall (fun v => impact v <> critical) vs -> List.filter is_critical vs = [].
Proof.
  induction 1 as [| v r Hv _ IH]; [reflexivity |].
  cbn [List.filter]. unfold is_critical at 1.
  destruct (impact v); [now destruct Hv | exact IH ..].
Qed.

End Validation.

(** C1.  Whenever the validation stage produces a report, [passed] is true
    exactly when the report has no violation of impact "critical"; a report
    whose violations are all serious, moderate or minor has passed. *)
Theorem C1_passed_iff_no_critical
  (uiSpec : UISpec) (d : AccessibilityAgent.ValidationData) :
  data (AccessibilityAgent.validate uiSpec) = Some d ->
  let report := AccessibilityAgent.report d in
  (passed report = true <->
   List.length (List.filter AccessibilityAgent.is_critical (violations report)) = 0%nat)
  /\ (Forall (fun v => impact v <> critical) (violations report) -> passed report = true).
Proof.
  intros H. cbv zeta.
  destruct (validate_data _ _ H) as [Hr _].
  pose proof (runAccessibilityChecks_passed _ _ Hr) as Hp.
  unfold AccessibilityAgent.criticalViolations in Hp. rewrite Hp.
  split.
  - apply Nat.eqb_eq.
  - intros Hall. rewrite (no_critical_filter _ Hall). reflexivity.
Qed.

(** C1 at a specification with a serious violation only: it passes. *)
Lemma C1_serious_only_passes :
  let report := AccessibilityAgent.report untitled_modal_data in
  (passed report = true <->
   List.length (List.filter AccessibilityAgent.is_critical (violations report)) = 0%nat)
  /\ (Forall (fun v => impact v <> critical) (violations report) -> passed report = true).
Proof.
  apply (C1_passed_iff_no_critical untitled_modal_ui untitled_modal_data).
  vm_compute. reflexivity.
Defined.

(** * Scores *)

Section Scores.

Import DesignCriticAgent AccessibilityAgent.

Lemma fold_penalties (l : list Issue) (a : Z) :
  fold_left (fun score issue => score - penalty (issue_severity issue)) l a
  = a - 20 * count_severity error l - 10 * count_severity warning l
    - 5 * count_severity suggestion l.
Proof.
  revert a. induction l as [| i r IH]; intros a.
  - unfold count_severity. cbn [fold_left List.filter List.length]. lia.
  - cbn [fold_left]. rewrite IH. unfold count_severity. cbn [List.filter].
    destruct (issue_severity i); cbn [severity_eqb penalty List.length]; lia.
Qed.

Lemma calculateScore_formula feedback :
  calculateScore feedback = score_bonus_then_floor feedback.
Proof.
  unfold calculateScore, score_bonus_then_floor, has_bonus, points.
  rewrite fold_penalties.
  replace (0 <? List.length (improvements feedback))%nat
    with (1 <=? List.length (improvements feedback))%nat; [reflexivity |].
  destruct (List.length (improvements feedback)); reflexivity.
Qed.

Lemma count_severity_nonneg s l : 0 <= count_severity s l.
Proof. unfold count_severity. lia. Qed.

Lemma calculateScore_bounds feedback : 0 <= calculateScore feedback <= 100.
Proof.
  rewrite calculateScore_formula. unfold score_bonus_then_floor, points.
  pose proof (count_severity_nonneg error (issues feedback)).
  pose proof (count_severity_nonneg warning (issues feedback)).
  pose proof (count_severity_nonneg suggestion (issues feedback)).
  destruct (has_bonus _); lia.
Qed.

Lemma fold_impacts (l : list Violation) (a : Z) :
  fold_left (fun score violation => score - impact_penalty (impact violation)) l a <= a.
Proof.
  revert a. induction l as [| v r IH]; intros a; [cbn [fold_left]; lia |].
  cbn [fold_left]. specialize (IH (a - impact_penalty (impact v))).
  destruct (impact v); cbn [impact_penalty] in *; lia.
Qed.

Lemma fold_warnings (l : list Warning) (a : Z) :
  fold_left (fun score _ => score - 2) l a = a - 2 * Z.of_nat (List.length l).
Proof.
  revert a. induction l as [| x r IH]; intros a; [cbn [fold_left List.length]; lia |].
  cbn [fold_left List.length]. rewrite IH. lia.
Qed.

Lemma calculateA11yScore_bounds report : 0 <= calculateA11yScore report <= 100.
Proof.
  unfold calculateA11yScore. rewrite fold_warnings.
  pose proof (fold_impacts (violations report) 100). lia.
Qed.

Lemma analyzeDesign_score uiSpec feedback :
  analyzeDesign uiSpec = Ok feedback -> score feedback = calculateScore feedback.
Proof.
  unfold analyzeDesign.
  destruct (checkComponents _ _ _) as [f | e]; [| discriminate].
  intros H. injection H as <-. reflexivity.
Qed.

Lemma runAccessibilityChecks_score uiSpec report :
  runAccessibilityChecks uiSpec = Ok report ->
  a11y_score report = calculateA11yScore report.
Proof.
  unfold runAccessibilityChecks.
  destruct (forEach _ _ _ _) as [r | e]; [| discriminate].
  intros H. injection H as <-. reflexivity.
Qed.

End Scores.

(** C4, the input that refutes it.  For eleven icon-only buttons the critic
    reports twelve warnings and one improvement, and the score is 0; the
    points floored at 0 and then raised by the bonus would be 5. *)
Lemma C4_floor_is_applied_last :
  exists feedback,
    DesignCriticAgent.analyzeDesign eleven_icon_buttons = Ok feedback
    /\ List.length (issues feedback) = 12%nat
    /\ List.length (improvements feedback) = 1%nat
    /\ score feedback = 0
    /\ score_floor_then_bonus feedback = 5
    /\ score feedback <> score_floor_then_bonus feedback.
Proof.
  eexists. split; [vm_compute; reflexivity |].
  repeat split; vm_compute; congruence.
Qed.

(** C4, amended.  The critique score is 100 minus 20 per error, 10 per
    warning and 5 per suggestion, plus 5 capped at 100 exactly when there
    are one to three improvements, and the floor at 0 is applied after the
    bonus; the critique score and the validation score both lie in
    [0, 100]. *)
Theorem C4_scores
  (critiqued validated : UISpec) (feedback : DesignFeedback) (report : AccessibilityReport) :
  DesignCriticAgent.analyzeDesign critiqued = Ok feedback ->
  AccessibilityAgent.runAccessibilityChecks validated = Ok report ->
  score feedback = score_bonus_then_floor feedback
  /\ 0 <= score feedback <= 100
  /\ 0 <= a11y_score report <= 100.
Proof.
  intros Hf Hr.
  rewrite (analyzeDesign_score _ _ Hf), (runAccessibilityChecks_score _ _ Hr).
  split; [apply calculateScore_formula |].
  split; [apply calculateScore_bounds | apply calculateA11yScore_bounds].
Qed.

(** C4 amended, at the eleven buttons. *)
Lemma C4_scores_eleven_buttons :
  score eleven_feedback = score_bonus_then_floor eleven_feedback
  /\ 0 <= score eleven_feedback <= 100
  /\ 0 <= a11y_score eleven_report <= 100.
Proof.
  apply (C4_scores eleven_icon_buttons eleven_icon_buttons eleven_feedback eleven_report);
    vm_compute; reflexivity.
Defined.

(** * Identity and version of a specification across mutations *)

Section Mutations.

Import UIArchitectAgent DesignCriticAgent AccessibilityAgent.

Lemma applyModification_keeps newUI m ui' :
  applyModification newUI m = Ok ui' ->
  ui_id ui' = ui_id newUI /\ ui_metadata ui' = ui_metadata newUI.
Proof.
  destruct m as [i p | c]; cbn [applyModification].
  - destruct (ui_components newUI !! i); [| discriminate].
    intros H. injection H as <-. split; reflexivity.
  - intros H. injection H as <-. split; reflexivity.
Qed.

Lemma applyModifications_keeps mods : forall newUI ui',
  applyModifications newUI mods = Ok ui' ->
  ui_id ui' = ui_id newUI /\ ui_metadata ui' = ui_metadata newUI.
Proof.
  induction mods as [| m r IH]; intros newUI ui'; cbn [applyModifications].
  - intros H. injection H as <-. split; reflexivity.
  - destruct (applyModification newUI m) as [ui1 | e] eqn:E; [| discriminate].
    intros H. destruct (IH _ _ H) as [-> ->]. exact (applyModification_keeps _ _ _ E).
Qed.

(** The modify path: the identifier is the next one drawn from [uuidv4()],
    the version is the previous one, or 0 when there is none, plus 1. *)
Lemma modifyExistingUI_id_version request ui w ui' w' :
  modifyExistingUI request ui w = (Ok ui', w') ->
  ui_id ui' = uuids w (uuid_pos w)
  /\ version_of ui' = Some (next_version (ui_metadata ui)).
Proof.
  unfold modifyExistingUI, mbind, M_bind, uuidv4, now, lift. cbn beta iota.
  destruct (applyModifications _ _) as [u | e] eqn:E; [| discriminate].
  intros H. injection H as <- _.
  destruct (applyModifications_keeps _ _ _ E) as [Hid Hm].
  unfold version_of. rewrite Hid, Hm. split; reflexivity.
Qed.

Lemma applyImprovement_keeps improved i :
  ui_id (applyImprovement improved i) = ui_id improved
  /\ ui_metadata (applyImprovement improved i) = ui_metadata improved.
Proof.
  unfold applyImprovement.
  destruct (proposedProps i); [| split; reflexivity].
  destruct (ui_components improved !! componentIndex i); split; reflexivity.
Qed.

Lemma applyImprovements_keeps uiSpec feedback :
  ui_id (applyImprovements uiSpec feedback) = ui_id uiSpec
  /\ ui_metadata (applyImprovements uiSpec feedback) = ui_metadata uiSpec.
Proof.
  unfold applyImprovements. generalize (improvements feedback) as l.
  intros l. revert uiSpec. induction l as [| i r IH]; intros uiSpec; [split; reflexivity |].
  cbn [fold_left]. destruct (IH (applyImprovement uiSpec i)) as [-> ->].
  apply applyImprovement_keeps.
Qed.

Lemma applyFix_keeps fixed v fixed' :
  applyFix fixed v = Ok fixed' ->
  ui_id fixed' = ui_id fixed /\ ui_metadata fixed' = ui_metadata fixed.
Proof.
  unfold applyFix. destruct (violation_index v) as [i |].
  - destruct (ui_components fixed !! i) as [c |].
    + destruct (fixProps v (comp_props c)); [| discriminate].
      intros H. injection H as <-. split; reflexivity.
    + intros H. injection H as <-. split; reflexivity.
  - intros H. injection H as <-. split; reflexivity.
Qed.

Lemma applyAccessibilityFixes_keeps uiSpec report fixed :
  applyAccessibilityFixes uiSpec report = Ok fixed ->
  ui_id fixed = ui_id uiSpec /\ ui_metadata fixed = ui_metadata uiSpec.
Proof.
  unfold applyAccessibilityFixes. generalize (violations report) as vs.
  intros vs. revert uiSpec. induction vs as [| v r IH]; intros uiSpec; cbn [applyFixes].
  - intros H. injection H as <-. split; reflexivity.
  - destruct (applyFix uiSpec v) as [u | e] eqn:E; [| discriminate].
    intros H. destruct (IH _ H) as [-> ->]. exact (applyFix_keeps _ _ _ E).
Qed.

End Mutations.

(** C6, the inputs that refute it.  The critic changes the small button
    (its size becomes "lg") and the validator changes the unlabeled button
    (it receives an [ariaLabel]); both return the identifier and the
    metadata, version included, of their input. *)
Lemma C6_critique_and_validation_keep_id_and_version :
  (exists feedback improvedUI,
     data (DesignCriticAgent.review small_button_ui)
       = Some (DesignCriticAgent.Reviewed feedback improvedUI)
     /\ map comp_props (ui_components small_button_ui)
        = [[ str "text" "Go"; str "size" "sm" ]]
     /\ map comp_props (ui_components improvedUI)
        = [[ str "text" "Go"; str "size" "lg" ]]
     /\ ui_id improvedUI = ui_id small_button_ui
     /\ version_of improvedUI = version_of small_button_ui)
  /\ (exists d,
        data (AccessibilityAgent.validate unlabeled_ui) = Some d
        /\ option_map comp_props (head (ui_components (AccessibilityAgent.fixedUI d)))
           = Some [ flag "iconOnly" true; str "icon" "search";
                    str "ariaLabel" "search button" ]
        /\ ui_id (AccessibilityAgent.fixedUI d) = ui_id unlabeled_ui
        /\ version_of (AccessibilityAgent.fixedUI d) = version_of unlabeled_ui).
Proof.
  split.
  - eexists. eexists. split; [vm_compute; reflexivity |].
    repeat split.
  - eexists. split; [vm_compute; reflexivity |].
    repeat split.
Qed.

(** The sum is exact on the safe integers. *)
Lemma add_one_safe v : Js.safe_integer v = true -> Js.add_one v = v + 1.
Proof.
  unfold Js.safe_integer, Js.add_one, Js.round_double. intros H.
  apply andb_true_iff in H as [Hl Hu]. apply Z.ltb_lt in Hl, Hu.
  destruct (Z.abs (v + 1) <? 2 ^ 53) eqn:E; [reflexivity |].
  apply Z.ltb_ge in E.
  assert (Hv : v = 2 ^ 53 - 1) by lia.
  subst v. vm_compute. reflexivity.
Qed.

(** Beyond them it is not: at 2^53 the modify path returns the version it
    was given. *)
Example modification_at_two_to_the_53 :
  version_of late_button_ui = Some 9007199254740992
  /\ option_map version_of
       (returned (UIArchitectAgent.modifyExistingUI "fix the title" late_button_ui world0))
     = Some (Some 9007199254740992).
Proof. vm_compute. split; reflexivity. Qed.

(** C6, amended.  Only the modify path of generation reissues the
    identifier and raises the version: its result carries the identifier
    [uuidv4()] returns, which differs from the input's unless [uuidv4()]
    repeats it, and the input's version plus 1 (1 when the input has no
    version), the version being a safe integer.  Applying critique
    improvements or validation fixes returns a specification with the
    identifier and the metadata of the input, version unchanged. *)
Theorem C6_identity_and_version
  (request : string) (prior modified : UISpec) (w w' : World)
  (critiqued : UISpec) (feedback : DesignFeedback)
  (validated fixed : UISpec) (report : AccessibilityReport) :
  UIArchitectAgent.modifyExistingUI request prior w = (Ok modified, w') ->
  String.eqb (uuids w (uuid_pos w)) (ui_id prior) = false ->
  safe_version prior = true ->
  AccessibilityAgent.applyAccessibilityFixes validated report = Ok fixed ->
  (ui_id modified = uuids w (uuid_pos w)
   /\ ui_id modified <> ui_id prior
   /\ version_of modified
      = Some (match version_of prior with Some v => v + 1 | None => 1 end))
  /\ (ui_id (DesignCriticAgent.applyImprovements critiqued feedback) = ui_id critiqued
      /\ ui_metadata (DesignCriticAgent.applyImprovements critiqued feedback)
         = ui_metadata critiqued)
  /\ (ui_id fixed = ui_id validated /\ ui_metadata fixed = ui_metadata validated).
Proof.
  intros Hm Hnew Hsafe Hf. split; [| split].
  - destruct (modifyExistingUI_id_version _ _ _ _ _ Hm) as [Hid Hv].
    split; [exact Hid |]. split.
    + rewrite Hid. apply String.eqb_neq. exact Hnew.
    + rewrite Hv. f_equal. revert Hsafe.
      unfold UIArchitectAgent.next_version, safe_version, version_of.
      destruct (ui_metadata prior) as [m |]; [| reflexivity].
      cbn. destruct (version m); [apply add_one_safe | reflexivity].
  - apply applyImprovements_keeps.
  - exact (applyAccessibilityFixes_keeps _ _ _ Hf).
Qed.

(** C6 amended, at the unlabeled button and modal. *)
Lemma C6_identity_and_version_unlabeled :
  (ui_id unlabeled_bigger_ui = "uuid-0"
   /\ ui_id unlabeled_bigger_ui <> "ui-1"
   /\ version_of unlabeled_bigger_ui = Some 2)
  /\ (ui_id (DesignCriticAgent.applyImprovements unlabeled_ui unlabeled_feedback) = "ui-1"
      /\ ui_metadata (DesignCriticAgent.applyImprovements unlabeled_ui unlabeled_feedback)
         = ui_metadata unlabeled_ui)
  /\ (ui_id unlabeled_fixed_ui = "ui-1"
      /\ ui_metadata unlabeled_fixed_ui = ui_metadata unlabeled_ui).
Proof.
  apply (C6_identity_and_version "make it bigger" unlabeled_ui unlabeled_bigger_ui
           world0 (mkWorld (uuids world0) 1 (dates world0) 1)
           unlabeled_ui unlabeled_feedback
           unlabeled_ui unlabeled_fixed_ui unlabeled_report).
  - vm_compute. reflexivity.
  - reflexivity.
  - reflexivity.
  - vm_compute. reflexivity.
Defined.

(** * The critique result *)

Section Critique.

Import DesignCriticAgent.

Lemma existsb_is_error (l : list Issue) :
  existsb is_error l = true <-> Exists (fun i => issue_severity i = error) l.
Proof.
  induction l as [| i r IH]; cbn [existsb].
  - rewrite Exists_nil. split; [discriminate | tauto].
  - rewrite Exists_cons, orb_true_iff, IH. unfold is_error.
    destruct (issue_severity i); split; intros [H | H]; auto; discriminate.
Qed.

Lemma no_error_push_issue i feedback :
  issue_severity i <> error -> no_error feedback -> no_error (push_issue i feedback).
Proof.
  unfold no_error, push_issue. cbn [issues]. intros Hi Hf.
  apply Forall_app. split; [exact Hf | repeat constructor; exact Hi].
Qed.

Lemma no_error_push_improvement i feedback :
  no_error feedback -> no_error (push_improvement i feedback).
Proof. unfold no_error, push_improvement. cbn [issues]. trivial. Qed.

Lemma no_error_when (cond : bool) f feedback :
  (no_error feedback -> no_error (f feedback)) ->
  no_error feedback -> no_error (when_ cond f feedback).
Proof. unfold when_. destruct cond; auto. Qed.

Ltac no_error_steps :=
  repeat first
    [ assumption
    | apply no_error_when; intros
    | apply no_error_push_improvement
    | apply no_error_push_issue; [discriminate |] ].

Lemma checkComponent_no_error c index feedback feedback' :
  no_error feedback -> checkComponent c index feedback = Ok feedback' -> no_error feedback'.
Proof.
  intros Hf. unfold checkComponent.
  repeat match goal with
         | |- context [if String.eqb ?a ?b then _ else _] => destruct (String.eqb a b)
         end;
    try (intros H; injection H as <-).
  - unfold checkButton. no_error_steps.
  - unfold checkCard. no_error_steps.
  - unfold checkPricingTable.
    destruct (Js.truthy _); [| intros H; injection H as <-; exact Hf].
    destruct (Js.get _ _) as [[| | | | l |] |]; try discriminate.
    destruct (some_featured l); [| discriminate].
    intros H; injection H as <-. no_error_steps.
  - unfold checkForm. no_error_steps.
  - unfold checkChart. no_error_steps.
  - unfold checkDashboardLayout. no_error_steps.
  - unfold checkTestimonialSection.
    destruct (if Js.truthy _ then _ else _); [| discriminate].
    intros H; injection H as <-. no_error_steps.
  - exact Hf.
Qed.

Lemma checkComponents_no_error components : forall index feedback feedback',
  no_error feedback -> checkComponents components index feedback = Ok feedback' ->
  no_error feedback'.
Proof.
  induction components as [| c r IH]; intros index feedback feedback' Hf;
    cbn [checkComponents].
  - intros H; injection H as <-. exact Hf.
  - destruct (checkComponent c index feedback) as [f | e] eqn:E; [| discriminate].
    apply IH. exact (checkComponent_no_error _ _ _ _ Hf E).
Qed.

Lemma analyzeDesign_no_error uiSpec feedback :
  analyzeDesign uiSpec = Ok feedback -> no_error feedback.
Proof.
  unfold analyzeDesign.
  destruct (checkComponents _ _ _) as [f | e] eqn:E; [| discriminate].
  intros H; injection H as <-.
  assert (Hf : no_error f).
  { eapply checkComponents_no_error; [| exact E]. constructor. }
  unfold no_error. cbn [issues]. fold (no_error (checkConsistency (ui_components uiSpec)
                                                   (checkLayout uiSpec f))).
  unfold checkConsistency, checkLayout. no_error_steps.
Qed.

(** [review] of a specification is never the blocking return. *)
Lemma review_never_blocks uiSpec feedback :
  analyzeDesign uiSpec = Ok feedback ->
  review uiSpec
  = mkAgentResponse true (Some (Reviewed feedback (applyImprovements uiSpec feedback)))
      [] [] (Some accessibility).
Proof.
  intros H. unfold review. rewrite H. unfold review_feedback.
  pose proof (analyzeDesign_no_error _ _ H) as Hn.
  destruct (existsb is_error (issues feedback)) eqn:E; [| reflexivity].
  apply existsb_is_error, Exists_exists in E as [i [Hin Hi]].
  unfold no_error in Hn. rewrite Forall_forall in Hn.
  now destruct (Hn i Hin).
Qed.

End Critique.

(** The return of [review] for a feedback with an issue of severity
    "error", which no rule produces: its data is the feedback alone, without
    improved specification. *)
Example blocking_return_has_no_improved_spec :
  let response := DesignCriticAgent.review_feedback small_button_ui blocking_feedback in
  success response = false
  /\ data response = Some (DesignCriticAgent.FeedbackOnly blocking_feedback)
  /\ (data response ≫= AgentOrchestrator.data_improvedUI) = None
  /\ map comp_props
       (ui_components (DesignCriticAgent.applyImprovements small_button_ui blocking_feedback))
     = [[ str "text" "Go"; str "size" "md" ]].
Proof. vm_compute. repeat split; reflexivity. Qed.

(** C7, the input that refutes it.  On a pricing table whose tiers are an
    object keyed by plan, the check [tiers.some] throws: the critique fails,
    with the single error REVIEW_ERROR, although no issue of severity "error"
    was reported, and the result carries neither the feedback nor an
    improved specification. *)
Lemma C7_review_fails_without_error_issue :
  DesignCriticAgent.analyzeDesign keyed_tiers_ui
  = Throw (TypeError "tiers.some is not a function")
  /\ success (DesignCriticAgent.review keyed_tiers_ui) = false
  /\ data (DesignCriticAgent.review keyed_tiers_ui) = None
  /\ map code (errors (DesignCriticAgent.review keyed_tiers_ui)) = ["REVIEW_ERROR"]
  /\ ~ (success (DesignCriticAgent.review keyed_tiers_ui) = false
        <-> exists feedback,
              DesignCriticAgent.analyzeDesign keyed_tiers_ui = Ok feedback
              /\ Exists (fun i => issue_severity i = error) (issues feedback)).
Proof.
  split; [reflexivity |]. split; [reflexivity |]. split; [reflexivity |].
  split; [reflexivity |].
  intros [H _]. destruct (H eq_refl) as (feedback & Hf & _). discriminate Hf.
Qed.

(** C7, amended.  No rule reports an issue of severity "error", and the
    critique fails exactly when a rule check throws.  When the checks
    complete, the result is a success that carries the computed feedback
    together with the input with every improvement applied; when a check
    throws, the result is the failure REVIEW_ERROR and carries no data. *)
Theorem C7_review_fails_exactly_on_a_thrown_check (uiSpec : UISpec) :
  (success (DesignCriticAgent.review uiSpec) = false
   <-> exists e, DesignCriticAgent.analyzeDesign uiSpec = Throw e)
  /\ match DesignCriticAgent.analyzeDesign uiSpec with
     | Ok feedback =>
         Forall (fun i => issue_severity i <> error) (issues feedback)
         /\ data (DesignCriticAgent.review uiSpec)
            = Some (DesignCriticAgent.Reviewed feedback
                      (DesignCriticAgent.applyImprovements uiSpec feedback))
         /\ errors (DesignCriticAgent.review uiSpec) = []
     | Throw e =>
         data (DesignCriticAgent.review uiSpec) = None
         /\ errors (DesignCriticAgent.review uiSpec)
            = [mkAgentError "REVIEW_ERROR" (error_text e) sev_error]
     end.
Proof.
  destruct (DesignCriticAgent.analyzeDesign uiSpec) as [feedback | e] eqn:E.
  - rewrite (review_never_blocks _ _ E). cbn [success data errors]. split.
    + split; [discriminate | intros [e He]; discriminate He].
    + split; [exact (analyzeDesign_no_error _ _ E) |]. split; reflexivity.
  - unfold DesignCriticAgent.review. rewrite E. cbn [fail success data errors]. split.
    + split; [intros _; eexists; reflexivity | reflexivity].
    + split; reflexivity.
Qed.

(** * Patches at an index that is out of range *)

Section OutOfRange.

Import UIArchitectAgent DesignCriticAgent AccessibilityAgent.

(** The critic's guard [if (component)]: no change, no throw. *)
Lemma applyImprovement_out_of_range improved i :
  (List.length (ui_components improved) <= componentIndex i)%nat ->
  applyImprovement improved i = improved.
Proof.
  intros H. unfold applyImprovement.
  destruct (proposedProps i); [| reflexivity].
  rewrite (lookup_ge_None_2 _ _ H). reflexivity.
Qed.

(** The validator's guard [if (!component) return]: no change, no throw. *)
Lemma applyFix_out_of_range fixed v i :
  violation_index v = Some i ->
  (List.length (ui_components fixed) <= i)%nat ->
  applyFix fixed v = Ok fixed.
Proof.
  intros Hi H. unfold applyFix. rewrite Hi, (lookup_ge_None_2 _ _ H). reflexivity.
Qed.

(** The modify path has no such guard: the update throws. *)
Lemma applyModification_out_of_range newUI i patch :
  (List.length (ui_components newUI) <= i)%nat ->
  applyModification newUI (update i patch)
  = Throw (TypeError "Cannot read properties of undefined (reading 'props')").
Proof.
  intros H. cbn [applyModification]. rewrite (lookup_ge_None_2 _ _ H). reflexivity.
Qed.

End OutOfRange.

(** C9, the failing input.  With a current specification that has no
    component, the request "make it bigger" is classified "modify" and
    yields one update of component 0; the update throws a TypeError and the
    generation stage answers with the failure PROCESSING_ERROR and no
    specification, where the critic and the validator skip a patch whose
    index is out of range. *)
Theorem C9_update_of_component_0_throws_on_empty_spec :
  UIArchitectAgent.analyzeRequestType context_empty_ui "make it bigger"
    = UIArchitectAgent.Modify
  /\ UIArchitectAgent.determineModifications "make it bigger"
       (UIArchitectAgent.extractKeywords "make it bigger")
     = [UIArchitectAgent.update 0 [ str "size" "xl" ]]
  /\ match UIArchitectAgent.applyModification empty_ui
             (UIArchitectAgent.update 0 [ str "size" "xl" ]) with
     | Throw (TypeError _) => True
     | _ => False
     end
  /\ option_map (fun response => (success response, data response, map code (errors response)))
       (returned (UIArchitectAgent.processRequest context_empty_ui "make it bigger" world0))
     = Some (false, None, ["PROCESSING_ERROR"])
  /\ DesignCriticAgent.applyImprovement empty_ui
       (mkImprovement 0 "Consider making the first element larger for visual impact"
          (Some [ str "size" "lg" ]))
     = empty_ui
  /\ AccessibilityAgent.applyFix empty_ui
       (mkViolation "chart-label" serious "Chart at index 0 has no accessible label"
          "Add title or aria-label to describe the chart data" (Some 0%nat))
     = Ok empty_ui.
Proof. vm_compute. repeat split; reflexivity. Qed.

(** * The export tools and the clock *)

Section ExportClock.

Import ExportServer.

Lemma export_json_schema_without_metadata components w :
  export_json_schema components false w
  = (Ok (stringify_indent 2
           (JObj [ str "$schema" "https://json-schema.org/draft/2020-12/schema";
                   str "title" "UI-Smith Generated UI";
                   str "version" "1.0.0";
                   arr "components"
                     (mapi (fun comp index =>
                              JObj [ str "id" ("component-" ++ Str.of_nat index);
                                     str "type" (name comp);
                                     obj "props" (props comp) ])
                           components 0%nat) ])), w).
Proof. reflexivity. Qed.

Lemma export_json_schema_with_metadata components w :
  returned (export_json_schema components true w)
  = Some (stringify_indent 2
            (JObj [ str "$schema" "https://json-schema.org/draft/2020-12/schema";
                    str "title" "UI-Smith Generated UI";
                    str "version" "1.0.0";
                    obj "metadata"
                      [ str "generatedAt" (dates w (date_pos w));
                        str "generatedBy" "UI-Smith";
                        num "componentCount" (Z.of_nat (List.length components)) ];
                    arr "components"
                      (mapi (fun comp index =>
                               JObj [ str "id" ("component-" ++ Str.of_nat index);
                                      str "type" (name comp);
                                      obj "props" (props comp) ])
                            components 0%nat) ])).
Proof. reflexivity. Qed.

Lemma package_files_clock components projectName w :
  returned (package_files components projectName w)
  = Some [ mkPackageFile (projectName ++ "/app/page.tsx")
             (generatePageCode components true nextjs);
           mkPackageFile (projectName ++ "/styles/generated.css")
             (generateTailwindCSS components);
           mkPackageFile (projectName ++ "/ui-smith.config.json")
             (stringify_indent 2
                (JObj [ str "name" projectName; str "version" "1.0.0";
                        str "generatedAt" (dates w (date_pos w));
                        arr "components"
                          (map (fun c => JObj [ str "name" (name c); obj "props" (props c) ])
                               components) ]));
           mkPackageFile (projectName ++ "/README.md")
             (readme projectName components (dates w (S (date_pos w)))) ].
Proof. reflexivity. Qed.

Lemma generate_export_package_files components projectName w :
  returned (generate_export_package components projectName w)
  = option_map
      (fun files =>
         stringify_indent 2
           (JObj [ flag "success" true;
                   str "projectName" projectName;
                   num "fileCount" (Z.of_nat (List.length files));
                   arr "files"
                     (map (fun f =>
                             JObj [ str "path" (path f);
                                    num "size" (Z.of_nat (String.length (content f)));
                                    str "preview"
                                      (String.substring 0 100 (content f) ++ "...") ])
                          files);
                   arr "fullFiles"
                     (map (fun f => JObj [ str "path" (path f); str "content" (content f) ])
                          files) ]))
      (returned (package_files components projectName w)).
Proof. reflexivity. Qed.

End ExportClock.

(** C5, the input that refutes it.  Exporting the pricing page twice in a
    row, the clock having moved in between, gives two different schema
    documents and package files with the same paths and different
    contents. *)
Lemma C5_second_export_differs :
  match returned (twice (ExportServer.export_json_schema pricing_components true) world0) with
  | Some (first, second) => first <> second
  | None => False
  end
  /\ match returned (twice (ExportServer.package_files pricing_components "generated-ui")
                       world0) with
     | Some (first, second) =>
         map ExportServer.path first = map ExportServer.path second
         /\ map ExportServer.content first <> map ExportServer.content second
     | None => False
     end.
Proof.
  split.
  - set (r := returned _). vm_compute in r. subst r. cbv beta iota.
    apply String.eqb_neq. vm_compute. reflexivity.
  - set (r := returned _). vm_compute in r. subst r. cbv beta iota.
    split; [reflexivity |].
    intros H. apply (f_equal (fun l => nth 3 l EmptyString)) in H. revert H.
    apply String.eqb_neq. vm_compute. reflexivity.
Qed.

(** C5, amended.  The output of the export tools is a function of the
    components, the options and the times the clock shows during the run:
    two runs on the same input that read the same times return the same
    schema document, the same package files and the same package response.
    Whatever the clock shows, the schema document without metadata, the
    paths of the package files and the contents of the page and of the
    stylesheet are the same in every run. *)
Theorem C5_export_is_a_function_of_input_and_clock
  (components : list ExportServer.Component) (projectName : string)
  (includeMetadata : bool) (w1 w2 : World) :
  dates w1 (date_pos w1) = dates w2 (date_pos w2) ->
  dates w1 (S (date_pos w1)) = dates w2 (S (date_pos w2)) ->
  (returned (ExportServer.export_json_schema components includeMetadata w1)
   = returned (ExportServer.export_json_schema components includeMetadata w2)
   /\ returned (ExportServer.package_files components projectName w1)
      = returned (ExportServer.package_files components projectName w2)
   /\ returned (ExportServer.generate_export_package components projectName w1)
      = returned (ExportServer.generate_export_package components projectName w2))
  /\ (forall w3 w4 : World,
        returned (ExportServer.export_json_schema components false w3)
        = returned (ExportServer.export_json_schema components false w4)
        /\ option_map (map ExportServer.path)
             (returned (ExportServer.package_files components projectName w3))
           = option_map (map ExportServer.path)
               (returned (ExportServer.package_files components projectName w4))
        /\ option_map (fun files => map ExportServer.content (take 2 files))
             (returned (ExportServer.package_files components projectName w3))
           = option_map (fun files => map ExportServer.content (take 2 files))
               (returned (ExportServer.package_files components projectName w4))).
Proof.
  intros H0 H1. split; [split; [| split] |].
  - destruct includeMetadata.
    + rewrite !export_json_schema_with_metadata, H0. reflexivity.
    + rewrite !export_json_schema_without_metadata. reflexivity.
  - rewrite !package_files_clock, H0, H1. reflexivity.
  - rewrite !generate_export_package_files, !package_files_clock, H0, H1. reflexivity.
  - intros w3 w4. rewrite !export_json_schema_without_metadata, !package_files_clock.
    repeat split.
Qed.

(** C5 amended, at the pricing page exported under two worlds that share
    the clock. *)
Lemma C5_same_clock_same_export :
  (returned (ExportServer.export_json_schema pricing_components true world0)
   = returned (ExportServer.export_json_schema pricing_components true world1)
   /\ returned (ExportServer.package_files pricing_components "generated-ui" world0)
      = returned (ExportServer.package_files pricing_components "generated-ui" world1)
   /\ returned (ExportServer.generate_export_package pricing_components "generated-ui" world0)
      = returned (ExportServer.generate_export_package pricing_components "generated-ui" world1))
  /\ (forall w3 w4 : World,
        returned (ExportServer.export_json_schema pricing_components false w3)
        = returned (ExportServer.export_json_schema pricing_components false w4)
        /\ option_map (map ExportServer.path)
             (returned (ExportServer.package_files pricing_components "generated-ui" w3))
           = option_map (map ExportServer.path)
               (returned (ExportServer.package_files pricing_components "generated-ui" w4))
        /\ option_map (fun files => map ExportServer.content (take 2 files))
             (returned (ExportServer.package_files pricing_components "generated-ui" w3))
           = option_map (fun files => map ExportServer.content (take 2 files))
               (returned (ExportServer.package_files pricing_components "generated-ui" w4))).
Proof.
  apply (C5_export_is_a_function_of_input_and_clock pricing_components "generated-ui" true
           world0 world1); reflexivity.
Defined.

(** * The orchestrator's gates *)

Section Gates.

Import AgentOrchestrator.

Variable critic : UISpec -> AgentResponse DesignCriticAgent.ReviewData.
Variable exportEngineer : UISpec -> option Props -> M (AgentResponse ExportPackage).

Ltac run_P :=
  cbv [finish logMessage call get_self update_self get_result update_result catch
       set_context_ui push_error set_uiSpec set_designFeedback set_accessibilityReport
       set_exportPackage set_success mbind mret P_bind P_ret M_bind M_ret uuidv4 now
       data_feedback data_improvedUI self result context options messages data success
       errors result_conversationId result_success uiSpec designFeedback
       accessibilityReport exportPackage result_errors result_messages
       AccessibilityAgent.report AccessibilityAgent.fixedUI
       conversationId currentUI history negb tick stamp start].

Ltac run_step :=
  cbv delta [designStep accessibilityStep exportStep pure]; run_P.

Lemma designStep_run opts ui r w :
  exists ui' r',
    designStep (pure critic) opts ui r w = (Ok ui', r', tick w)
    /\ messages (self r')
       = (messages (self r)
          ++ [stamp w orchestrator design_critic VALIDATE_DESIGN (PayloadUISpec ui)])%list
    /\ options (self r') = options (self r)
    /\ (exists extra,
          result_errors (result r') = (result_errors (result r) ++ extra)%list
          /\ (success (critic ui) = false ->
              Exists (fun e => agent e = design_critic) extra))
    /\ (is_Some (uiSpec (result r)) -> is_Some (uiSpec (result r')))
    /\ accessibilityReport (result r') = accessibilityReport (result r)
    /\ exportPackage (result r') = exportPackage (result r)
    /\ result_success (result r') = result_success (result r).
Proof.
  destruct r as [[ctx op ms] [cid sc us df ar ep er rm]].
  destruct (critic ui) as [s [[fb | fb imp] |] errs sg na] eqn:E;
    destruct s; destruct (autoApplyDesignImprovements opts) eqn:Ea;
    run_step; rewrite E; run_step; rewrite ?Ea; run_step;
    do 2 eexists; (split; [reflexivity |]); run_step;
    repeat split; try reflexivity; try tauto; try (intros _; eexists; reflexivity);
    try (exists []; split; [symmetry; apply app_nil_r | discriminate]);
    try (eexists; split; [reflexivity | intros _; constructor; reflexivity]).
Qed.

(** The contract of [validate] the gate relies on. *)
Lemma validate_contract ui :
  match data (AccessibilityAgent.validate ui) with
  | Some d =>
      success (AccessibilityAgent.validate ui) = passed (AccessibilityAgent.report d)
      /\ passed (AccessibilityAgent.report d)
         = negb (report_blocks (Some (AccessibilityAgent.report d)))
  | None => success (AccessibilityAgent.validate ui) = false
  end.
Proof.
  destruct (data (AccessibilityAgent.validate ui)) as [d |] eqn:E.
  - destruct (validate_data _ _ E) as [Hr [_ Hs]]. split; [exact Hs |].
    rewrite (runAccessibilityChecks_passed _ _ Hr).
    unfold report_blocks, AccessibilityAgent.criticalViolations.
    generalize (violations (AccessibilityAgent.report d)) as vs.
    induction vs as [| v r IH]; [reflexivity |].
    cbn [List.filter existsb]. destruct (AccessibilityAgent.is_critical v); [reflexivity |].
    exact IH.
  - revert E. unfold AccessibilityAgent.validate.
    destruct (AccessibilityAgent.runAccessibilityChecks ui); [| reflexivity].
    destruct (AccessibilityAgent.applyAccessibilityFixes ui a); [| reflexivity].
    destruct (0 <? _)%nat; discriminate.
Qed.

Lemma accessibilityStep_run opts ui r w :
  accessibilityReport (result r) = None ->
  exists ui' stop r',
    accessibilityStep (pure AccessibilityAgent.validate) opts ui r w
      = (Ok (ui', stop), r', tick w)
    /\ messages (self r')
       = (messages (self r)
          ++ [stamp w orchestrator accessibility VALIDATE_ACCESSIBILITY (PayloadUISpec ui)])%list
    /\ options (self r') = options (self r)
    /\ (exists extra, result_errors (result r') = (result_errors (result r) ++ extra)%list)
    /\ (is_Some (uiSpec (result r)) -> is_Some (uiSpec (result r')))
    /\ stop = report_blocks (accessibilityReport (result r'))
    /\ exportPackage (result r') = exportPackage (result r)
    /\ result_success (result r') = result_success (result r)
    /\ accessibilityReport (result r')
       = option_map AccessibilityAgent.report (data (AccessibilityAgent.validate ui)).
Proof.
  destruct r as [[ctx op ms] [cid sc us df ar ep er rm]]. cbn [result accessibilityReport].
  intros ->.
  pose proof (validate_contract ui) as Hc.
  destruct (AccessibilityAgent.validate ui) as [s [[rep fx] |] errs sg na] eqn:E;
    cbn [data success AccessibilityAgent.report] in Hc.
  - destruct Hc as [Hs Hp]. subst s. cbn [report_blocks] in Hp.
    destruct (passed rep) eqn:Hpass; destruct (autoApplyAccessibilityFixes opts) eqn:Ea;
      run_step; rewrite E; run_step; rewrite ?Ea; run_step; rewrite ?Hpass;
      do 3 eexists; (split; [reflexivity |]); run_step; cbn [report_blocks];
      repeat split; try reflexivity; try (intros _; eexists; reflexivity); try tauto;
      try (exists []; symmetry; apply app_nil_r); try (eexists; reflexivity);
      destruct (existsb _ _); (discriminate Hp || reflexivity).
  - subst s. run_step. rewrite E. run_step.
    do 3 eexists; (split; [reflexivity |]); run_step;
      repeat split; try reflexivity; try tauto; eexists; reflexivity.
Qed.

Lemma exportStep_run opts ui r w :
  exists out r' w',
    exportStep exportEngineer opts ui r w = (out, r', w')
    /\ messages (self r')
       = (messages (self r)
          ++ [stamp w orchestrator export_engineer EXPORT_CODE (PayloadUISpec ui)])%list
    /\ options (self r') = options (self r)
    /\ (exists extra, result_errors (result r') = (result_errors (result r) ++ extra)%list)
    /\ uiSpec (result r') = uiSpec (result r)
    /\ accessibilityReport (result r') = accessibilityReport (result r).
Proof.
  destruct r as [[ctx op ms] [cid sc us df ar ep er rm]].
  run_step.
  destruct (exportEngineer ui (exportOptions opts) _) as [[[s [pkg |] errs sg na] | e] w'];
    try destruct s; run_step; do 3 eexists; (split; [reflexivity |]); run_step;
    repeat split; try (exists []; symmetry; apply app_nil_r); eexists; reflexivity.
Qed.

Lemma stages_report opts res res' :
  accessibilityReport res' = accessibilityReport res ->
  stages_after_generation opts res' = stages_after_generation opts res.
Proof. unfold stages_after_generation. intros ->. reflexivity. Qed.

Lemma critique_recorded_more res res' extra m :
  result_errors res' = (result_errors res ++ extra)%list ->
  critique_recorded critic res m -> critique_recorded critic res' m.
Proof.
  unfold critique_recorded. intros ->.
  destruct (msg_action m); trivial. destruct (msg_payload m); trivial.
  intros H Hs. apply Exists_app. left. exact (H Hs).
Qed.

Lemma validation_recorded_same res res' m :
  accessibilityReport res' = accessibilityReport res ->
  validation_recorded res m -> validation_recorded res' m.
Proof. unfold validation_recorded. intros ->. trivial. Qed.

(** The log entry of a review says nothing of the report. *)
Lemma validation_recorded_review res (skip : bool) d :
  map msg_action d = (if skip then [] else [VALIDATE_DESIGN]) ->
  Forall (validation_recorded res) d.
Proof.
  destruct skip.
  - destruct d; [constructor | discriminate].
  - destruct d as [| m [| ? ?]]; try discriminate. intros H. injection H as H.
    repeat constructor. unfold validation_recorded. now rewrite H.
Qed.

Lemma stages_run opts ui r w :
  accessibilityReport (result r) = None ->
  exportPackage (result r) = None ->
  result_success (result r) = false ->
  is_Some (uiSpec (result r)) ->
  exists out r' w' delta,
    stages (pure critic) (pure AccessibilityAgent.validate) exportEngineer opts ui r w
      = (out, r', w')
    /\ messages (self r') = (messages (self r) ++ delta)%list
    /\ map msg_action delta = stages_after_generation opts (result r')
    /\ Forall (critique_recorded critic (result r')) delta
    /\ Forall (validation_recorded (result r')) delta
    /\ is_Some (uiSpec (result r'))
    /\ (exists extra, result_errors (result r') = (result_errors (result r) ++ extra)%list)
    /\ (report_blocks (accessibilityReport (result r')) = true ->
        exportPackage (result r') = None /\ result_success (result r') = false)
    /\ (forall res, out = Ok res ->
        res = result r' /\ result_messages res = messages (self r')).
Proof.
  intros Hrep Hpkg Hsucc Hui.
  unfold stages, mbind, P_bind.
  (* review *)
  assert (Hd : exists ui1 r1 w1 d1,
             (if negb (skipDesignReview opts) then designStep (pure critic) opts ui
              else mret ui) r w = (Ok ui1, r1, w1)
             /\ messages (self r1) = (messages (self r) ++ d1)%list
             /\ map msg_action d1
                = (if skipDesignReview opts then [] else [VALIDATE_DESIGN])
             /\ Forall (critique_recorded critic (result r1)) d1
             /\ is_Some (uiSpec (result r1))
             /\ (exists extra,
                   result_errors (result r1) = (result_errors (result r) ++ extra)%list)
             /\ accessibilityReport (result r1) = None
             /\ exportPackage (result r1) = None
             /\ result_success (result r1) = false).
  { destruct (skipDesignReview opts); cbn [negb].
    - exists ui, r, w, []. rewrite app_nil_r. repeat split; auto.
      exists []. now rewrite app_nil_r.
    - destruct (designStep_run opts ui r w)
        as (ui1 & r1 & H1 & Hm & _ & (extra & He & Hx) & Hu & Ha & Hp & Hs).
      exists ui1, r1, (tick w), [stamp w orchestrator design_critic VALIDATE_DESIGN
                                  (PayloadUISpec ui)].
      repeat split; auto; try congruence.
      + constructor; [| constructor]. unfold critique_recorded. cbn [stamp msg_action msg_payload].
        intros Hf. rewrite He. apply Exists_app. right. exact (Hx Hf).
      + eauto. }
  destruct Hd as (ui1 & r1 & w1 & d1 & -> & Hm1 & Ha1 & Hc1 & Hu1 & (x1 & He1) & Hr1 & Hp1 & Hs1).
  (* validation *)
  assert (Hv : exists ui2 stop r2 w2 d2,
             (if negb (skipAccessibilityCheck opts)
              then accessibilityStep (pure AccessibilityAgent.validate) opts ui1
              else mret (ui1, false)) r1 w1 = (Ok (ui2, stop), r2, w2)
             /\ messages (self r2) = (messages (self r1) ++ d2)%list
             /\ map msg_action d2
                = (if skipAccessibilityCheck opts then [] else [VALIDATE_ACCESSIBILITY])
             /\ is_Some (uiSpec (result r2))
             /\ (exists extra,
                   result_errors (result r2) = (result_errors (result r1) ++ extra)%list)
             /\ stop = report_blocks (accessibilityReport (result r2))
             /\ exportPackage (result r2) = None
             /\ result_success (result r2) = false
             /\ Forall (validation_recorded (result r2)) d2).
  { destruct (skipAccessibilityCheck opts); cbn [negb].
    - exists ui1, false, r1, w1, []. rewrite app_nil_r, Hr1.
      repeat split; auto; try constructor.
      exists []. now rewrite app_nil_r.
    - destruct (accessibilityStep_run opts ui1 r1 w1 Hr1)
        as (ui2 & stop & r2 & H2 & Hm & _ & He & Hu & Hst & Hp & Hs & Hrec).
      exists ui2, stop, r2, (tick w1),
        [stamp w1 orchestrator accessibility VALIDATE_ACCESSIBILITY (PayloadUISpec ui1)].
      repeat split; auto; try congruence. }
  destruct Hv
    as (ui2 & stop & r2 & w2 & d2 & -> & Hm2 & Ha2 & Hu2 & (x2 & He2) & Hst & Hp2 & Hs2 & Hw2).
  apply (fun H => proj2 (Forall_app (validation_recorded (result r2)) d1 d2)
                    (conj (validation_recorded_review (result r2) _ d1 Ha1) H)) in Hw2.
  cbv beta iota.
  assert (Hm : messages (self r2) = (messages (self r) ++ d1 ++ d2)%list)
    by (rewrite Hm2, Hm1, app_assoc; reflexivity).
  assert (He : result_errors (result r2) = (result_errors (result r) ++ x1 ++ x2)%list)
    by (rewrite He2, He1, app_assoc; reflexivity).
  assert (Hc2 : Forall (critique_recorded critic (result r2)) (d1 ++ d2)).
  { apply Forall_app. split.
    - eapply Forall_impl; [exact Hc1 |]. intros m. apply (critique_recorded_more _ _ _ _ He2).
    - clear - Ha2. destruct (skipAccessibilityCheck opts).
      + destruct d2; [constructor | discriminate].
      + destruct d2 as [| m [| ? ?]]; try discriminate. injection Ha2 as Ha2.
        repeat constructor. unfold critique_recorded. now rewrite Ha2. }
  destruct stop.
  - (* the validation gate: the run returns *)
    destruct r2 as [[ctx op ms] [cid sc us df ar ep er rm]].
    cbn [self result messages accessibilityReport exportPackage result_success uiSpec
         result_errors] in *.
    run_P. do 4 eexists. split; [reflexivity |]. run_P.
    split; [exact Hm |].
    split.
    { unfold stages_after_generation. cbn [accessibilityReport]. rewrite <- Hst.
      rewrite andb_false_r, app_nil_r, map_app, Ha1, Ha2. reflexivity. }
    split; [exact Hc2 |].
    split; [exact Hw2 |].
    split; [exact Hu2 |].
    split; [eauto |].
    split; [intros _; split; assumption |].
    intros res H. injection H as <-. split; reflexivity.
  - (* no gate: export if enabled, then the success flag *)
    destruct (exportOnSuccess opts) eqn:Ex.
    + destruct (exportStep_run opts ui2 r2 w2)
        as (out & r3 & w3 & H3 & Hm3 & _ & (x3 & He3) & Hu3 & Ha3).
      rewrite H3.
      assert (Hm' : messages (self r3)
                    = (messages (self r)
                       ++ (d1 ++ d2)
                       ++ [stamp w2 orchestrator export_engineer EXPORT_CODE
                             (PayloadUISpec ui2)])%list)
        by (rewrite Hm3, Hm, !app_assoc; reflexivity).
      assert (Ha' : map msg_action
                      ((d1 ++ d2)
                       ++ [stamp w2 orchestrator export_engineer EXPORT_CODE
                             (PayloadUISpec ui2)])
                    = stages_after_generation opts (result r3)).
      { unfold stages_after_generation. rewrite Ha3, <- Hst, Ex, !map_app, Ha1, Ha2.
        cbn. now rewrite <- app_assoc. }
      assert (Hc' : Forall (critique_recorded critic (result r3))
                      ((d1 ++ d2)
                       ++ [stamp w2 orchestrator export_engineer EXPORT_CODE
                             (PayloadUISpec ui2)])).
      { apply Forall_app. split.
        - eapply Forall_impl; [exact Hc2 |]. intros m.
          apply (critique_recorded_more _ _ _ _ He3).
        - repeat constructor. }
      assert (He' : result_errors (result r3)
                    = (result_errors (result r) ++ (x1 ++ x2) ++ x3)%list)
        by (rewrite He3, He, !app_assoc; reflexivity).
      assert (Hw' : Forall (validation_recorded (result r3))
                      ((d1 ++ d2)
                       ++ [stamp w2 orchestrator export_engineer EXPORT_CODE
                             (PayloadUISpec ui2)])).
      { apply Forall_app. split.
        - eapply Forall_impl; [exact Hw2 |]. intros m.
          apply (validation_recorded_same _ _ _ Ha3).
        - repeat constructor. }
      rewrite <- Hu3 in Hu2. rewrite <- Ha3 in Hst.
      clear H3 Hm3 He3 Hu3 Ha3 Hm He Hc2 Hw2 Hm2 He2 Hm1 He1 Hc1.
      destruct r3 as [[ctx op ms] [cid sc us df ar ep er rm]].
      cbn [self result messages accessibilityReport exportPackage result_success uiSpec
           result_errors] in *.
      destruct out as [[] | e]; run_P; do 4 eexists; (split; [reflexivity |]); run_P;
        (split; [exact Hm' |]); (split; [exact Ha' |]); (split; [exact Hc' |]);
        (split; [exact Hw' |]); (split; [exact Hu2 |]); (split; [eauto |]);
        (split; [intros Hb; rewrite Hb in Hst; discriminate Hst |]);
        intros res H; try discriminate H; injection H as <-; split; reflexivity.
    + destruct r2 as [[ctx op ms] [cid sc us df ar ep er rm]].
      cbn [self result messages accessibilityReport exportPackage result_success uiSpec
           result_errors] in *.
      run_P. do 4 eexists. split; [reflexivity |]. run_P.
      split; [exact Hm |].
      split.
      { unfold stages_after_generation. cbn [accessibilityReport]. rewrite Ex.
        rewrite app_nil_r, map_app, Ha1, Ha2. reflexivity. }
      split; [exact Hc2 |].
      split; [exact Hw2 |].
      split; [exact Hu2 |].
      split; [eauto |].
      split; [intros Hb; rewrite Hb in Hst; discriminate Hst |].
      intros res H. injection H as <-. split; reflexivity.
Qed.

(** Every run returns a result; its new log entries are the request and
    the generation, then, after a successful generation, the stages of
    [stages_after_generation]; every failing answer of the critic is
    recorded; the report of the result is the one the validator returned
    for the specification it was given; a report with a critical violation
    leaves no export package and no success. *)
Lemma processRequest_gates
  (o : Orchestrator) (userMessage : string) (w : World) :
  exists res r' w' delta,
    processRequest UIArchitectAgent.processRequest (pure critic)
      (pure AccessibilityAgent.validate) exportEngineer userMessage (start o) w
      = (Ok res, r', w')
    /\ result_messages res = (messages o ++ delta)%list
    /\ map msg_action delta
       = ([ANALYZE_REQUEST; CREATE_UI]
          ++ match uiSpec res with
             | Some _ => stages_after_generation (options o) res
             | None => []
             end)%list
    /\ Forall (critique_recorded critic res) delta
    /\ Forall (validation_recorded res) delta
    /\ (report_blocks (accessibilityReport res) = true ->
        exportPackage res = None /\ result_success res = false).
Proof.
  destruct o as [[cid0 cui hist] op ms]. destruct w as [us0 up ds dp].
  unfold processRequest, pipeline. run_P. cbn [uuids uuid_pos dates date_pos].
  match goal with
  | |- context [UIArchitectAgent.processRequest ?c ?m ?w0] =>
      destruct (processRequest_returns c m w0) as (resp & w1 & Harch); rewrite Harch
  end.
  destruct resp as [s [ui |] errs sg na]; destruct s; run_P.
  2-4: do 4 eexists; (split; [reflexivity |]); run_P;
       (split; [rewrite <- !app_assoc; reflexivity |]); (split; [reflexivity |]);
       (split; [repeat constructor |]); (split; [repeat constructor |]); discriminate.
  match goal with
  | |- context [stages _ _ _ ?op ?u ?r ?w0] =>
      destruct (stages_run op u r w0)
        as (out & r1 & w2 & d & Hs & Hm & Ha & Hc & Hw & Hu & (x & He) & Hb & Hres);
        [reflexivity | reflexivity | reflexivity | eexists; reflexivity |];
        rewrite Hs
  end.
  cbn [self result messages result_errors] in Hm, He.
  destruct out as [res | e].
  - destruct (Hres res eq_refl) as [-> Hmsg].
    destruct r1 as [[ctx1 op1 ms1] [cid sc us df ar ep er rm]].
    cbn [self result messages accessibilityReport exportPackage result_success uiSpec
         result_errors result_messages] in *.
    do 4 eexists. split; [reflexivity |]. run_P.
    split; [rewrite Hmsg, Hm, <- !app_assoc; reflexivity |].
    destruct Hu as [u Hu]. rewrite Hu.
    split; [cbn [app map msg_action]; rewrite Ha; reflexivity |].
    split; [| split; [| exact Hb]].
    + apply Forall_app. split; [repeat constructor |].
      apply Forall_app. split; [repeat constructor | exact Hc].
    + apply Forall_app. split; [repeat constructor |].
      apply Forall_app. split; [repeat constructor | exact Hw].
  - destruct r1 as [[ctx1 op1 ms1] [cid sc us df ar ep er rm]].
    cbn [self result messages accessibilityReport exportPackage result_success uiSpec
         result_errors] in *.
    do 4 eexists. split; [reflexivity |]. run_P.
    split; [rewrite Hm, <- !app_assoc; reflexivity |].
    destruct Hu as [u Hu]. rewrite Hu.
    split; [cbn [app map msg_action]; rewrite Ha; reflexivity |].
    split; [| split; [| exact Hb]].
    + apply Forall_app. split; [repeat constructor |].
      apply Forall_app. split; [repeat constructor |].
      eapply Forall_impl; [exact Hc |]. intros m.
      apply (critique_recorded_more _ _ [mkPipelineError orchestrator "ORCHESTRATION_ERROR"
                                           (error_text e)]).
      reflexivity.
    + apply Forall_app. split; [repeat constructor |].
      apply Forall_app. split; [repeat constructor |].
      eapply Forall_impl; [exact Hw |]. intros m.
      apply validation_recorded_same. reflexivity.
Qed.

(** C3.  In every run of the pipeline, whatever the critic answers: a
    failing answer of the critic leaves an error of the design critic in
    the result and the run goes on; after a successful generation the run
    logs the review and the validation unless they are skipped, and logs
    the export exactly when export is enabled and the validation report
    holds no critical violation.  The report of the result is the one
    [validate] returned for the specification the log shows it was given,
    and when that report holds a critical violation the run ends there: no
    export is logged, and the result has no export package and no success. *)
Theorem C3_validation_is_the_only_gate
  (o : Orchestrator) (userMessage : string) (w : World) :
  exists res r' w' delta,
    processRequest UIArchitectAgent.processRequest (pure critic)
      (pure AccessibilityAgent.validate) exportEngineer userMessage (start o) w
      = (Ok res, r', w')
    /\ result_messages res = (messages o ++ delta)%list
    /\ map msg_action delta
       = ([ANALYZE_REQUEST; CREATE_UI]
          ++ match uiSpec res with
             | Some _ => stages_after_generation (options o) res
             | None => []
             end)%list
    /\ Forall (critique_recorded critic res) delta
    /\ Forall (validation_recorded res) delta
    /\ Forall (validation_gate res delta) delta
    /\ (report_blocks (accessibilityReport res) = true ->
        exportPackage res = None /\ result_success res = false).
Proof.
  destruct (processRequest_gates o userMessage w)
    as (res & r' & w' & delta & H & Hm & Ha & Hc & Hw & Hb).
  exists res, r', w', delta.
  split; [exact H |]. split; [exact Hm |]. split; [exact Ha |].
  split; [exact Hc |]. split; [exact Hw |]. split; [| exact Hb].
  eapply Forall_impl; [exact Hw |]. intros m. unfold validation_recorded, validation_gate.
  destruct (msg_action m); trivial. destruct (msg_payload m); trivial.
  intros <- Hr. split; [| exact (Hb Hr)].
  rewrite Ha. unfold stages_after_generation. rewrite Hr, andb_false_r.
  destruct (uiSpec res), (skipDesignReview (options o)),
    (skipAccessibilityCheck (options o)); cbn; intuition discriminate.
Qed.

End Gates.

(** The same for the orchestrator as the source builds it, with [review]
    as the critic. *)
Corollary run_processRequest_gates
  (exportEngineer : UISpec -> option Props -> M (AgentResponse ExportPackage))
  (o : AgentOrchestrator.Orchestrator) (userMessage : string) (w : World) :
  exists res r' w' delta,
    AgentOrchestrator.run_processRequest exportEngineer o userMessage w = (Ok res, r', w')
    /\ AgentOrchestrator.result_messages res = (AgentOrchestrator.messages o ++ delta)%list
    /\ map msg_action delta
       = ([ANALYZE_REQUEST; CREATE_UI]
          ++ match AgentOrchestrator.uiSpec res with
             | Some _ => stages_after_generation (AgentOrchestrator.options o) res
             | None => []
             end)%list
    /\ (report_blocks (AgentOrchestrator.accessibilityReport res) = true ->
        AgentOrchestrator.exportPackage res = None
        /\ AgentOrchestrator.result_success res = false).
Proof.
  destruct (processRequest_gates DesignCriticAgent.review exportEngineer o userMessage w)
    as (res & r' & w' & delta & H & Hm & Ha & _ & _ & Hb).
  exists res, r', w', delta. unfold AgentOrchestrator.run_processRequest. auto.
Qed.

(** C3 at the request "make it bigger" on the unlabeled button: the report
    of the validator holds a critical violation, the run ends after the
    validation, and nothing is exported. *)
Lemma C3_unlabeled_button_halts_the_run :
  exists res r' w' delta,
    AgentOrchestrator.processRequest UIArchitectAgent.processRequest
      (pure DesignCriticAgent.review) (pure AccessibilityAgent.validate) sample_exporter
      "make it bigger" (AgentOrchestrator.start orchestrator_with_unlabeled_ui) world0
    = (Ok res, r', w')
    /\ map msg_action delta
       = [ANALYZE_REQUEST; CREATE_UI; VALIDATE_DESIGN; VALIDATE_ACCESSIBILITY]
    /\ Forall (validation_recorded res) delta
    /\ report_blocks (AgentOrchestrator.accessibilityReport res) = true
    /\ AgentOrchestrator.exportPackage res = None
    /\ AgentOrchestrator.result_success res = false.
Proof.
  destruct (C3_validation_is_the_only_gate DesignCriticAgent.review sample_exporter
              orchestrator_with_unlabeled_ui "make it bigger" world0)
    as (res & r' & w' & delta & H & Hm & Ha & Hc & Hw & Hg & Hb).
  exists res, r', w', delta.
  assert (Hr : report_blocks (AgentOrchestrator.accessibilityReport res) = true
               /\ is_Some (AgentOrchestrator.uiSpec res)
               /\ AgentOrchestrator.options orchestrator_with_unlabeled_ui
                  = AgentOrchestrator.defaultOptions).
  { vm_compute in H. injection H as <- _ _. repeat split. eexists. reflexivity. }
  destruct Hr as (Hr & [u Hu] & Ho).
  split; [exact H |]. split.
  - rewrite Ha, Hu. unfold stages_after_generation. rewrite Hr, Ho. reflexivity.
  - split; [exact Hw |]. split; [exact Hr |]. exact (Hb Hr).
Defined.


(** * Runs of the whole pipeline *)

Example run_pricing_page :
  observe (AgentOrchestrator.run_processRequest sample_exporter fresh_orchestrator
             "Create a SaaS pricing page" world0)
  = Some (true,
          [ANALYZE_REQUEST; CREATE_UI; VALIDATE_DESIGN; VALIDATE_ACCESSIBILITY; EXPORT_CODE],
          [], true).
Proof. vm_compute. reflexivity. Qed.

Example run_stops_at_the_validation_gate :
  observe (AgentOrchestrator.run_processRequest sample_exporter orchestrator_with_unlabeled_ui
             "make it bigger" world0)
  = Some (false,
          [ANALYZE_REQUEST; CREATE_UI; VALIDATE_DESIGN; VALIDATE_ACCESSIBILITY],
          [accessibility], false).
Proof. vm_compute. reflexivity. Qed.

Example run_goes_on_after_a_blocking_critique :
  observe (AgentOrchestrator.processRequest UIArchitectAgent.processRequest
             (pure blocking_critic) (pure AccessibilityAgent.validate) sample_exporter
             "asdf" (AgentOrchestrator.start fresh_orchestrator) world0)
  = Some (true,
          [ANALYZE_REQUEST; CREATE_UI; VALIDATE_DESIGN; VALIDATE_ACCESSIBILITY; EXPORT_CODE],
          [design_critic], true).
Proof. vm_compute. reflexivity. Qed.

Example unlabeled_button_is_critical :
  map (fun v => (rule v, impact v)) (violations unlabeled_report)
  = [("button-name", critical); ("modal-name", serious)]
  /\ passed unlabeled_report = false.
Proof. split; reflexivity. Qed.

(** * Further properties of the generation stage *)

Section Selection.

Import UIArchitectAgent.

Ltac split_selection keywords description :=
  unfold selectComponents, push_if; cbv zeta;
  destruct (has keywords "pricing"), (has keywords "dashboard"), (has keywords "chart"),
    (has keywords "form"), (has keywords "modal"), (has keywords "testimonial"),
    (has keywords "card" || Str.includes (Str.toLowerCase description) "hero"
     || Str.includes (Str.toLowerCase description) "feature"),
    (Str.includes (Str.toLowerCase description) "landing"
     || Str.includes (Str.toLowerCase description) "hero"
     || Str.includes (Str.toLowerCase description) "cta");
  cbn [app List.length Nat.ltb Nat.leb Nat.eqb andb map comp_name
       createPricingTableSpec createDashboardSpec createChartSpec createFormSpec
       createModalSpec createTestimonialSpec createCardSpec createButtonSpec].

Lemma selectComponents_length keywords description :
  (1 <= List.length (selectComponents keywords description) <= 8)%nat.
Proof. split_selection keywords description; lia. Qed.

Lemma selectComponents_names keywords description :
  sublist (map comp_name (selectComponents keywords description)) selection_order.
Proof.
  split_selection keywords description; unfold selection_order;
    repeat first [apply sublist_nil_l | apply sublist_skip | apply sublist_cons].
Qed.

End Selection.

(** X1.  Whatever the keywords and the description, [selectComponents]
    returns between one and eight components. *)
Theorem X1_selection_has_one_to_eight_components
  (keywords : list string) (description : string) :
  (1 <= List.length (UIArchitectAgent.selectComponents keywords description) <= 8)%nat.
Proof. apply selectComponents_length. Qed.

(** X2.  The kinds [selectComponents] returns follow the fixed order
    PricingTable, DashboardLayout, Chart, Form, Modal, TestimonialSection,
    Card, Button: each kind occurs at most once and never before a kind that
    precedes it in that order. *)
Theorem X2_selection_follows_the_fixed_order
  (keywords : list string) (description : string) :
  sublist (map comp_name (UIArchitectAgent.selectComponents keywords description))
          selection_order
  /\ NoDup (map comp_name (UIArchitectAgent.selectComponents keywords description)).
Proof.
  pose proof (selectComponents_names keywords description) as H.
  split; [exact H |].
  eapply sublist_NoDup; [| exact H].
  unfold selection_order. repeat (apply NoDup_cons; split; [rewrite ?elem_of_cons, elem_of_nil; intuition discriminate |]). apply NoDup_nil_2.
Qed.

Section Modification.

Import UIArchitectAgent.

(** The modify path on a specification with a first component: the call
    returns; the first component keeps its name, children and metadata, the
    others are untouched, and what is appended is a Button, a
    TestimonialSection or a Button followed by a TestimonialSection. *)
Lemma modifyExistingUI_components request id name desc c rest layout meta w :
  exists props added,
    modifyExistingUI request (mkUISpec id name desc (c :: rest) layout meta) w =
      (Ok (mkUISpec (uuids w (uuid_pos w)) name desc
             ((set_props c props :: rest) ++ added)%list layout
             (Some (mkSpecMeta (m ← meta; createdAt m) (Some (dates w (date_pos w)))
                               (Some (next_version meta))))),
       mkWorld (uuids w) (S (uuid_pos w)) (dates w) (S (date_pos w)))
    /\ sublist (map comp_name added) ["Button"; "TestimonialSection"].
Proof.
  unfold modifyExistingUI, determineModifications, mbind, M_bind, uuidv4, now, lift.
  cbv zeta. cbn [ui_metadata ui_name ui_description ui_components ui_layout uuids uuid_pos
                 dates date_pos].
  destruct c as [cn cp cc cm].
  exists
    (let lowerRequest := Str.toLowerCase request in
     let p := cp in
     let p := if Str.includes lowerRequest "more modern" || Str.includes lowerRequest "modern"
              then Js.spread p [str "variant" "glass"] else p in
     let p := if Str.includes lowerRequest "bigger" || Str.includes lowerRequest "larger"
              then Js.spread p [str "size" "xl"] else p in
     if Str.includes lowerRequest "smaller" then Js.spread p [str "size" "sm"] else p),
    ((if Str.includes (Str.toLowerCase request) "add button"
         || Str.includes (Str.toLowerCase request) "add cta"
      then [createButtonSpec request] else [])
     ++ (if Str.includes (Str.toLowerCase request) "add testimonial"
         then [createTestimonialSpec request] else []))%list.
  cbv zeta.
  destruct (Str.includes _ "more modern" || _), (Str.includes _ "bigger" || _),
    (Str.includes _ "smaller"), (Str.includes _ "add button" || _),
    (Str.includes _ "add testimonial");
    cbv [applyModifications applyModification set_components set_props ui_components
         lookup list_lookup insert list_insert comp_name comp_props comp_children
         comp_metadata ui_id ui_name ui_description ui_layout ui_metadata];
    cbn [app]; rewrite <- ?app_assoc; cbn [app]; rewrite ?app_nil_r;
    (split; [reflexivity |]);
    cbn [map comp_name createButtonSpec createTestimonialSpec];
    repeat first [apply sublist_nil_l | apply sublist_skip | apply sublist_cons].
Qed.

Lemma determineModifications_none request keywords :
  names_no_change request = true -> determineModifications request keywords = [].
Proof.
  unfold names_no_change, determineModifications. cbv zeta. intros H.
  repeat (apply andb_true_iff in H as [H ?]).
  repeat match goal with
         | H : negb _ = true |- _ => apply negb_true_iff in H; rewrite H; clear H
         end.
  reflexivity.
Qed.

Lemma generation_succeeds context userMessage w :
  match currentUI context with
  | Some ui => ui_components ui <> []
  | None => True
  end ->
  exists uiSpec w',
    processRequest context userMessage w
      = (Ok (succeed uiSpec), w')
    /\ ui_components uiSpec <> [].
Proof.
  intros H.
  destruct (analyzeRequestType_cases context userMessage) as [E | E].
  - rewrite (processRequest_create _ _ _ E). do 2 eexists. split; [reflexivity |].
    cbn [ui_components]. intros Hnil.
    pose proof (selectComponents_length (extractKeywords userMessage)
                  userMessage) as Hl.
    rewrite Hnil in Hl. cbn in Hl. lia.
  - destruct context as [cid [ui |] hist].
    + cbn [currentUI] in H. destruct ui as [id name desc [| c rest] layout meta];
        [now contradiction H |].
      destruct (modifyExistingUI_components userMessage id name desc c rest layout meta w)
        as (props & added & Em & _).
      unfold processRequest, try_catch. rewrite E. cbn [currentUI].
      unfold mbind, M_bind at 1. rewrite Em. do 2 eexists. split; [reflexivity |].
      cbn [ui_components]. discriminate.
    + rewrite analyzeRequestType_no_prior in E. discriminate.
Qed.

End Modification.

(** X3.  A modification of a specification that has a first component never
    fails and never removes, reorders or renames a component: the result
    holds the first component with possibly other props, then the other
    components unchanged, then at most a new Button and a new
    TestimonialSection, in this order; name, description and layout of the
    specification are kept. *)
Theorem X3_modification_keeps_the_component_list
  (request : string) (id : string) (name desc : option string)
  (c : ComponentSpec) (rest : list ComponentSpec) (layout : option Layout)
  (meta : option SpecMeta) (w : World) :
  exists props added ui' w',
    UIArchitectAgent.modifyExistingUI request
      (mkUISpec id name desc (c :: rest) layout meta) w = (Ok ui', w')
    /\ ui_components ui' = (set_props c props :: rest ++ added)%list
    /\ sublist (map comp_name added) ["Button"; "TestimonialSection"]
    /\ ui_name ui' = name /\ ui_description ui' = desc /\ ui_layout ui' = layout.
Proof.
  destruct (modifyExistingUI_components request id name desc c rest layout meta w)
    as (props & added & E & Hs).
  exists props, added. do 2 eexists. split; [exact E |].
  cbn [ui_components ui_name ui_description ui_layout]. repeat split. exact Hs.
Qed.

(** X4.  A modification request that names none of the known changes
    (modern, bigger, larger, smaller, add button, add cta, add testimonial)
    returns the components, name, description and layout of the current
    specification as they are, under the identifier drawn and with the
    version plus 1 (1 when there was none), the version being a safe
    integer. *)
Theorem X4_unrecognised_modification_changes_only_id_and_metadata
  (request : string) (currentUI : UISpec) (w : World) :
  names_no_change request = true ->
  safe_version currentUI = true ->
  UIArchitectAgent.modifyExistingUI request currentUI w =
    (Ok (mkUISpec (uuids w (uuid_pos w)) (ui_name currentUI) (ui_description currentUI)
           (ui_components currentUI) (ui_layout currentUI)
           (Some (mkSpecMeta (m ← ui_metadata currentUI; createdAt m)
                             (Some (dates w (date_pos w)))
                             (Some (match version_of currentUI with
                                    | Some v => v + 1
                                    | None => 1
                                    end))))),
     mkWorld (uuids w) (S (uuid_pos w)) (dates w) (S (date_pos w))).
Proof.
  intros H Hsafe. unfold UIArchitectAgent.modifyExistingUI.
  rewrite (determineModifications_none _ _ H).
  assert (Hv : UIArchitectAgent.next_version (ui_metadata currentUI)
               = match version_of currentUI with Some v => v + 1 | None => 1 end).
  { revert Hsafe. unfold UIArchitectAgent.next_version, safe_version, version_of.
    destruct (ui_metadata currentUI) as [m |]; [| reflexivity].
    cbn. destruct (version m); [apply add_one_safe | reflexivity]. }
  rewrite <- Hv. reflexivity.
Qed.

Lemma X4_fix_the_title :
  names_no_change "fix the title" = true
  /\ safe_version small_button_ui = true
  /\ option_map ui_components
       (returned (UIArchitectAgent.modifyExistingUI "fix the title" small_button_ui world0))
     = Some (ui_components small_button_ui)
  /\ option_map version_of
       (returned (UIArchitectAgent.modifyExistingUI "fix the title" small_button_ui world0))
     = Some (Some 2).
Proof.
  split; [reflexivity |]. split; [reflexivity |].
  rewrite (X4_unrecognised_modification_changes_only_id_and_metadata
             "fix the title" small_button_ui world0); [| reflexivity | reflexivity].
  split; reflexivity.
Defined.

(** X5.  When the conversation has no current specification, or one with at
    least one component, the generation stage succeeds on every request, and
    the specification it returns has at least one component. *)
Theorem X5_generation_succeeds_on_a_non_empty_specification
  (context : AgentContext) (userMessage : string) (w : World) :
  match currentUI context with
  | Some ui => ui_components ui <> []
  | None => True
  end ->
  exists uiSpec w',
    UIArchitectAgent.processRequest context userMessage w
      = (Ok (UIArchitectAgent.succeed uiSpec), w')
    /\ ui_components uiSpec <> [].
Proof. apply generation_succeeds. Qed.

Lemma X5_small_button_bigger :
  ui_components small_button_ui <> []
  /\ exists uiSpec w',
       UIArchitectAgent.processRequest context_small_button "make it bigger" world0
         = (Ok (UIArchitectAgent.succeed uiSpec), w')
       /\ ui_components uiSpec <> [].
Proof.
  split; [discriminate |].
  apply (X5_generation_succeeds_on_a_non_empty_specification
           context_small_button "make it bigger" world0).
  discriminate.
Defined.

(** * Further properties of the critique and validation stages *)

Section Objects.

Lemma get_set_same o k v : Js.get (Js.set o k v) k = Some v.
Proof.
  induction o as [| [k' v'] r IH]; cbn [Js.set Js.get].
  - rewrite String.eqb_refl. reflexivity.
  - destruct (String.eqb k' k) eqn:E; cbn [Js.get]; rewrite E; [reflexivity | exact IH].
Qed.

Lemma get_set_other o k v k' : k <> k' -> Js.get (Js.set o k v) k' = Js.get o k'.
Proof.
  intros Hk. induction o as [| [k0 v0] r IH]; cbn [Js.set Js.get].
  - destruct (String.eqb k k') eqn:E; [apply String.eqb_eq in E; contradiction | reflexivity].
  - destruct (String.eqb k0 k) eqn:E; cbn [Js.get].
    + apply String.eqb_eq in E. subst k0.
      destruct (String.eqb k k') eqn:E'; [apply String.eqb_eq in E'; contradiction |].
      reflexivity.
    + destruct (String.eqb k0 k'); [reflexivity | exact IH].
Qed.

Lemma get_set_keeps o k v k' : is_Some (Js.get o k') -> is_Some (Js.get (Js.set o k v) k').
Proof.
  intros H. destruct (String.eqb k k') eqn:E.
  - apply String.eqb_eq in E. subst k'. rewrite get_set_same. eauto.
  - apply String.eqb_neq in E. rewrite get_set_other by exact E. exact H.
Qed.

Lemma get_spread_keeps b : forall a k,
  is_Some (Js.get a k) -> is_Some (Js.get (Js.spread a b) k).
Proof.
  unfold Js.spread. induction b as [| [k0 v0] r IH]; intros a k H; cbn [fold_left fst snd].
  - exact H.
  - apply IH, get_set_keeps, H.
Qed.

Lemma same_frame_refl c : same_frame c c.
Proof. repeat split; auto. Qed.

Lemma same_frame_trans c1 c2 c3 : same_frame c1 c2 -> same_frame c2 c3 -> same_frame c1 c3.
Proof.
  intros (Hn & Hc & Hm & Hk) (Hn' & Hc' & Hm' & Hk').
  repeat split; try congruence. auto.
Qed.

Lemma Forall2_same_frame_refl l : Forall2 same_frame l l.
Proof. induction l; constructor; auto using same_frame_refl. Qed.

Lemma Forall2_same_frame_trans l1 : forall l2 l3,
  Forall2 same_frame l1 l2 -> Forall2 same_frame l2 l3 -> Forall2 same_frame l1 l3.
Proof.
  induction l1 as [| c r IH]; intros l2 l3 H12 H23.
  - inversion H12; subst. inversion H23; subst. constructor.
  - inversion H12 as [| ? c2 ? r2 Hc Hr]; subst.
    inversion H23 as [| ? c3 ? r3 Hc' Hr']; subst.
    constructor; [eapply same_frame_trans; eassumption | eapply IH; eassumption].
Qed.

Lemma Forall2_same_frame_insert l : forall i c props,
  l !! i = Some c ->
  (forall k, is_Some (Js.get (comp_props c) k) -> is_Some (Js.get props k)) ->
  Forall2 same_frame l (<[i := set_props c props]> l).
Proof.
  induction l as [| x r IH]; intros [| i] c props Hl Hk; try discriminate.
  - cbn in Hl. injection Hl as ->. cbn. constructor.
    + repeat split; auto.
    + apply Forall2_same_frame_refl.
  - cbn in Hl. cbn. constructor; [apply same_frame_refl | apply IH; assumption].
Qed.

Lemma same_outline_refl ui : same_outline ui ui.
Proof. repeat split. apply Forall2_same_frame_refl. Qed.

Lemma same_outline_trans u1 u2 u3 :
  same_outline u1 u2 -> same_outline u2 u3 -> same_outline u1 u3.
Proof.
  intros (A1 & A2 & A3 & A4 & A5 & A6) (B1 & B2 & B3 & B4 & B5 & B6).
  repeat split; try congruence. eapply Forall2_same_frame_trans; eassumption.
Qed.

Lemma same_outline_patch ui i c props :
  ui_components ui !! i = Some c ->
  (forall k, is_Some (Js.get (comp_props c) k) -> is_Some (Js.get props k)) ->
  same_outline ui (set_components ui (<[i := set_props c props]> (ui_components ui))).
Proof.
  intros Hl Hk. repeat split. cbn [ui_components set_components].
  apply Forall2_same_frame_insert; assumption.
Qed.

Lemma same_outline_names ui ui' :
  same_outline ui ui' ->
  List.length (ui_components ui') = List.length (ui_components ui)
  /\ map comp_name (ui_components ui') = map comp_name (ui_components ui).
Proof.
  intros (_ & _ & _ & _ & _ & H). split.
  - symmetry. eapply Forall2_length, H.
  - induction H as [| c c' l l' Hc _ IH]; [reflexivity |].
    cbn [map]. rewrite IH. destruct Hc as [-> _]. reflexivity.
Qed.

End Objects.

Section Improvements.

Import DesignCriticAgent.

Lemma applyImprovement_outline improved i : same_outline improved (applyImprovement improved i).
Proof.
  unfold applyImprovement.
  destruct (proposedProps i) as [patch |]; [| apply same_outline_refl].
  destruct (ui_components improved !! componentIndex i) as [c |] eqn:E;
    [| apply same_outline_refl].
  apply same_outline_patch; [exact E |]. intros k. apply get_spread_keeps.
Qed.

Lemma applyImprovements_outline uiSpec feedback :
  same_outline uiSpec (applyImprovements uiSpec feedback).
Proof.
  unfold applyImprovements. generalize (improvements feedback) as l. intros l.
  revert uiSpec. induction l as [| i r IH]; intros uiSpec; cbn [fold_left].
  - apply same_outline_refl.
  - eapply same_outline_trans; [apply applyImprovement_outline | apply IH].
Qed.

End Improvements.

(** X6.  Applying the improvements of any feedback changes nothing but
    component props: identifier, name, description, layout and metadata of
    the specification are kept, the components are as many as before, each
    with its name, children and metadata, and no prop key is lost. *)
Theorem X6_improvements_change_props_only (uiSpec : UISpec) (feedback : DesignFeedback) :
  same_outline uiSpec (DesignCriticAgent.applyImprovements uiSpec feedback)
  /\ List.length (ui_components (DesignCriticAgent.applyImprovements uiSpec feedback))
     = List.length (ui_components uiSpec)
  /\ map comp_name (ui_components (DesignCriticAgent.applyImprovements uiSpec feedback))
     = map comp_name (ui_components uiSpec).
Proof.
  pose proof (applyImprovements_outline uiSpec feedback) as H.
  split; [exact H | exact (same_outline_names _ _ H)].
Qed.

Section ImprovementIndices.

Import DesignCriticAgent.

Lemma improves_at_refl index feedback : improves_at index feedback feedback.
Proof. exists []. split; [symmetry; apply app_nil_r | constructor]. Qed.

Lemma improves_at_improvement index feedback feedback' cond imp :
  componentIndex imp = index ->
  improves_at index feedback feedback' ->
  improves_at index feedback (when_ cond (push_improvement imp) feedback').
Proof.
  intros Hi (new & Hn & Hf). destruct cond; cbn [when_]; [| exists new; auto].
  exists (new ++ [imp])%list. cbn [push_improvement improvements]. rewrite Hn, app_assoc.
  split; [reflexivity |]. apply Forall_app. split; [exact Hf |]. constructor; [exact Hi | constructor].
Qed.

Lemma improves_at_issue index feedback feedback' cond i :
  improves_at index feedback feedback' ->
  improves_at index feedback (when_ cond (push_issue i) feedback').
Proof. intros H. destruct cond; exact H. Qed.

Ltac improves_steps :=
  repeat first [ apply improves_at_refl
               | apply improves_at_issue
               | apply improves_at_improvement; [reflexivity |] ].

Lemma checkComponent_improves_at c index feedback feedback' :
  checkComponent c index feedback = Ok feedback' -> improves_at index feedback feedback'.
Proof.
  unfold checkComponent. cbv zeta.
  repeat match goal with
         | |- context [if String.eqb ?a ?b then _ else _] => destruct (String.eqb a b)
         end;
    try (intros H; injection H as <-;
         unfold checkButton, checkCard, checkForm, checkChart, checkDashboardLayout;
         cbv zeta; improves_steps).
  - unfold checkPricingTable. cbv zeta.
    destruct (Js.truthy _); [| intros H; injection H as <-; improves_steps].
    destruct (Js.get (comp_props c) "tiers") as [[| | | | l |] |]; try discriminate.
    destruct (some_featured l); [| discriminate].
    intros H; injection H as <-. improves_steps.
  - unfold checkTestimonialSection. cbv zeta.
    destruct (if Js.truthy _ then _ else _); [| discriminate].
    intros H; injection H as <-. improves_steps.
Qed.

Lemma checkComponents_improvements components : forall index feedback feedback',
  checkComponents components index feedback = Ok feedback' ->
  exists new,
    improvements feedback' = (improvements feedback ++ new)%list
    /\ Forall (fun i => (componentIndex i < index + List.length components)%nat) new.
Proof.
  induction components as [| c r IH]; intros index feedback feedback'; cbn [checkComponents].
  - intros H; injection H as <-. exists []. split; [symmetry; apply app_nil_r | constructor].
  - destruct (checkComponent c index feedback) as [f1 | e] eqn:E; [| discriminate].
    intros H. destruct (IH _ _ _ H) as (new2 & H2 & F2).
    destruct (checkComponent_improves_at _ _ _ _ E) as (new1 & H1 & F1).
    exists (new1 ++ new2)%list. rewrite H2, H1, app_assoc. split; [reflexivity |].
    apply Forall_app. split.
    + eapply Forall_impl; [exact F1 |]. cbn beta. intros i ->. cbn [List.length]. lia.
    + eapply Forall_impl; [exact F2 |]. cbn beta. intros i Hi. cbn [List.length]. lia.
Qed.

Lemma analyzeDesign_indices uiSpec feedback :
  analyzeDesign uiSpec = Ok feedback ->
  Forall (fun i => (componentIndex i < List.length (ui_components uiSpec))%nat)
         (improvements feedback).
Proof.
  unfold analyzeDesign.
  destruct (checkComponents _ _ _) as [f | e] eqn:E; [| discriminate].
  intros H; injection H as <-. cbn [improvements].
  destruct (checkComponents_improvements _ _ _ _ E) as (new & Hn & Hf).
  cbn [improvements app] in Hn.
  unfold checkConsistency, checkLayout. cbv zeta.
  repeat match goal with
         | |- context [when_ ?c (push_issue ?i) ?f] =>
             change (improvements (when_ c (push_issue i) f)) with
               (improvements (if c then push_issue i f else f));
             replace (improvements (if c then push_issue i f else f)) with (improvements f)
               by (destruct c; reflexivity)
         end.
  destruct (negb _ && (0 <? List.length (ui_components uiSpec))%nat) eqn:Ec; cbn [when_].
  - apply andb_true_iff in Ec as [_ Ec]. apply Nat.ltb_lt in Ec.
    cbn [push_improvement improvements]. apply Forall_app. split.
    + repeat match goal with
         | |- context [when_ ?c (push_issue ?i) ?f] =>
             replace (improvements (when_ c (push_issue i) f)) with (improvements f)
               by (destruct c; reflexivity)
         end.
      rewrite Hn. exact Hf.
    + constructor; [exact Ec | constructor].
  - repeat match goal with
         | |- context [when_ ?c (push_issue ?i) ?f] =>
             replace (improvements (when_ c (push_issue i) f)) with (improvements f)
               by (destruct c; reflexivity)
         end.
    rewrite Hn. exact Hf.
Qed.

End ImprovementIndices.

(** X7.  Every improvement of a feedback the critic computes names a
    component of the reviewed specification: its index is below the number
    of components, so no improvement is skipped for a missing component. *)
Theorem X7_improvements_name_existing_components
  (uiSpec : UISpec) (feedback : DesignFeedback) :
  DesignCriticAgent.analyzeDesign uiSpec = Ok feedback ->
  Forall (fun i => is_Some (ui_components uiSpec !! componentIndex i))
         (improvements feedback).
Proof.
  intros H. eapply Forall_impl; [exact (analyzeDesign_indices _ _ H) |].
  cbn beta. intros i Hi. apply lookup_lt_is_Some. exact Hi.
Qed.

Lemma X7_eleven_buttons_improvements :
  DesignCriticAgent.analyzeDesign eleven_icon_buttons = Ok eleven_feedback
  /\ Forall (fun i => is_Some (ui_components eleven_icon_buttons !! componentIndex i))
            (improvements eleven_feedback).
Proof.
  split; [vm_compute; reflexivity |].
  apply (X7_improvements_name_existing_components eleven_icon_buttons eleven_feedback).
  vm_compute; reflexivity.
Defined.

Section ReviewOutcomes.

Lemma review_cases uiSpec :
  (exists feedback,
      DesignCriticAgent.analyzeDesign uiSpec = Ok feedback
      /\ DesignCriticAgent.review uiSpec
         = mkAgentResponse true
             (Some (DesignCriticAgent.Reviewed feedback
                      (DesignCriticAgent.applyImprovements uiSpec feedback)))
             [] [] (Some accessibility))
  \/ (exists e,
         DesignCriticAgent.analyzeDesign uiSpec = Throw e
         /\ DesignCriticAgent.review uiSpec
            = mkAgentResponse false None
                [mkAgentError "REVIEW_ERROR" (error_text e) sev_error] [] None).
Proof.
  destruct (DesignCriticAgent.analyzeDesign uiSpec) as [feedback | e] eqn:E.
  - left. exists feedback. split; [reflexivity |]. apply review_never_blocks, E.
  - right. exists e. split; [reflexivity |]. unfold DesignCriticAgent.review. rewrite E.
    reflexivity.
Qed.

End ReviewOutcomes.

(** X8.  The critic never blocks: for every specification [review] either
    succeeds, with the feedback and the specification after all
    improvements as data and the validator as next agent, or, when a check
    has thrown, fails with the single error REVIEW_ERROR and no data.  The
    DESIGN_ISSUES answer is given for no specification. *)
Theorem X8_review_succeeds_or_reports_a_thrown_check (uiSpec : UISpec) :
  (exists feedback,
      DesignCriticAgent.analyzeDesign uiSpec = Ok feedback
      /\ DesignCriticAgent.review uiSpec
         = mkAgentResponse true
             (Some (DesignCriticAgent.Reviewed feedback
                      (DesignCriticAgent.applyImprovements uiSpec feedback)))
             [] [] (Some accessibility))
  \/ (exists e,
         DesignCriticAgent.analyzeDesign uiSpec = Throw e
         /\ DesignCriticAgent.review uiSpec
            = mkAgentResponse false None
                [mkAgentError "REVIEW_ERROR" (error_text e) sev_error] [] None).
Proof. apply review_cases. Qed.

Section ViolationIndices.

Import AccessibilityAgent.

Lemma reports_at_refl index report : reports_at index report report.
Proof. exists []. split; [symmetry; apply app_nil_r | constructor]. Qed.

Lemma reports_at_trans index r1 r2 r3 :
  reports_at index r1 r2 -> reports_at index r2 r3 -> reports_at index r1 r3.
Proof.
  intros (n1 & H1 & F1) (n2 & H2 & F2). exists (n1 ++ n2)%list.
  rewrite H2, H1, app_assoc. split; [reflexivity |]. apply Forall_app. auto.
Qed.

Lemma reports_at_violation index report v :
  violation_at index v -> reports_at index report (push_violation v report).
Proof. intros H. exists [v]. split; [reflexivity |]. constructor; [exact H | constructor]. Qed.

Lemma reports_at_warning index report w : reports_at index report (push_warning w report).
Proof. exists []. split; [symmetry; apply app_nil_r | constructor]. Qed.

Lemma reports_at_when_violation index report report' cond v :
  violation_at index v ->
  reports_at index report report' ->
  reports_at index report (when_ cond (push_violation v) report').
Proof.
  intros Hv H. destruct cond; cbn [when_]; [| exact H].
  eapply reports_at_trans; [exact H | apply reports_at_violation, Hv].
Qed.

Lemma reports_at_when_warning index report report' cond w :
  reports_at index report report' ->
  reports_at index report (when_ cond (push_warning w) report').
Proof.
  intros H. destruct cond; cbn [when_]; [| exact H].
  eapply reports_at_trans; [exact H | apply reports_at_warning].
Qed.

Ltac reports_steps :=
  repeat first [ apply reports_at_refl
               | apply reports_at_when_warning
               | apply reports_at_when_violation; [split; reflexivity |] ].

Lemma forEach_reports_at {A : Type} (f : A -> nat -> AccessibilityReport -> outcome AccessibilityReport)
  index (l : list A) :
  (forall x i r r', f x i r = Ok r' -> reports_at index r r') ->
  forall i r r', forEach f l i r = Ok r' -> reports_at index r r'.
Proof.
  intros Hf. induction l as [| x rest IH]; intros i r r'; cbn [forEach].
  - intros H; injection H as <-. apply reports_at_refl.
  - destruct (f x i r) as [r1 | e] eqn:E; [| discriminate].
    intros H. eapply reports_at_trans; [exact (Hf _ _ _ _ E) | exact (IH _ _ _ H)].
Qed.

Lemma checkField_reports_at index field fieldIndex r r' :
  checkField index field fieldIndex r = Ok r' -> reports_at index r r'.
Proof.
  unfold checkField.
  destruct (Js.member_of field "label") as [label | e]; [| discriminate].
  cbv zeta.
  destruct (negb (Js.truthy label) && _).
  - destruct (Js.string_of (Js.member field "name")) as [n | e]; [| discriminate].
    destruct (Js.truthy (Js.member field "required")).
    + destruct (match label with None | Some JNull => _ | Some _ => _ end) as [starred | e];
        [| discriminate].
      destruct (negb starred); intros H; injection H as <-.
      * eapply reports_at_trans; [| apply reports_at_warning].
        apply reports_at_violation; split; reflexivity.
      * apply reports_at_violation; split; reflexivity.
    + intros H; injection H as <-. apply reports_at_violation; split; reflexivity.
  - destruct (Js.truthy (Js.member field "required")).
    + destruct (match label with None | Some JNull => _ | Some _ => _ end) as [starred | e];
        [| discriminate].
      destruct (negb starred).
      * destruct (Js.string_of (Js.member field "name")) as [n | e]; [| discriminate].
        intros H; injection H as <-. apply reports_at_warning.
      * intros H; injection H as <-. apply reports_at_refl.
    + intros H; injection H as <-. apply reports_at_refl.
Qed.

Lemma checkTestimonial_reports_at index t tIndex r r' :
  checkTestimonial t tIndex r = Ok r' -> reports_at index r r'.
Proof.
  unfold checkTestimonial. destruct (Js.member_of t "authorAvatarUrl"); [| discriminate].
  intros H; injection H as <-. reports_steps.
Qed.

Lemma checkNavItem_reports_at index item itemIndex r r' :
  checkNavItem index item itemIndex r = Ok r' -> reports_at index r r'.
Proof.
  unfold checkNavItem. destruct (Js.member_of item "icon"); [| discriminate].
  intros H; injection H as <-. reports_steps.
Qed.

Lemma checkComponentAccessibility_reports_at c index r r' :
  checkComponentAccessibility c index r = Ok r' -> reports_at index r r'.
Proof.
  unfold checkComponentAccessibility. cbv zeta.
  repeat match goal with
         | |- context [if String.eqb ?a ?b then _ else _] => destruct (String.eqb a b)
         end;
    try (intros H; injection H as <-;
         unfold checkButton, checkModal, checkCard, checkChart; cbv zeta; reports_steps).
  - unfold checkForm. cbv zeta.
    destruct (Js.or_else _ _) as [f |]; [| intros H; injection H as <-; apply reports_at_refl].
    destruct (Js.truthy (Some f)); [| intros H; injection H as <-; apply reports_at_refl].
    destruct (if match optional_member _ _ with Some (JArr _) => true | _ => false end
              then _ else _) as [flat | e]; [| discriminate].
    apply forEach_reports_at. apply checkField_reports_at.
  - unfold checkTestimonialSection. cbv zeta.
    destruct (Js.truthy _); [| intros H; injection H as <-; apply reports_at_refl].
    destruct (Js.get (comp_props c) "testimonials") as [[| | | | l |] |]; try discriminate.
    apply forEach_reports_at. intros x i. apply checkTestimonial_reports_at.
  - unfold checkDashboardLayout. cbv zeta.
    destruct (Js.truthy _); [| intros H; injection H as <-; apply reports_at_refl].
    destruct (Js.truthy _); [| intros H; injection H as <-; apply reports_at_refl].
    destruct (match Js.get (comp_props c) "sidebar" with Some s => _ | None => _ end)
      as [[| | | | l |] |]; try discriminate.
    apply forEach_reports_at. apply checkNavItem_reports_at.
Qed.

Lemma forEach_points_below components : forall index r r',
  forEach checkComponentAccessibility components index r = Ok r' ->
  exists new,
    violations r' = (violations r ++ new)%list
    /\ Forall (fun v => points_below (index + List.length components) v
                        /\ rule_impact (rule v) = Some (impact v)) new.
Proof.
  induction components as [| c rest IH]; intros index r r'; cbn [forEach].
  - intros H; injection H as <-. exists []. split; [symmetry; apply app_nil_r | constructor].
  - destruct (checkComponentAccessibility c index r) as [r1 | e] eqn:E; [| discriminate].
    intros H. destruct (IH _ _ _ H) as (new2 & H2 & F2).
    destruct (checkComponentAccessibility_reports_at _ _ _ _ E) as (new1 & H1 & F1).
    exists (new1 ++ new2)%list. rewrite H2, H1, app_assoc. split; [reflexivity |].
    apply Forall_app. split.
    + eapply Forall_impl; [exact F1 |]. cbn beta. intros v [Hv Hr].
      split; [| exact Hr]. exists index. split; [exact Hv | cbn [List.length]; lia].
    + eapply Forall_impl; [exact F2 |]. cbn beta. intros v [(i & Hv & Hi) Hr].
      split; [| exact Hr]. exists i. split; [exact Hv | cbn [List.length]; lia].
Qed.

Lemma checkPageStructure_violations uiSpec r :
  violations (checkPageStructure uiSpec r) = violations r.
Proof.
  unfold checkPageStructure. cbv zeta.
  repeat match goal with
         | |- context [when_ ?c (push_warning ?w) ?f] => destruct c; cbn [when_ push_warning violations]
         end; reflexivity.
Qed.

Lemma runAccessibilityChecks_points_below uiSpec report :
  runAccessibilityChecks uiSpec = Ok report ->
  Forall (fun v => points_below (List.length (ui_components uiSpec)) v
                   /\ rule_impact (rule v) = Some (impact v)) (violations report).
Proof.
  unfold runAccessibilityChecks.
  destruct (forEach _ _ _ _) as [r | e] eqn:E; [| discriminate].
  intros H; injection H as <-. cbn [violations].
  rewrite checkPageStructure_violations.
  destruct (forEach_points_below _ _ _ _ E) as (new & Hn & Hf).
  rewrite Hn. exact Hf.
Qed.

End ViolationIndices.

(** X9.  Every violation of a report the validator computes carries the
    index of a component of the checked specification, so each of them is
    looked at by the automatic fixes. *)
Theorem X9_violations_name_existing_components
  (uiSpec : UISpec) (report : AccessibilityReport) :
  AccessibilityAgent.runAccessibilityChecks uiSpec = Ok report ->
  Forall (fun v => exists i, violation_index v = Some i
                             /\ is_Some (ui_components uiSpec !! i))
         (violations report).
Proof.
  intros H. eapply Forall_impl; [exact (runAccessibilityChecks_points_below _ _ H) |].
  cbn beta. intros v [(i & Hv & Hi) _]. exists i. split; [exact Hv |].
  apply lookup_lt_is_Some. exact Hi.
Qed.

Lemma X9_unlabeled_violations :
  AccessibilityAgent.runAccessibilityChecks unlabeled_ui = Ok unlabeled_report
  /\ Forall (fun v => exists i, violation_index v = Some i
                                /\ is_Some (ui_components unlabeled_ui !! i))
            (violations unlabeled_report).
Proof.
  split; [vm_compute; reflexivity |].
  apply (X9_violations_name_existing_components unlabeled_ui unlabeled_report).
  vm_compute; reflexivity.
Defined.

Section ReportScore.

Import AccessibilityAgent.

Lemma fold_two_impacts (l : list Violation) (a : Z) :
  Forall (fun v => rule_impact (rule v) = Some (impact v)) l ->
  fold_left (fun score violation => score - impact_penalty (impact violation)) l a
  = a - 25 * Z.of_nat (List.length (List.filter is_critical l))
    - 15 * Z.of_nat (List.length l - List.length (List.filter is_critical l)).
Proof.
  intros H. revert a. induction H as [| v r Hv _ IH]; intros a.
  - cbn [fold_left List.filter List.length]. lia.
  - cbn [fold_left List.filter]. rewrite IH.
    pose proof (filter_length_le is_critical r) as Hle.
    assert (Hi : impact v = critical \/ impact v = serious).
    { unfold rule_impact in Hv.
      destruct (String.eqb (rule v) "button-name" || String.eqb (rule v) "form-field-label");
        [left; congruence |].
      destruct (existsb (String.eqb (rule v)) _); [right; congruence | discriminate]. }
    assert (Hc : is_critical v = match impact v with critical => true | _ => false end)
      by reflexivity.
    destruct Hi as [Hi | Hi]; rewrite Hi in Hc |- *; rewrite Hc;
      cbn [impact_penalty List.length]; lia.
Qed.

End ReportScore.

(** X10.  In every report the validator computes, each violation has the
    impact of its rule: critical for button-name and form-field-label,
    serious for modal-name, modal-escape, image-alt, chart-label and
    nav-item-label; no violation is moderate or minor.  The score of the
    report is therefore 100 minus 25 per critical violation, 15 per other
    violation and 2 per warning, floored at 0. *)
Theorem X10_report_impacts_and_score (uiSpec : UISpec) (report : AccessibilityReport) :
  AccessibilityAgent.runAccessibilityChecks uiSpec = Ok report ->
  Forall (fun v => rule_impact (rule v) = Some (impact v)) (violations report)
  /\ a11y_score report
     = Z.max 0
         (100
          - 25 * Z.of_nat (List.length (AccessibilityAgent.criticalViolations report))
          - 15 * Z.of_nat (List.length (violations report)
                           - List.length (AccessibilityAgent.criticalViolations report))
          - 2 * Z.of_nat (List.length (warnings report))).
Proof.
  intros H.
  assert (Hr : Forall (fun v => rule_impact (rule v) = Some (impact v)) (violations report)).
  { eapply Forall_impl; [exact (runAccessibilityChecks_points_below _ _ H) |].
    cbn beta. intros v [_ Hv]. exact Hv. }
  split; [exact Hr |].
  rewrite (runAccessibilityChecks_score _ _ H).
  unfold AccessibilityAgent.calculateA11yScore, AccessibilityAgent.criticalViolations.
  rewrite fold_warnings, (fold_two_impacts _ _ Hr). reflexivity.
Qed.

Lemma X10_unlabeled_report :
  AccessibilityAgent.runAccessibilityChecks unlabeled_ui = Ok unlabeled_report
  /\ Forall (fun v => rule_impact (rule v) = Some (impact v)) (violations unlabeled_report)
  /\ a11y_score unlabeled_report
     = Z.max 0
         (100
          - 25 * Z.of_nat (List.length (AccessibilityAgent.criticalViolations unlabeled_report))
          - 15 * Z.of_nat (List.length (violations unlabeled_report)
                           - List.length
                               (AccessibilityAgent.criticalViolations unlabeled_report))
          - 2 * Z.of_nat (List.length (warnings unlabeled_report))).
Proof.
  split; [vm_compute; reflexivity |].
  apply (X10_report_impacts_and_score unlabeled_ui unlabeled_report).
  vm_compute; reflexivity.
Defined.

Section ValidationErrors.

Import AccessibilityAgent.

Lemma critical_rule v :
  rule_impact (rule v) = Some (impact v) -> is_critical v = true ->
  rule v = "button-name" \/ rule v = "form-field-label".
Proof.
  unfold rule_impact, is_critical. intros Hv Hc.
  destruct (String.eqb (rule v) "button-name") eqn:E1;
    [left; apply String.eqb_eq, E1 |].
  destruct (String.eqb (rule v) "form-field-label") eqn:E2;
    [right; apply String.eqb_eq, E2 |].
  cbn [orb] in Hv. destruct (existsb _ _); [| discriminate].
  injection Hv as Hv. rewrite <- Hv in Hc. discriminate.
Qed.

Lemma a11y_error_codes vs :
  Forall (fun v => rule_impact (rule v) = Some (impact v)) vs ->
  Forall (fun e => code e ∈ validation_codes)
         (map a11y_error (List.filter is_critical vs)).
Proof.
  induction 1 as [| v r Hv _ IH]; [constructor |].
  cbn [List.filter]. destruct (is_critical v) eqn:Hc; [| exact IH].
  cbn [map]. constructor; [| exact IH].
  unfold a11y_error, validation_codes. cbn [code].
  destruct (critical_rule v Hv Hc) as [-> | ->].
  - rewrite !elem_of_cons. auto.
  - rewrite !elem_of_cons. auto.
Qed.

End ValidationErrors.

(** X11.  The validation stage fails for three reasons only: every error of
    its answer has the code VALIDATION_ERROR (a check or a fix has thrown),
    A11Y_BUTTON-NAME or A11Y_FORM-FIELD-LABEL; and the answer is a failure
    exactly when it holds an error. *)
Theorem X11_validation_error_codes (uiSpec : UISpec) :
  Forall (fun e => code e ∈ validation_codes) (errors (AccessibilityAgent.validate uiSpec))
  /\ (success (AccessibilityAgent.validate uiSpec) = false
      <-> errors (AccessibilityAgent.validate uiSpec) <> []).
Proof.
  unfold AccessibilityAgent.validate.
  destruct (AccessibilityAgent.runAccessibilityChecks uiSpec) as [r | e] eqn:Hr.
  - destruct (AccessibilityAgent.applyAccessibilityFixes uiSpec r) as [f | e].
    + destruct (0 <? _)%nat eqn:Hc; cbn [errors success].
      * split.
        -- apply (a11y_error_codes (violations r)).
           eapply Forall_impl; [exact (runAccessibilityChecks_points_below _ _ Hr) |].
           cbn beta. intros v [_ Hv]. exact Hv.
        -- apply Nat.ltb_lt in Hc. split; [| reflexivity]. intros _ Hn.
           apply (f_equal (@List.length _)) in Hn. rewrite length_map in Hn.
           cbn [List.length] in Hn. lia.
      * split; [constructor |]. split; [discriminate | intros H; now contradiction H].
    + cbn [fail errors success]. split.
      * constructor; [unfold validation_codes; rewrite !elem_of_cons; auto | constructor].
      * split; [discriminate | reflexivity].
  - cbn [fail errors success]. split.
    + constructor; [unfold validation_codes; rewrite !elem_of_cons; auto | constructor].
    + split; [discriminate | reflexivity].
Qed.

Section Fixes.

Import AccessibilityAgent.

Lemma fixProps_keeps v props props' :
  fixProps v props = Ok props' ->
  forall k, is_Some (Js.get props k) -> is_Some (Js.get props' k).
Proof.
  unfold fixProps. intros H k Hk.
  assert (H1 : exists p1, (forall k, is_Some (Js.get props k) -> is_Some (Js.get p1 k))
                     /\ (if String.eqb (rule v) "button-name" && Js.truthy (Js.get props "iconOnly")
                         then match Js.string_of (Js.or_else (Js.get props "icon")
                                                             (Some (JStr "Action"))) with
                              | Ok s => Ok (Js.set props "ariaLabel" (JStr (s ++ " button")))
                              | Throw e => Throw e
                              end
                         else Ok props) = Ok p1).
  { destruct (String.eqb (rule v) "button-name" && _).
    - destruct (Js.string_of _); [| discriminate].
      eexists. split; [| reflexivity]. intros k0. apply get_set_keeps.
    - eexists. split; [| reflexivity]. auto. }
  destruct H1 as (p1 & K1 & E1). rewrite E1 in H.
  set (p2 := if String.eqb (rule v) "modal-name" && negb (Js.truthy (Js.get p1 "title"))
             then Js.set p1 "aria-label" (JStr "Dialog") else p1) in H.
  assert (K2 : forall k, is_Some (Js.get p1 k) -> is_Some (Js.get p2 k)).
  { subst p2. destruct (String.eqb (rule v) "modal-name" && _); [| auto].
    intros k0. apply get_set_keeps. }
  destruct (String.eqb (rule v) "image-alt" && Js.truthy (Js.get p2 "imageUrl")).
  - destruct (Js.string_of (Js.or_else (Js.get p2 "title") _)); [| discriminate].
    destruct (String.eqb (rule v) "chart-label").
    + destruct (Js.string_of _); [| discriminate]. injection H as <-.
      do 2 apply get_set_keeps. auto.
    + injection H as <-. apply get_set_keeps. auto.
  - destruct (String.eqb (rule v) "chart-label").
    + destruct (Js.string_of _); [| discriminate]. injection H as <-.
      apply get_set_keeps. auto.
    + injection H as <-. auto.
Qed.

Lemma applyFix_outline fixed v fixed' :
  applyFix fixed v = Ok fixed' -> same_outline fixed fixed'.
Proof.
  unfold applyFix. destruct (violation_index v) as [i |].
  - destruct (ui_components fixed !! i) as [c |] eqn:E.
    + destruct (fixProps v (comp_props c)) as [props |] eqn:Ef; [| discriminate].
      intros H. injection H as <-. apply same_outline_patch; [exact E |].
      exact (fixProps_keeps _ _ _ Ef).
    + intros H. injection H as <-. apply same_outline_refl.
  - intros H. injection H as <-. apply same_outline_refl.
Qed.

Lemma applyAccessibilityFixes_outline uiSpec report fixed :
  applyAccessibilityFixes uiSpec report = Ok fixed -> same_outline uiSpec fixed.
Proof.
  unfold applyAccessibilityFixes. generalize (violations report) as vs.
  intros vs. revert uiSpec. induction vs as [| v r IH]; intros uiSpec; cbn [applyFixes].
  - intros H. injection H as <-. apply same_outline_refl.
  - destruct (applyFix uiSpec v) as [u | e] eqn:E; [| discriminate].
    intros H. eapply same_outline_trans; [exact (applyFix_outline _ _ _ E) | exact (IH _ H)].
Qed.

End Fixes.

(** X12.  The automatic accessibility fixes change nothing but component
    props: whenever the validation stage returns data, the fixed
    specification has the identifier, name, description, layout and
    metadata of the validated one and the same components by count, name,
    children and metadata, and no prop key is lost. *)
Theorem X12_fixes_change_props_only
  (uiSpec : UISpec) (d : AccessibilityAgent.ValidationData) :
  data (AccessibilityAgent.validate uiSpec) = Some d ->
  same_outline uiSpec (AccessibilityAgent.fixedUI d)
  /\ List.length (ui_components (AccessibilityAgent.fixedUI d))
     = List.length (ui_components uiSpec)
  /\ map comp_name (ui_components (AccessibilityAgent.fixedUI d))
     = map comp_name (ui_components uiSpec).
Proof.
  intros H. destruct (validate_data _ _ H) as (_ & Hf & _).
  pose proof (applyAccessibilityFixes_outline _ _ _ Hf) as Ho.
  split; [exact Ho | exact (same_outline_names _ _ Ho)].
Qed.

Lemma X12_untitled_modal :
  data (AccessibilityAgent.validate untitled_modal_ui) = Some untitled_modal_data
  /\ same_outline untitled_modal_ui (AccessibilityAgent.fixedUI untitled_modal_data)
  /\ List.length (ui_components (AccessibilityAgent.fixedUI untitled_modal_data))
     = List.length (ui_components untitled_modal_ui)
  /\ map comp_name (ui_components (AccessibilityAgent.fixedUI untitled_modal_data))
     = map comp_name (ui_components untitled_modal_ui).
Proof.
  split; [vm_compute; reflexivity |].
  apply (X12_fixes_change_props_only untitled_modal_ui untitled_modal_data).
  vm_compute; reflexivity.
Defined.

Section FixedProps.

Import AccessibilityAgent.

Lemma truthy_suffix s t : t <> EmptyString -> Js.truthy (Some (JStr (s ++ t))) = true.
Proof.
  intros Ht. cbn [Js.truthy]. apply negb_true_iff, String.eqb_neq.
  destruct s; [exact Ht | discriminate].
Qed.

Lemma of_rule_when_violation r cond v report :
  rule v <> r ->
  of_rule r (violations (when_ cond (push_violation v) report)) = of_rule r (violations report).
Proof.
  intros Hr. destruct cond; [| reflexivity]. cbn [when_ push_violation violations].
  unfold of_rule. rewrite List.filter_app. cbn [List.filter].
  apply String.eqb_neq in Hr. rewrite Hr. apply app_nil_r.
Qed.

Lemma fixed_button v props props' index report :
  rule v = "button-name" -> Js.truthy (Js.get props "iconOnly") = true ->
  fixProps v props = Ok props' ->
  checkButton props' index report = report.
Proof.
  intros Hv Hi. unfold fixProps. rewrite Hv, Hi. cbn [String.eqb Ascii.eqb Bool.eqb andb].
  destruct (Js.string_of _) as [s |]; [| discriminate].
  intros H. injection H as <-. unfold checkButton. cbv zeta.
  rewrite get_set_same, (get_set_other _ "ariaLabel" _ "iconOnly") by discriminate.
  rewrite Hi, truthy_suffix by discriminate. reflexivity.
Qed.

Lemma fixed_modal v props props' :
  rule v = "modal-name" -> fixProps v props = Ok props' ->
  negb (Js.truthy (Js.get props' "title")) && negb (Js.truthy (Js.get props' "aria-label"))
  && negb (Js.truthy (Js.get props' "ariaLabel")) = false.
Proof.
  intros Hv. unfold fixProps. rewrite Hv. cbn [String.eqb Ascii.eqb Bool.eqb andb].
  destruct (Js.truthy (Js.get props "title")) eqn:Et; cbn [negb];
    intros H; injection H as <-.
  - rewrite Et. reflexivity.
  - rewrite get_set_same. cbn [Js.truthy String.eqb negb]. apply andb_false_iff. left.
    apply andb_false_r.
Qed.

Lemma fixed_chart v props props' :
  rule v = "chart-label" -> fixProps v props = Ok props' ->
  negb (Js.truthy (Js.get props' "title")) && negb (Js.truthy (Js.get props' "aria-label"))
  = false.
Proof.
  intros Hv. unfold fixProps. rewrite Hv. cbn [String.eqb Ascii.eqb Bool.eqb andb].
  destruct (Js.string_of _) as [s |]; [| discriminate].
  intros H. injection H as <-. rewrite get_set_same.
  change (JStr ("Chart: " ++ s)) with (JStr (String "C" ("hart: " ++ s))).
  cbn [Js.truthy String.eqb negb]. apply andb_false_r.
Qed.

End FixedProps.

(** X13.  What an automatic fix achieves.  When the fix of a violation of
    an icon-only button (button-name), of a modal (modal-name) or of a chart
    (chart-label) returns, the check of the component with the fixed props
    returns too and reports no violation of that rule. *)
Theorem X13_fixed_component_passes_its_rule
  (c : ComponentSpec) (v : Violation) (props' : Props) (index : nat)
  (report : AccessibilityReport) :
  fixable c v = true ->
  AccessibilityAgent.fixProps v (comp_props c) = Ok props' ->
  exists report',
    AccessibilityAgent.checkComponentAccessibility (set_props c props') index report
      = Ok report'
    /\ of_rule (rule v) (violations report') = of_rule (rule v) (violations report).
Proof.
  unfold fixable. intros Hf Hp.
  unfold AccessibilityAgent.checkComponentAccessibility. cbn [comp_name comp_props set_props].
  cbv zeta.
  apply orb_true_iff in Hf as [Hf | Hf]; [apply orb_true_iff in Hf as [Hf | Hf] |].
  - apply andb_true_iff in Hf as [Hf Hi]. apply andb_true_iff in Hf as [Hn Hr].
    apply String.eqb_eq in Hn, Hr. rewrite Hn. cbn [String.eqb Ascii.eqb Bool.eqb].
    eexists. split; [reflexivity |].
    rewrite (fixed_button v (comp_props c) props' index report Hr Hi Hp). reflexivity.
  - apply andb_true_iff in Hf as [Hn Hr]. apply String.eqb_eq in Hn, Hr. rewrite Hn.
    cbn [String.eqb Ascii.eqb Bool.eqb]. eexists. split; [reflexivity |].
    unfold AccessibilityAgent.checkModal. cbv zeta.
    rewrite (fixed_modal v (comp_props c) props' Hr Hp). cbn [AccessibilityAgent.when_].
    rewrite Hr. apply of_rule_when_violation. discriminate.
  - apply andb_true_iff in Hf as [Hn Hr]. apply String.eqb_eq in Hn, Hr. rewrite Hn.
    cbn [String.eqb Ascii.eqb Bool.eqb]. eexists. split; [reflexivity |].
    unfold AccessibilityAgent.checkChart.
    rewrite (fixed_chart v (comp_props c) props' Hr Hp). reflexivity.
Qed.

Lemma X13_icon_button_fixed :
  fixable icon_button icon_button_violation = true
  /\ AccessibilityAgent.fixProps icon_button_violation (comp_props icon_button)
     = Ok [ flag "iconOnly" true; str "icon" "search"; str "ariaLabel" "search button" ]
  /\ exists report',
       AccessibilityAgent.checkComponentAccessibility
         (set_props icon_button
            [ flag "iconOnly" true; str "icon" "search"; str "ariaLabel" "search button" ])
         0 (mkAccessibilityReport true 100 [] []) = Ok report'
       /\ of_rule (rule icon_button_violation) (violations report')
          = of_rule (rule icon_button_violation)
              (violations (mkAccessibilityReport true 100 [] [])).
Proof.
  split; [reflexivity |]. split; [reflexivity |].
  apply (X13_fixed_component_passes_its_rule icon_button icon_button_violation); reflexivity.
Defined.
(** * The created specifications through critique and validation *)

Section Created.

Import UIArchitectAgent.

Lemma sublist_Forall {A : Type} (P : A -> Prop) (l k : list A) :
  Forall P k -> sublist l k -> Forall P l.
Proof.
  intros Hk Hs. induction Hs as [| x l k _ IH | x l k _ IH].
  - constructor.
  - inversion Hk; subst. constructor; auto.
  - inversion Hk; subst. auto.
Qed.

Lemma createNewUI_created description w :
  createNewUI description w = (Ok (created description w), tick w).
Proof. reflexivity. Qed.

Lemma selectComponents_templates keywords description :
  sublist (selectComponents keywords description) (templates description).
Proof.
  unfold selectComponents, push_if; cbv zeta;
  destruct (has keywords "pricing"), (has keywords "dashboard"), (has keywords "chart"),
    (has keywords "form"), (has keywords "modal"), (has keywords "testimonial"),
    (has keywords "card" || Str.includes (Str.toLowerCase description) "hero"
     || Str.includes (Str.toLowerCase description) "feature"),
    (Str.includes (Str.toLowerCase description) "landing"
     || Str.includes (Str.toLowerCase description) "hero"
     || Str.includes (Str.toLowerCase description) "cta");
  cbn [app List.length Nat.ltb Nat.leb Nat.eqb andb]; unfold templates;
    repeat first [apply sublist_nil_l | apply sublist_skip | apply sublist_cons].
Qed.

Lemma createButtonSpec_text description :
  exists text, text <> EmptyString
    /\ createButtonSpec description
       = mkComponentSpec "Button"
           [ str "text" text; str "variant" "solid"; str "color" "primary"; str "size" "lg" ]
           None (Some (mkComponentMeta (Some "Primary call-to-action button") None)).
Proof.
  unfold createButtonSpec. cbv zeta.
  repeat match goal with
         | |- context [if Str.includes ?a ?b then _ else _] => destruct (Str.includes a b)
         end; eexists; (split; [| reflexivity]); discriminate.
Qed.

Lemma createCardSpec_variant description :
  exists variant, variant <> EmptyString
    /\ createCardSpec description
       = mkComponentSpec "Card"
           [ str "variant" variant; str "title" "Welcome";
             str "content" "Your content goes here. Describe your product or service.";
             flag "hoverable" true; str "size" "lg" ]
           None
           (Some (mkComponentMeta (Some "Content container for hero or feature section") None)).
Proof.
  unfold createCardSpec. cbv zeta.
  destruct (Str.includes _ "modern" || _); [| destruct (Str.includes _ "gradient")];
    eexists; (split; [| reflexivity]); discriminate.
Qed.

End Created.

Section Quiet.

Import AccessibilityAgent.

Lemma templates_quiet description : Forall quiet (templates description).
Proof.
  unfold templates.
  destruct (createButtonSpec_text description) as (text & Ht & ->).
  destruct (createCardSpec_variant description) as (variant & Hv & ->).
  apply String.eqb_neq in Ht.
  repeat constructor; intros index report; eexists.
  all: try (split; [lazy; reflexivity | lazy; reflexivity]).
  - unfold checkComponentAccessibility. cbn [comp_name comp_props String.eqb Ascii.eqb Bool.eqb].
    cbv zeta. unfold checkButton. cbv zeta.
    cbn [Js.get str String.eqb Ascii.eqb Bool.eqb Js.truthy negb andb].
    rewrite Ht. cbn [negb andb when_]. split; reflexivity.
Qed.

End Quiet.

Section Resize.

Import AccessibilityAgent.

(** No check of the validator reads the prop [size]. *)
Lemma checkComponentAccessibility_ignores_size c v index report :
  checkComponentAccessibility (set_props c (Js.set (comp_props c) "size" v)) index report
  = checkComponentAccessibility c index report.
Proof.
  unfold checkComponentAccessibility, checkButton, checkForm, checkModal, checkCard, checkChart,
    checkTestimonialSection, checkDashboardLayout.
  cbn [comp_name comp_props set_props]. cbv zeta.
  rewrite !(get_set_other (comp_props c) "size" v) by discriminate. reflexivity.
Qed.

Lemma quiet_resized c v : quiet c -> quiet (set_props c (Js.set (comp_props c) "size" v)).
Proof.
  intros H index report. rewrite checkComponentAccessibility_ignores_size. apply H.
Qed.

Lemma applyImprovement_quiet improved i :
  resizes_only i -> Forall quiet (ui_components improved) ->
  Forall quiet (ui_components (DesignCriticAgent.applyImprovement improved i)).
Proof.
  intros Hi Hq. unfold DesignCriticAgent.applyImprovement.
  destruct Hi as [-> | [v ->]]; [exact Hq |].
  destruct (ui_components improved !! componentIndex i) as [c |] eqn:E; [| exact Hq].
  cbn [set_components ui_components]. apply Forall_insert; [exact Hq |].
  apply (quiet_resized c v). rewrite Forall_lookup in Hq. exact (Hq _ _ E).
Qed.

Lemma applyImprovements_quiet uiSpec feedback :
  Forall resizes_only (improvements feedback) -> Forall quiet (ui_components uiSpec) ->
  Forall quiet (ui_components (DesignCriticAgent.applyImprovements uiSpec feedback)).
Proof.
  unfold DesignCriticAgent.applyImprovements. generalize (improvements feedback) as l.
  intros l. revert uiSpec. induction l as [| i r IH]; intros uiSpec Hl Hq; [exact Hq |].
  cbn [fold_left]. inversion Hl; subst. apply IH; [assumption |].
  apply applyImprovement_quiet; assumption.
Qed.

Lemma forEach_quiet components : forall index report,
  Forall quiet components ->
  exists report',
    forEach checkComponentAccessibility components index report = Ok report'
    /\ violations report' = violations report.
Proof.
  induction components as [| c r IH]; intros index report Hq; cbn [forEach].
  - eexists. split; reflexivity.
  - inversion Hq as [| ? ? Hc Hr]; subst.
    destruct (Hc index report) as (r1 & E1 & V1). rewrite E1.
    destruct (IH (S index) r1 Hr) as (r2 & E2 & V2). exists r2. split; [exact E2 | congruence].
Qed.

(** A specification of quiet components passes validation without a
    violation, and the fixes leave it as it is. *)
Lemma validate_quiet uiSpec :
  Forall quiet (ui_components uiSpec) ->
  exists report,
    validate uiSpec
    = mkAgentResponse true (Some (mkValidationData report uiSpec)) [] [] (Some export_engineer)
    /\ violations report = [] /\ passed report = true.
Proof.
  intros Hq. unfold validate, runAccessibilityChecks. cbv zeta.
  destruct (forEach_quiet (ui_components uiSpec) 0%nat (mkAccessibilityReport true 100 [] []) Hq)
    as (r & E & V).
  rewrite E. cbn [violations] in V.
  unfold applyAccessibilityFixes, criticalViolations. cbn [violations].
  rewrite checkPageStructure_violations, V. cbn [applyFixes List.filter List.length Nat.ltb Nat.leb Nat.eqb].
  eexists. split; [reflexivity |]. split; reflexivity.
Qed.

End Resize.

Section ReviewOfTemplates.

Import DesignCriticAgent.

Lemma resizes_only_when_issue cond i feedback :
  Forall resizes_only (improvements feedback) ->
  Forall resizes_only (improvements (when_ cond (push_issue i) feedback)).
Proof. destruct cond; auto. Qed.

Lemma resizes_only_when_improvement cond i feedback :
  resizes_only i ->
  Forall resizes_only (improvements feedback) ->
  Forall resizes_only (improvements (when_ cond (push_improvement i) feedback)).
Proof.
  intros Hi H. destruct cond; [| exact H]. cbn [when_ push_improvement improvements].
  apply Forall_app. split; [exact H | constructor; [exact Hi | constructor]].
Qed.

Lemma templates_reviewed description :
  Forall (fun t => forall index feedback,
            exists feedback',
              checkComponent t index feedback = Ok feedback'
              /\ (Forall resizes_only (improvements feedback) ->
                  Forall resizes_only (improvements feedback')))
         (templates description).
Proof.
  unfold templates.
  destruct (createButtonSpec_text description) as (text & Ht & ->).
  destruct (createCardSpec_variant description) as (variant & Hv & ->).
  apply String.eqb_neq in Hv.
  repeat constructor; intros index feedback; eexists.
  all: try (split; [lazy; reflexivity |]; lazy; intros H; exact H).
  - split; [lazy; reflexivity |]. intros H.
    change (Forall resizes_only
              (improvements
                 (push_improvement
                    (mkImprovement index "Add breadcrumbs for better navigation context" None)
                    feedback))).
    cbn [push_improvement improvements]. apply Forall_app. split; [exact H |].
    constructor; [left; reflexivity | constructor].
  - unfold checkComponent. cbn [comp_name comp_props String.eqb Ascii.eqb Bool.eqb].
    cbv zeta. unfold checkCard. cbv zeta.
    cbn [Js.get str String.eqb Ascii.eqb Bool.eqb Js.truthy negb andb].
    rewrite Hv. cbn [negb andb when_]. split; [reflexivity | auto].
Qed.

Lemma checkComponents_reviewed P components : forall index feedback,
  Forall (fun t => forall index feedback,
            exists feedback',
              checkComponent t index feedback = Ok feedback'
              /\ (P feedback -> P feedback')) components ->
  exists feedback',
    checkComponents components index feedback = Ok feedback' /\ (P feedback -> P feedback').
Proof.
  induction components as [| c r IH]; intros index feedback H; cbn [checkComponents].
  - eexists. split; [reflexivity | auto].
  - inversion H as [| ? ? Hc Hr]; subst.
    destruct (Hc index feedback) as (f1 & E1 & P1). rewrite E1.
    destruct (IH (S index) f1 Hr) as (f2 & E2 & P2). exists f2. split; [exact E2 | auto].
Qed.

Lemma analyzeDesign_of_templates description uiSpec :
  sublist (ui_components uiSpec) (templates description) ->
  exists feedback,
    analyzeDesign uiSpec = Ok feedback /\ Forall resizes_only (improvements feedback).
Proof.
  intros Hs. unfold analyzeDesign. cbv zeta.
  destruct (checkComponents_reviewed (fun f => Forall resizes_only (improvements f))
              (ui_components uiSpec) 0%nat (mkDesignFeedback 100 [] [])) as (f & E & Hf).
  { eapply sublist_Forall; [| exact Hs]. apply templates_reviewed. }
  rewrite E. eexists. split; [reflexivity |]. cbn [improvements].
  unfold checkConsistency, checkLayout. cbv zeta.
  repeat first [ apply resizes_only_when_issue
               | apply resizes_only_when_improvement; [right; eexists; reflexivity |] ].
  apply Hf. constructor.
Qed.

End ReviewOfTemplates.

(** X14.  Whatever the request, the specification the create path builds
    goes through the next two stages: the critic succeeds on it, and the
    specification with the critic's improvements applied passes validation
    with no violation at all, the fixes leaving it as it is. *)
Theorem X14_created_specification_passes_review_and_validation
  (description : string) (w : World) :
  exists uiSpec feedback report,
    returned (UIArchitectAgent.createNewUI description w) = Some uiSpec
    /\ DesignCriticAgent.review uiSpec
       = mkAgentResponse true
           (Some (DesignCriticAgent.Reviewed feedback
                    (DesignCriticAgent.applyImprovements uiSpec feedback)))
           [] [] (Some accessibility)
    /\ AccessibilityAgent.validate (DesignCriticAgent.applyImprovements uiSpec feedback)
       = mkAgentResponse true
           (Some (AccessibilityAgent.mkValidationData report
                    (DesignCriticAgent.applyImprovements uiSpec feedback)))
           [] [] (Some export_engineer)
    /\ violations report = [] /\ passed report = true.
Proof.
  exists (created description w).
  pose proof (selectComponents_templates (UIArchitectAgent.extractKeywords description)
                description) as Hs.
  destruct (analyzeDesign_of_templates description (created description w) Hs)
    as (feedback & Ha & Hi).
  assert (Hq : Forall quiet (ui_components (created description w))).
  { eapply sublist_Forall; [apply templates_quiet | exact Hs]. }
  destruct (validate_quiet _ (applyImprovements_quiet _ _ Hi Hq)) as (report & Hv & Hn & Hp).
  exists feedback, report. split; [reflexivity |].
  split; [exact (review_never_blocks _ _ Ha) |]. auto.
Qed.

(** * Further properties of the orchestrator *)

Section Plan.

Lemma createPlan_chained
  (o : AgentOrchestrator.Orchestrator) (userMessage : string) (w : World) :
  exists plan,
    returned (AgentOrchestrator.createPlan o userMessage w) = Some plan
    /\ map AgentOrchestrator.order (AgentOrchestrator.steps plan)
       = map Z.of_nat (seq 1 (List.length (AgentOrchestrator.steps plan)))
    /\ Forall (fun s => AgentOrchestrator.dependsOn s
                        = if AgentOrchestrator.order s =? 1 then None
                          else Some [AgentOrchestrator.order s - 1])
              (AgentOrchestrator.steps plan)
    /\ AgentOrchestrator.estimatedDuration plan
       = 1000 * Z.of_nat (List.length (AgentOrchestrator.steps plan))
    /\ map AgentOrchestrator.step_action (AgentOrchestrator.steps plan)
       = (if bool_decide (is_Some (AgentOrchestrator.getCurrentUI o))
          then MODIFY_UI else CREATE_UI) :: planned_stages (AgentOrchestrator.options o).
Proof.
  destruct o as [[cid cui hist] [a1 a2 sd sa ex eo] ms].
  unfold AgentOrchestrator.createPlan, AgentOrchestrator.getCurrentUI, planned_stages.
  cbn [AgentOrchestrator.context AgentOrchestrator.options currentUI
       AgentOrchestrator.skipDesignReview AgentOrchestrator.skipAccessibilityCheck
       AgentOrchestrator.exportOnSuccess].
  generalize (bool_decide (is_Some cui)) as modify. intros modify.
  destruct sd, sa, ex; eexists; (split; [reflexivity |]);
    cbn; (repeat split); repeat constructor.
Qed.

End Plan.

(** X15.  [createPlan] numbers its steps 1, 2, ... in order; the first step
    depends on nothing and every other step on the step just before it; the
    estimated duration is 1000 per step; the first action is MODIFY_UI when
    the conversation has a current specification and CREATE_UI otherwise,
    and the others are the stages the options enable. *)
Theorem X15_plan_steps_are_chained
  (o : AgentOrchestrator.Orchestrator) (userMessage : string) (w : World) :
  exists plan,
    returned (AgentOrchestrator.createPlan o userMessage w) = Some plan
    /\ map AgentOrchestrator.order (AgentOrchestrator.steps plan)
       = map Z.of_nat (seq 1 (List.length (AgentOrchestrator.steps plan)))
    /\ Forall (fun s => AgentOrchestrator.dependsOn s
                        = if AgentOrchestrator.order s =? 1 then None
                          else Some [AgentOrchestrator.order s - 1])
              (AgentOrchestrator.steps plan)
    /\ AgentOrchestrator.estimatedDuration plan
       = 1000 * Z.of_nat (List.length (AgentOrchestrator.steps plan))
    /\ map AgentOrchestrator.step_action (AgentOrchestrator.steps plan)
       = (if bool_decide (is_Some (AgentOrchestrator.getCurrentUI o))
          then MODIFY_UI else CREATE_UI) :: planned_stages (AgentOrchestrator.options o).
Proof. apply createPlan_chained. Qed.

Section Runs.

Import AgentOrchestrator.

Variable exportEngineer : UISpec -> option Props -> M (AgentResponse ExportPackage).

Ltac run_P :=
  cbv [finish logMessage call get_self update_self get_result update_result catch
       set_context_ui push_error set_uiSpec set_designFeedback set_accessibilityReport
       set_exportPackage set_success mbind mret P_bind P_ret M_bind M_ret uuidv4 now
       data_feedback data_improvedUI self result context options messages data success
       errors result_conversationId result_success uiSpec designFeedback
       accessibilityReport exportPackage result_errors result_messages
       AccessibilityAgent.report AccessibilityAgent.fixedUI
       conversationId currentUI history negb tick stamp start].

Ltac run_step :=
  cbv delta [designStep accessibilityStep exportStep pure]; run_P.

Lemma validate_cases uiSpec :
  (exists d, data (AccessibilityAgent.validate uiSpec) = Some d
             /\ success (AccessibilityAgent.validate uiSpec)
                = passed (AccessibilityAgent.report d)
             /\ passed (AccessibilityAgent.report d)
                = negb (report_blocks (Some (AccessibilityAgent.report d)))
             /\ (passed (AccessibilityAgent.report d) = false ->
                 exists e rest, errors (AccessibilityAgent.validate uiSpec) = e :: rest
                                /\ String.prefix "A11Y_" (code e) = true
                                /\ code e <> EmptyString))
  \/ (exists text,
         AccessibilityAgent.validate uiSpec
         = mkAgentResponse false None
             [mkAgentError "VALIDATION_ERROR" text sev_error] [] None).
Proof.
  pose proof (validate_contract uiSpec) as Hc.
  unfold AccessibilityAgent.validate in *.
  destruct (AccessibilityAgent.runAccessibilityChecks uiSpec) as [rep | e];
    [| right; eexists; reflexivity].
  destruct (AccessibilityAgent.applyAccessibilityFixes uiSpec rep) as [f | e];
    [| right; eexists; reflexivity].
  left. destruct (0 <? _)%nat eqn:El; cbn [data success] in *.
  - eexists. split; [reflexivity |]. destruct Hc as [Hs Hp]. cbn [AccessibilityAgent.report] in *.
    split; [exact Hs |]. split; [exact Hp |]. intros _. cbn [errors].
    apply Nat.ltb_lt in El.
    destruct (AccessibilityAgent.criticalViolations rep) as [| v r]; [cbn in El; lia |].
    cbn [map]. do 2 eexists. split; [reflexivity |]. cbn [code].
    split; [apply prefix_append | discriminate].
  - eexists. split; [reflexivity |]. destruct Hc as [Hs Hp]. cbn [AccessibilityAgent.report] in *.
    split; [exact Hs |]. split; [exact Hp |]. rewrite <- Hs. discriminate.
Qed.

Lemma designStep_state opts ui r w :
  synced r ui ->
  exists r',
    designStep (pure DesignCriticAgent.review) opts ui r w
      = (Ok (reviewed opts ui), r', tick w)
    /\ logs r r' [stamp w orchestrator design_critic VALIDATE_DESIGN (PayloadUISpec ui)]
    /\ synced r' (reviewed opts ui)
    /\ designFeedback (result r')
       = match data (DesignCriticAgent.review ui) with
         | Some d => data_feedback d
         | None => designFeedback (result r)
         end
    /\ a11y_errors (result r') = a11y_errors (result r)
    /\ accessibilityReport (result r') = accessibilityReport (result r)
    /\ exportPackage (result r') = exportPackage (result r)
    /\ result_success (result r') = result_success (result r).
Proof.
  destruct r as [[[cid0 cui hist] op ms] [cid sc us df ar ep er rm]].
  unfold synced, logs, a11y_errors, reviewed. cbn [self result context currentUI uiSpec].
  intros [-> ->].
  destruct (review_cases ui) as [(fb & _ & E) | (e & _ & E)]; rewrite E;
    destruct (autoApplyDesignImprovements opts) eqn:Ea;
    run_step; rewrite E; run_step; rewrite ?Ea; run_step;
    eexists; (split; [reflexivity |]); run_step; cbn [default];
    repeat split; rewrite ?List.filter_app, ?app_nil_r; reflexivity.
Qed.

Lemma accessibilityStep_state opts ui r w :
  synced r ui ->
  accessibilityReport (result r) = None ->
  exists stop r',
    accessibilityStep (pure AccessibilityAgent.validate) opts ui r w
      = (Ok (validated opts ui, stop), r', tick w)
    /\ logs r r' [stamp w orchestrator accessibility VALIDATE_ACCESSIBILITY (PayloadUISpec ui)]
    /\ synced r' (validated opts ui)
    /\ accessibilityReport (result r')
       = option_map AccessibilityAgent.report (data (AccessibilityAgent.validate ui))
    /\ stop = report_blocks (accessibilityReport (result r'))
    /\ (stop = false -> a11y_errors (result r') = a11y_errors (result r))
    /\ designFeedback (result r') = designFeedback (result r)
    /\ exportPackage (result r') = exportPackage (result r)
    /\ result_success (result r') = result_success (result r).
Proof.
  destruct r as [[[cid0 cui hist] op ms] [cid sc us df ar ep er rm]].
  unfold synced, logs, a11y_errors, validated. cbn [self result context currentUI uiSpec
                                                    accessibilityReport].
  intros [-> ->] ->.
  destruct (validate_cases ui) as [(d & Hd & Hs & Hp & He) | (text & E)].
  - destruct (AccessibilityAgent.validate ui) as [s dd errs sg na] eqn:E.
    cbn [data success errors] in Hd, Hs, He. subst dd s. destruct d as [rep fx].
    cbn [AccessibilityAgent.report report_blocks] in Hp, He, E |- *.
    destruct (passed rep) eqn:Hpass.
    + destruct (autoApplyAccessibilityFixes opts) eqn:Ea;
        run_step; rewrite E; run_step; rewrite ?Ea; run_step;
        do 2 eexists; (split; [reflexivity |]); run_step; cbn [option_map report_blocks];
        repeat split; try reflexivity;
        destruct (existsb _ _); (discriminate Hp || reflexivity).
    + destruct (He eq_refl) as (e0 & rest & -> & Hpre & Hne).
      destruct (autoApplyAccessibilityFixes opts) eqn:Ea;
        run_step; rewrite E; run_step; rewrite ?Ea; run_step; rewrite ?Hpass;
        do 2 eexists; (split; [reflexivity |]); run_step; cbn [option_map report_blocks];
        repeat split; try reflexivity;
        try (destruct (existsb _ _); (discriminate Hp || reflexivity));
        destruct (existsb _ _); try discriminate Hp; discriminate.
  - rewrite E. destruct (autoApplyAccessibilityFixes opts) eqn:Ea;
      run_step; rewrite E; run_step;
      do 2 eexists; (split; [reflexivity |]); run_step; cbn [option_map report_blocks];
      repeat split; rewrite ?List.filter_app, ?app_nil_r; reflexivity.
Qed.

Lemma exportStep_state opts ui r w :
  exists out r' w',
    exportStep exportEngineer opts ui r w = (out, r', w')
    /\ logs r r' [stamp w orchestrator export_engineer EXPORT_CODE (PayloadUISpec ui)]
    /\ (synced r ui -> synced r' ui)
    /\ a11y_errors (result r') = a11y_errors (result r)
    /\ designFeedback (result r') = designFeedback (result r)
    /\ accessibilityReport (result r') = accessibilityReport (result r)
    /\ result_success (result r') = result_success (result r)
    /\ (answers exportEngineer -> out = Ok tt).
Proof.
  destruct r as [[[cid0 cui hist] op ms] [cid sc us df ar ep er rm]].
  unfold synced, logs, a11y_errors, answers. run_step.
  destruct (exportEngineer ui (exportOptions opts) _) as [[[s [pkg |] errs sg na] | e] w'] eqn:E;
    try destruct s; run_step; do 3 eexists; (split; [reflexivity |]); run_step;
    repeat split; rewrite ?List.filter_app, ?app_nil_r; try reflexivity; try tauto.
  intros H.
  match type of E with
  | exportEngineer _ _ ?w0 = _ =>
      destruct (H ui (exportOptions opts) w0) as (resp & w1 & H1)
  end.
  rewrite E in H1. discriminate.
Qed.

Lemma logs_refl r : logs r r [].
Proof. unfold logs. rewrite !app_nil_r. repeat split. Qed.

Lemma logs_trans r1 r2 r3 d1 d2 :
  logs r1 r2 d1 -> logs r2 r3 d2 -> logs r1 r3 (d1 ++ d2).
Proof.
  unfold logs. intros (A1 & A2 & A3 & A4 & A5) (B1 & B2 & B3 & B4 & B5).
  rewrite B1, B2, A1, A2, <- !app_assoc. repeat split; congruence.
Qed.

Ltac fields :=
  cbn [self result context options messages currentUI history conversationId
       result_conversationId result_success uiSpec designFeedback accessibilityReport
       exportPackage result_errors result_messages] in *.

Lemma stages_state opts ui r w :
  synced r ui ->
  designFeedback (result r) = None ->
  accessibilityReport (result r) = None ->
  result_success (result r) = false ->
  a11y_errors (result r) = [] ->
  exists out r' w' delta,
    stages (pure DesignCriticAgent.review) (pure AccessibilityAgent.validate) exportEngineer
      opts ui r w = (out, r', w')
    /\ logs r r' delta
    /\ synced r' (after_validation opts (after_review opts ui))
    /\ designFeedback (result r') = feedback_for opts ui
    /\ accessibilityReport (result r') = report_for opts ui
    /\ (forall res, out = Ok res ->
        res = result r' /\ result_messages res = messages (self r'))
    /\ (forall e, out = Throw e -> result_success (result r') = false)
    /\ (report_blocks (report_for opts ui) = true -> result_success (result r') = false)
    /\ (answers exportEngineer ->
        exists res, out = Ok res
                    /\ result_success res = negb (report_blocks (report_for opts ui))).
Proof.
  intros Hsync Hfb Hrep Hsucc Herr.
  unfold stages, mbind, P_bind.
  assert (Hd : exists r1 w1 d1,
             (if negb (skipDesignReview opts)
              then designStep (pure DesignCriticAgent.review) opts ui
              else mret ui) r w = (Ok (after_review opts ui), r1, w1)
             /\ logs r r1 d1
             /\ synced r1 (after_review opts ui)
             /\ designFeedback (result r1) = feedback_for opts ui
             /\ a11y_errors (result r1) = []
             /\ accessibilityReport (result r1) = None
             /\ result_success (result r1) = false).
  { unfold after_review, feedback_for. destruct (skipDesignReview opts); cbn [negb].
    - exists r, w, []. split; [reflexivity |]. split; [apply logs_refl |].
      split; [exact Hsync |]. repeat split; assumption.
    - destruct (designStep_state opts ui r w Hsync)
        as (r1 & H1 & Hl & Hs & Hf & He & Ha & _ & Hsc).
      do 3 eexists. split; [exact H1 |]. split; [exact Hl |].
      split; [exact Hs |]. repeat split; try congruence.
      rewrite Hf, Hfb. destruct (data (DesignCriticAgent.review ui)); reflexivity. }
  destruct Hd as (r1 & w1 & d1 & -> & Hl1 & Hs1 & Hf1 & He1 & Hr1 & Hsc1).
  assert (Hv : exists stop r2 w2 d2,
             (if negb (skipAccessibilityCheck opts)
              then accessibilityStep (pure AccessibilityAgent.validate) opts
                     (after_review opts ui)
              else mret (after_review opts ui, false)) r1 w1
             = (Ok (after_validation opts (after_review opts ui), stop), r2, w2)
             /\ logs r1 r2 d2
             /\ synced r2 (after_validation opts (after_review opts ui))
             /\ accessibilityReport (result r2) = report_for opts ui
             /\ stop = report_blocks (report_for opts ui)
             /\ (stop = false -> a11y_errors (result r2) = [])
             /\ designFeedback (result r2) = feedback_for opts ui
             /\ result_success (result r2) = false).
  { unfold after_validation, report_for. destruct (skipAccessibilityCheck opts); cbn [negb].
    - exists false, r1, w1, []. split; [reflexivity |]. split; [apply logs_refl |].
      split; [exact Hs1 |]. repeat split; auto.
    - destruct (accessibilityStep_state opts _ r1 w1 Hs1 Hr1)
        as (stop & r2 & H2 & Hl & Hs & Ha & Hst & He & Hf & _ & Hsc).
      do 4 eexists. split; [exact H2 |]. split; [exact Hl |].
      split; [exact Hs |]. repeat split; try congruence.
      intros H. rewrite (He H). exact He1. }
  destruct Hv as (stop & r2 & w2 & d2 & -> & Hl2 & Hs2 & Hr2 & Hst & He2 & Hf2 & Hsc2).
  cbv beta iota.
  pose proof (logs_trans _ _ _ _ _ Hl1 Hl2) as Hl.
  clear Hl1 Hl2 Hs1 Hf1 He1 Hr1 Hsc1 Hsync Hfb Hrep Hsucc Herr.
  destruct stop.
  - destruct r2 as [[[cid2 cui2 hist2] op2 ms2] [cid sc us df ar ep er rm]].
    fields. subst sc. run_P.
    do 4 eexists. split; [reflexivity |].
    split; [exact Hl |]. split; [exact Hs2 |]. split; [exact Hf2 |]. split; [exact Hr2 |].
    split; [intros res H; injection H as <-; split; reflexivity |].
    split; [discriminate |]. split; [reflexivity |].
    intros _. eexists. split; [reflexivity |]. rewrite <- Hst. reflexivity.
  - specialize (He2 eq_refl).
    destruct (exportOnSuccess opts) eqn:Ex.
    + destruct (exportStep_state opts (after_validation opts (after_review opts ui)) r2 w2)
        as (out & r3 & w3 & H3 & Hl3 & Hs3 & He3 & Hf3 & Hr3 & Hsc3 & Hans).
      rewrite H3. specialize (Hs3 Hs2).
      pose proof (logs_trans _ _ _ _ _ Hl Hl3) as Hl'.
      rewrite He2 in He3. rewrite Hf2 in Hf3. rewrite Hr2 in Hr3. rewrite Hsc2 in Hsc3.
      clear H3 Hl Hl3 Hs2 He2 Hf2 Hr2 Hsc2.
      destruct r3 as [[[cid3 cui3 hist3] op3 ms3] [cid sc us df ar ep er rm]].
      unfold a11y_errors in He3. fields. subst sc.
      assert (Hu : us = Some (after_validation opts (after_review opts ui))) by apply Hs3.
      destruct out as [[] | e]; run_P; do 4 eexists; (split; [reflexivity |]).
      * rewrite He3, Hu. cbn [List.length Nat.eqb andb].
        rewrite bool_decide_eq_true_2 by eauto. rewrite <- Hu.
        split; [exact Hl' |]. split; [exact Hs3 |]. split; [exact Hf3 |].
        split; [exact Hr3 |].
        split; [intros res H; injection H as <-; split; reflexivity |].
        split; [discriminate |].
        split; [intros Hb; rewrite Hb in Hst; discriminate |].
        intros _. eexists. split; [reflexivity |]. rewrite <- Hst. reflexivity.
      * split; [exact Hl' |]. split; [exact Hs3 |]. split; [exact Hf3 |].
        split; [exact Hr3 |]. split; [discriminate |]. split; [reflexivity |].
        split; [reflexivity |].
        intros Ha. specialize (Hans Ha). discriminate.
    + destruct r2 as [[[cid2 cui2 hist2] op2 ms2] [cid sc us df ar ep er rm]].
      unfold a11y_errors in He2. fields. subst sc.
      assert (Hu : us = Some (after_validation opts (after_review opts ui))) by apply Hs2.
      run_P. do 4 eexists. split; [reflexivity |].
      rewrite He2, Hu. cbn [List.length Nat.eqb andb].
      rewrite bool_decide_eq_true_2 by eauto. rewrite <- Hu.
      split; [exact Hl |]. split; [exact Hs2 |]. split; [exact Hf2 |].
      split; [exact Hr2 |].
      split; [intros res H; injection H as <-; split; reflexivity |].
      split; [discriminate |].
      split; [intros Hb; rewrite Hb in Hst; discriminate |].
      intros _. eexists. split; [reflexivity |]. rewrite <- Hst. reflexivity.
Qed.

Lemma architect_reads_currentUI context context' userMessage w :
  currentUI context = currentUI context' ->
  UIArchitectAgent.processRequest context userMessage w
  = UIArchitectAgent.processRequest context' userMessage w.
Proof.
  destruct context as [c1 u1 h1], context' as [c2 u2 h2]. cbn [currentUI]. intros ->.
  reflexivity.
Qed.

Lemma architect_cases context userMessage w :
  exists w',
    (exists ui, UIArchitectAgent.processRequest context userMessage w
                = (Ok (UIArchitectAgent.succeed ui), w'))
    \/ (exists c m, UIArchitectAgent.processRequest context userMessage w
                    = (Ok (fail c m), w')).
Proof.
  unfold UIArchitectAgent.processRequest, try_catch.
  destruct (UIArchitectAgent.analyzeRequestType context userMessage).
  - eexists. left. eexists. reflexivity.
  - destruct (currentUI context) as [ui |]; [| eexists; right; do 2 eexists; reflexivity].
    unfold mbind, M_bind.
    destruct (UIArchitectAgent.modifyExistingUI userMessage ui w) as [[ui' | e] w'].
    + eexists. left. eexists. reflexivity.
    + eexists. right. do 2 eexists. reflexivity.
  - eexists. right. do 2 eexists. reflexivity.
Qed.

Lemma processRequest_state (o : Orchestrator) (userMessage : string) (w : World) :
  exists res r' w' delta,
    run_processRequest exportEngineer o userMessage w = (Ok res, r', w')
    /\ res = result r'
    /\ result_messages res = messages (self r')
    /\ logs (start o) r' delta
    /\ match generated o userMessage w with
       | Some ui =>
           synced r' (after_validation (options o) (after_review (options o) ui))
           /\ designFeedback res = feedback_for (options o) ui
           /\ accessibilityReport res = report_for (options o) ui
           /\ (report_blocks (report_for (options o) ui) = true ->
               result_success res = false)
           /\ (answers exportEngineer ->
               result_success res = negb (report_blocks (report_for (options o) ui)))
       | None =>
           uiSpec res = None
           /\ currentUI (context (self r')) = currentUI (context o)
           /\ designFeedback res = None
           /\ accessibilityReport res = None
           /\ result_success res = false
       end.
Proof.
  destruct o as [[cid0 cui hist] op ms]. destruct w as [us0 up ds dp].
  unfold run_processRequest, processRequest, pipeline, generated. run_P.
  cbn [uuids uuid_pos dates date_pos].
  match goal with
  | |- context [UIArchitectAgent.processRequest ?c ?m ?w0] =>
      rewrite (architect_reads_currentUI c (mkAgentContext cid0 cui hist) m w0)
        by reflexivity;
      destruct (architect_cases (mkAgentContext cid0 cui hist) m w0)
        as (w1 & [(ui & Harch) | (c0 & m0 & Harch)]); rewrite Harch
  end.
  - unfold UIArchitectAgent.succeed. run_P. cbn [returned mbind option_bind data].
    match goal with
    | |- context [stages _ _ _ ?op ?u ?r ?w0] =>
        destruct (stages_state op u r w0)
          as (out & r1 & w2 & d & Hs & Hl & Hsy & Hf & Hr & Hres & Hthrow & Hblock & Hans);
          [split; reflexivity | reflexivity | reflexivity | reflexivity | reflexivity |];
          rewrite Hs
    end.
    destruct out as [res | e].
    + destruct (Hres res eq_refl) as [-> Hmsg].
      do 4 eexists. split; [reflexivity |]. split; [reflexivity |]. split; [exact Hmsg |].
      split.
      { eapply (logs_trans _ _ _ [_; _]); [| exact Hl]. unfold logs. cbn. rewrite <- !app_assoc. repeat split. }
      split; [exact Hsy |]. split; [exact Hf |]. split; [exact Hr |].
      split; [exact Hblock |].
      intros Ha. destruct (Hans Ha) as (res & Hres' & Hsucc). injection Hres' as <-.
      exact Hsucc.
    + specialize (Hthrow e eq_refl).
      destruct r1 as [[[cid1 cui1 hist1] op1 ms1] [cid sc us df ar ep er rm]].
      fields. subst sc.
      do 4 eexists. split; [reflexivity |]. run_P. split; [reflexivity |].
      split; [reflexivity |].
      split.
      { eapply (logs_trans _ _ _ [_; _]); [| exact Hl]. unfold logs. cbn.
        rewrite <- !app_assoc. repeat split. }
      split; [exact Hsy |]. split; [exact Hf |]. split; [exact Hr |].
      split; [reflexivity |].
      intros Ha. destruct (Hans Ha) as (res & Hres' & _). discriminate.
  - unfold fail. run_P. cbn [returned mbind option_bind data].
    do 4 eexists. split; [reflexivity |]. run_P. split; [reflexivity |].
    split; [reflexivity |].
    split.
    { instantiate (1 := [_; _]). unfold logs. cbn.
      rewrite <- !app_assoc. repeat split. }
    repeat split.
Qed.

Lemma reviewed_outline opts ui : same_outline ui (reviewed opts ui).
Proof.
  unfold reviewed. destruct (autoApplyDesignImprovements opts); [| apply same_outline_refl].
  destruct (review_cases ui) as [(fb & _ & E) | (e & _ & E)]; rewrite E; cbn [data];
    [| apply same_outline_refl].
  cbn [data_improvedUI default]. apply applyImprovements_outline.
Qed.

Lemma validated_outline opts ui : same_outline ui (validated opts ui).
Proof.
  unfold validated. destruct (autoApplyAccessibilityFixes opts); [| apply same_outline_refl].
  destruct (data (AccessibilityAgent.validate ui)) as [d |] eqn:E; [| apply same_outline_refl].
  destruct (validate_data _ _ E) as (_ & Hf & _).
  exact (applyAccessibilityFixes_outline _ _ _ Hf).
Qed.

Lemma stages_outline opts ui :
  same_outline ui (after_validation opts (after_review opts ui)).
Proof.
  unfold after_validation, after_review.
  destruct (skipAccessibilityCheck opts), (skipDesignReview opts);
    eauto using same_outline_refl, same_outline_trans, reviewed_outline, validated_outline.
Qed.

Lemma same_outline_nonempty ui ui' :
  same_outline ui ui' -> ui_components ui <> [] -> ui_components ui' <> [].
Proof.
  intros H Hn Hn'. destruct (same_outline_names _ _ H) as [Hl _].
  rewrite Hn' in Hl. destruct (ui_components ui); [now apply Hn | discriminate].
Qed.

Lemma generated_nonempty o userMessage w :
  well_formed o ->
  exists ui, generated o userMessage w = Some ui /\ ui_components ui <> [].
Proof.
  unfold well_formed, getCurrentUI, generated. intros H.
  destruct (generation_succeeds (context o) userMessage (tick (tick w)) H)
    as (ui & w' & E & Hn).
  rewrite E. exists ui. split; [reflexivity | exact Hn].
Qed.

Lemma processRequest_well_formed o userMessage w :
  well_formed o ->
  exists res r' w',
    run_processRequest exportEngineer o userMessage w = (Ok res, r', w')
    /\ well_formed (self r')
    /\ (exists ui, uiSpec res = Some ui /\ ui_components ui <> []).
Proof.
  intros H.
  destruct (processRequest_state o userMessage w)
    as (res & r' & w' & delta & E & -> & _ & _ & Hg).
  destruct (generated_nonempty o userMessage w H) as (ui & Hui & Hn).
  rewrite Hui in Hg. destruct Hg as ([Hc Hu] & _).
  pose proof (same_outline_nonempty _ _ (stages_outline (options o) ui) Hn) as Hn'.
  exists (result r'), r', w'. split; [exact E |]. split.
  - unfold well_formed, getCurrentUI. rewrite Hc. exact Hn'.
  - eexists. split; [exact Hu | exact Hn'].
Qed.

Lemma after_requests_well_formed requests : forall o w,
  well_formed o -> well_formed (fst (after_requests exportEngineer o requests w)).
Proof.
  induction requests as [| m rest IH]; intros o w H; cbn [after_requests]; [exact H |].
  destruct (processRequest_well_formed o m w H) as (res & r' & w' & E & Hw & _).
  rewrite E. apply IH, Hw.
Qed.

End Runs.

(** X16.  A run of [processRequest] appends the same new messages to the
    message list and to the history of the conversation, and returns the
    whole message list in its result; the conversation identifier, which is
    also that of the result, and the options stay as they are; the current
    specification of the conversation becomes the specification of the
    result when there is one and is left alone otherwise. *)
Theorem X16_run_logs_and_keeps_the_conversation
  (exportEngineer : UISpec -> option Props -> M (AgentResponse ExportPackage))
  (o : AgentOrchestrator.Orchestrator) (userMessage : string) (w : World) :
  exists res r' w' delta,
    AgentOrchestrator.run_processRequest exportEngineer o userMessage w = (Ok res, r', w')
    /\ let o' := AgentOrchestrator.self r' in
       AgentOrchestrator.messages o' = (AgentOrchestrator.messages o ++ delta)%list
       /\ history (AgentOrchestrator.context o')
          = (history (AgentOrchestrator.context o) ++ delta)%list
       /\ AgentOrchestrator.result_messages res = AgentOrchestrator.messages o'
       /\ conversationId (AgentOrchestrator.context o')
          = conversationId (AgentOrchestrator.context o)
       /\ AgentOrchestrator.result_conversationId res
          = conversationId (AgentOrchestrator.context o)
       /\ AgentOrchestrator.options o' = AgentOrchestrator.options o
       /\ AgentOrchestrator.getCurrentUI o'
          = match AgentOrchestrator.uiSpec res with
            | Some ui => Some ui
            | None => AgentOrchestrator.getCurrentUI o
            end.
Proof.
  destruct (processRequest_state exportEngineer o userMessage w)
    as (res & r' & w' & delta & E & -> & Hm & (L1 & L2 & L3 & L4 & L5) & Hg).
  exists (AgentOrchestrator.result r'), r', w', delta. split; [exact E |]. cbv zeta.
  split; [exact L1 |]. split; [exact L2 |]. split; [exact Hm |]. split; [exact L3 |].
  split; [exact L5 |]. split; [exact L4 |].
  unfold AgentOrchestrator.getCurrentUI.
  destruct (generated o userMessage w) as [ui |].
  - destruct Hg as ([Hc Hu] & _). rewrite Hu. exact Hc.
  - destruct Hg as (Hu & Hc & _). rewrite Hu. exact Hc.
Qed.

(** X17.  The result of a run is the composition of the stages.  When the
    architect returns a specification, the specification of the result is
    that one after the review and after the validation, each replacing it
    by the improved or fixed specification when the stage is not skipped,
    returned one and the option to apply it is set; the feedback and the
    report of the result are those of the critic and of the validator on
    the specification each received.  When the architect returns none, the
    result has no specification, feedback or report and is no success. *)
Theorem X17_result_is_the_composition_of_the_stages
  (exportEngineer : UISpec -> option Props -> M (AgentResponse ExportPackage))
  (o : AgentOrchestrator.Orchestrator) (userMessage : string) (w : World) :
  exists res r' w',
    AgentOrchestrator.run_processRequest exportEngineer o userMessage w = (Ok res, r', w')
    /\ let opts := AgentOrchestrator.options o in
       match generated o userMessage w with
       | Some ui =>
           AgentOrchestrator.uiSpec res = Some (after_validation opts (after_review opts ui))
           /\ AgentOrchestrator.designFeedback res = feedback_for opts ui
           /\ AgentOrchestrator.accessibilityReport res = report_for opts ui
       | None =>
           AgentOrchestrator.uiSpec res = None
           /\ AgentOrchestrator.designFeedback res = None
           /\ AgentOrchestrator.accessibilityReport res = None
           /\ AgentOrchestrator.result_success res = false
       end.
Proof.
  destruct (processRequest_state exportEngineer o userMessage w)
    as (res & r' & w' & delta & E & -> & _ & _ & Hg).
  exists (AgentOrchestrator.result r'), r', w'. split; [exact E |]. cbv zeta.
  destruct (generated o userMessage w) as [ui |].
  - destruct Hg as ([_ Hu] & Hf & Hr & _). auto.
  - destruct Hg as (Hu & _ & Hf & Hr & Hs). auto.
Qed.

(** X18.  With an export engineer that does not throw, a run is a success
    exactly when the generation returned a specification and the validation
    report, if there is one, holds no critical violation.  A failed review,
    a validation that threw and a failed export do not make the run fail. *)
Theorem X18_success_of_a_run
  (exportEngineer : UISpec -> option Props -> M (AgentResponse ExportPackage))
  (o : AgentOrchestrator.Orchestrator) (userMessage : string) (w : World) :
  answers exportEngineer ->
  exists res r' w',
    AgentOrchestrator.run_processRequest exportEngineer o userMessage w = (Ok res, r', w')
    /\ AgentOrchestrator.result_success res
       = bool_decide (is_Some (AgentOrchestrator.uiSpec res))
         && negb (report_blocks (AgentOrchestrator.accessibilityReport res)).
Proof.
  intros Ha.
  destruct (processRequest_state exportEngineer o userMessage w)
    as (res & r' & w' & delta & E & -> & _ & _ & Hg).
  exists (AgentOrchestrator.result r'), r', w'. split; [exact E |].
  destruct (generated o userMessage w) as [ui |].
  - destruct Hg as ([_ Hu] & _ & Hr & _ & Hs). rewrite Hu, Hr, (Hs Ha).
    rewrite bool_decide_eq_true_2 by eauto. reflexivity.
  - destruct Hg as (Hu & _ & _ & _ & Hs). rewrite Hu, Hs.
    rewrite bool_decide_eq_false_2 by (intros [x Hx]; discriminate). reflexivity.
Qed.

Lemma X18_sample_exporter_succeeds :
  answers sample_exporter
  /\ exists res r' w',
       AgentOrchestrator.run_processRequest sample_exporter fresh_orchestrator
         "Create a SaaS pricing page" world0 = (Ok res, r', w')
       /\ AgentOrchestrator.result_success res
          = bool_decide (is_Some (AgentOrchestrator.uiSpec res))
            && negb (report_blocks (AgentOrchestrator.accessibilityReport res)).
Proof.
  assert (H : answers sample_exporter) by (intros ui opts w; do 2 eexists; reflexivity).
  split; [exact H |].
  apply (X18_success_of_a_run sample_exporter fresh_orchestrator
           "Create a SaaS pricing page" world0 H).
Defined.

(** X19.  In a conversation that starts without a current specification, or
    with one that has a component, the generation stage never fails:
    whatever requests were processed before, the run of a further request
    returns a specification with at least one component, and the
    conversation is left with a current specification of that kind. *)
Theorem X19_generation_never_fails_in_a_conversation
  (exportEngineer : UISpec -> option Props -> M (AgentResponse ExportPackage))
  (o : AgentOrchestrator.Orchestrator) (earlier : list string) (userMessage : string)
  (w : World) :
  well_formed o ->
  let (o', w') := after_requests exportEngineer o earlier w in
  exists res r'' w'',
    AgentOrchestrator.run_processRequest exportEngineer o' userMessage w' = (Ok res, r'', w'')
    /\ well_formed (AgentOrchestrator.self r'')
    /\ exists ui, AgentOrchestrator.uiSpec res = Some ui /\ ui_components ui <> [].
Proof.
  intros H.
  pose proof (after_requests_well_formed exportEngineer earlier o w H) as Hw.
  destruct (after_requests exportEngineer o earlier w) as [o' w']. cbn [fst] in Hw.
  apply processRequest_well_formed, Hw.
Qed.

Lemma X19_two_requests :
  well_formed fresh_orchestrator
  /\ let (o', w') := after_requests sample_exporter fresh_orchestrator
                       ["Create a SaaS pricing page"] world0 in
     exists res r'' w'',
       AgentOrchestrator.run_processRequest sample_exporter o' "make it bigger" w'
         = (Ok res, r'', w'')
       /\ well_formed (AgentOrchestrator.self r'')
       /\ exists ui, AgentOrchestrator.uiSpec res = Some ui /\ ui_components ui <> [].
Proof.
  split; [exact I |].
  apply (X19_generation_never_fails_in_a_conversation sample_exporter fresh_orchestrator
           ["Create a SaaS pricing page"] "make it bigger" world0).
  exact I.
Defined.

Section NewConversation.

Import AgentOrchestrator.

Variable exportEngineer : UISpec -> option Props -> M (AgentResponse ExportPackage).

Lemma generated_created o userMessage w :
  getCurrentUI o = None ->
  generated o userMessage w = Some (created userMessage (tick (tick w))).
Proof.
  unfold getCurrentUI, generated. destruct o as [[cid cui hist] op ms].
  cbn [context currentUI]. intros ->.
  rewrite (processRequest_create _ _ _ (analyzeRequestType_no_prior cid hist userMessage)).
  reflexivity.
Qed.

Lemma created_quiet description w : Forall quiet (ui_components (created description w)).
Proof.
  eapply sublist_Forall; [apply templates_quiet |]. apply selectComponents_templates.
Qed.

Lemma after_review_created_quiet opts description w :
  Forall quiet (ui_components (after_review opts (created description w))).
Proof.
  unfold after_review, reviewed.
  destruct (skipDesignReview opts); [apply created_quiet |].
  destruct (autoApplyDesignImprovements opts); [| apply created_quiet].
  destruct (analyzeDesign_of_templates description (created description w)
              (selectComponents_templates _ _)) as (feedback & Ha & Hi).
  rewrite (review_never_blocks _ _ Ha). cbn [data data_improvedUI default].
  apply applyImprovements_quiet; [exact Hi | apply created_quiet].
Qed.

Lemma validated_quiet opts ui : Forall quiet (ui_components ui) -> validated opts ui = ui.
Proof.
  intros Hq. unfold validated. destruct (autoApplyAccessibilityFixes opts); [| reflexivity].
  destruct (validate_quiet ui Hq) as (report & -> & _). reflexivity.
Qed.

Lemma new_conversation_run o userMessage w :
  getCurrentUI o = None ->
  exists res r' w',
    run_processRequest exportEngineer o userMessage w = (Ok res, r', w')
    /\ (exists ui, uiSpec res = Some ui /\ Forall quiet (ui_components ui))
    /\ match accessibilityReport res with
       | Some report => violations report = [] /\ passed report = true
       | None => skipAccessibilityCheck (options o) = true
       end
    /\ (answers exportEngineer -> result_success res = true).
Proof.
  intros Hnone.
  destruct (processRequest_state exportEngineer o userMessage w)
    as (res & r' & w' & delta & E & -> & _ & _ & Hg).
  rewrite (generated_created o userMessage w Hnone) in Hg.
  destruct Hg as ([_ Hu] & _ & Hr & _ & Hs).
  pose proof (after_review_created_quiet (options o) userMessage (tick (tick w))) as Hq.
  exists (result r'), r', w'. split; [exact E |].
  assert (Hrep : match report_for (options o) (created userMessage (tick (tick w))) with
                 | Some report => violations report = [] /\ passed report = true
                 | None => skipAccessibilityCheck (options o) = true
                 end).
  { unfold report_for. destruct (skipAccessibilityCheck (options o)); [reflexivity |].
    destruct (validate_quiet _ Hq) as (report & -> & Hv & Hp). cbn [data option_map].
    split; assumption. }
  split; [| split].
  - eexists. split; [exact Hu |]. unfold after_validation.
    destruct (skipAccessibilityCheck (options o)); [exact Hq |].
    rewrite (validated_quiet _ _ Hq). exact Hq.
  - rewrite Hr. exact Hrep.
  - intros Ha. rewrite (Hs Ha).
    destruct (report_for (options o) (created userMessage (tick (tick w)))) as [report |];
      [| reflexivity].
    destruct Hrep as [Hv _]. cbn [report_blocks]. rewrite Hv. reflexivity.
Qed.

End NewConversation.

(** X20.  The first request of a conversation always passes validation.
    For an orchestrator without a current specification, whatever the
    request and the options, the run returns a specification, each of whose
    components the validator checks without a violation; the report, present
    unless validation is skipped, has no violation and has passed; with an
    export engineer that does not throw the run is a success. *)
Theorem X20_first_request_passes_validation
  (exportEngineer : UISpec -> option Props -> M (AgentResponse ExportPackage))
  (o : AgentOrchestrator.Orchestrator) (userMessage : string) (w : World) :
  AgentOrchestrator.getCurrentUI o = None ->
  exists res r' w',
    AgentOrchestrator.run_processRequest exportEngineer o userMessage w = (Ok res, r', w')
    /\ (exists ui, AgentOrchestrator.uiSpec res = Some ui /\ Forall quiet (ui_components ui))
    /\ match AgentOrchestrator.accessibilityReport res with
       | Some report => violations report = [] /\ passed report = true
       | None =>
           AgentOrchestrator.skipAccessibilityCheck (AgentOrchestrator.options o) = true
       end
    /\ (answers exportEngineer -> AgentOrchestrator.result_success res = true).
Proof. apply new_conversation_run. Qed.

Lemma X20_fresh_orchestrator :
  AgentOrchestrator.getCurrentUI fresh_orchestrator = None
  /\ exists res r' w',
       AgentOrchestrator.run_processRequest sample_exporter fresh_orchestrator
         "asdf" world0 = (Ok res, r', w')
       /\ (exists ui, AgentOrchestrator.uiSpec res = Some ui
                      /\ Forall quiet (ui_components ui))
       /\ match AgentOrchestrator.accessibilityReport res with
          | Some report => violations report = [] /\ passed report = true
          | None =>
              AgentOrchestrator.skipAccessibilityCheck
                (AgentOrchestrator.options fresh_orchestrator) = true
          end
       /\ (answers sample_exporter -> AgentOrchestrator.result_success res = true).
Proof.
  split; [reflexivity |].
  apply (X20_first_request_passes_validation sample_exporter fresh_orchestrator "asdf" world0).
  reflexivity.
Defined.

(** X21.  [generateUI] never stops at the validation gate: for every
    request and every choice of options it returns a result with a
    specification and, unless validation is skipped, a report without a
    violation; with an export engineer that does not throw the result is a
    success.  The result carries the identifier the new conversation drew. *)
Theorem X21_generateUI_passes
  (exportEngineer : UISpec -> option Props -> M (AgentResponse ExportPackage))
  (userMessage : string) (options : option AgentOrchestrator.PartialOptions) (w : World) :
  exists res r' w',
    AgentOrchestrator.generateUI exportEngineer userMessage options w = Some (Ok res, r', w')
    /\ AgentOrchestrator.result_conversationId res = uuids w (uuid_pos w)
    /\ is_Some (AgentOrchestrator.uiSpec res)
    /\ match AgentOrchestrator.accessibilityReport res with
       | Some report => violations report = [] /\ passed report = true
       | None =>
           AgentOrchestrator.skipAccessibilityCheck (AgentOrchestrator.mergeOptions options)
           = true
       end
    /\ (answers exportEngineer -> AgentOrchestrator.result_success res = true).
Proof.
  unfold AgentOrchestrator.generateUI, AgentOrchestrator.createOrchestrator,
    AgentOrchestrator.new_AgentOrchestrator, mbind, mret, M_bind, M_ret, uuidv4.
  set (o := AgentOrchestrator.mkOrchestrator
              (mkAgentContext (uuids w (uuid_pos w)) None [])
              (AgentOrchestrator.mergeOptions options) []).
  set (w0 := mkWorld (uuids w) (S (uuid_pos w)) (dates w) (date_pos w)).
  destruct (new_conversation_run exportEngineer o userMessage w0 eq_refl)
    as (res & r' & w' & E & (ui & Hu & _) & Hr & Hs).
  destruct (processRequest_state exportEngineer o userMessage w0)
    as (res2 & r2 & w2 & delta & E2 & -> & _ & (_ & _ & _ & _ & Hc) & _).
  rewrite E in E2. injection E2 as -> <- <-.
  exists (AgentOrchestrator.result r'), r', w'. split; [rewrite E; reflexivity |].
  split; [exact Hc |]. split; [rewrite Hu; eauto |]. split; assumption.
Qed.

(** X22.  [reset] starts a new conversation: it draws a new conversation
    identifier, forgets the current specification, the history and the
    messages, and keeps the options.  A [modifyUI] that follows is refused
    with the error NO_UI of the orchestrator: no agent is called, nothing is
    logged and no identifier or time is drawn. *)
Theorem X22_modifyUI_after_reset_is_refused
  (exportEngineer : UISpec -> option Props -> M (AgentResponse ExportPackage))
  (o : AgentOrchestrator.Orchestrator) (modificationRequest : string) (w : World) :
  exists o' w',
    AgentOrchestrator.reset o w = (Ok o', w')
    /\ AgentOrchestrator.getCurrentUI o' = None
    /\ AgentOrchestrator.messages o' = []
    /\ history (AgentOrchestrator.getContext o') = []
    /\ conversationId (AgentOrchestrator.getContext o') = uuids w (uuid_pos w)
    /\ AgentOrchestrator.options o' = AgentOrchestrator.options o
    /\ AgentOrchestrator.run_modifyUI exportEngineer o' modificationRequest w'
       = (Ok (AgentOrchestrator.mkPipelineResult (uuids w (uuid_pos w)) false
                None None None None
                [ AgentOrchestrator.mkPipelineError orchestrator "NO_UI"
                    "No existing UI to modify. Use processRequest() first." ]
                []),
          AgentOrchestrator.start o', w').
Proof.
  do 2 eexists. split; [reflexivity |]. repeat split.
Qed.

(** * From the words of a request to the components *)

Section Topics.

Import UIArchitectAgent.

Lemma has_app l1 l2 k : has (l1 ++ l2)%list k = has l1 k || has l2 k.
Proof. unfold has. apply existsb_app. Qed.

Lemma has_style l k :
  (forall k', k <> String "s" k') ->
  has (map (fun style => "style:" ++ style) l) k = false.
Proof.
  intros Hk. unfold has. induction l as [| s r IH]; [reflexivity |].
  cbn [map existsb]. rewrite IH, orb_false_r.
  destruct k as [| c k']; [reflexivity |].
  change ("style:" ++ s) with (String "s" ("tyle:" ++ s)). cbn [String.eqb].
  destruct (Ascii.eqb c "s") eqn:E; [| reflexivity].
  apply Ascii.eqb_eq in E. subst c. now contradiction (Hk k').
Qed.

Lemma has_keys (P : string * list string -> bool) l k :
  has (map fst (List.filter P l)) k = existsb (fun e => String.eqb k (fst e) && P e) l.
Proof.
  unfold has. induction l as [| e r IH]; [reflexivity |].
  cbn [List.filter existsb]. destruct (P e); cbn [map existsb]; rewrite IH.
  - rewrite andb_true_r. reflexivity.
  - rewrite andb_false_r. reflexivity.
Qed.

Lemma has_extractKeywords description topic :
  (forall k', topic <> String "s" k') ->
  has (extractKeywords description) topic = mentions description topic.
Proof.
  intros H. unfold extractKeywords, mentions. cbv zeta.
  rewrite has_app, has_style, orb_false_r by exact H. apply has_keys.
Qed.

Lemma selects_keywords keywords description :
  let names := map comp_name (selectComponents keywords description) in
  existsb (String.eqb "PricingTable") names = has keywords "pricing"
  /\ existsb (String.eqb "DashboardLayout") names = has keywords "dashboard"
  /\ existsb (String.eqb "Chart") names = has keywords "chart"
  /\ existsb (String.eqb "Form") names = has keywords "form"
  /\ existsb (String.eqb "Modal") names = has keywords "modal"
  /\ existsb (String.eqb "TestimonialSection") names = has keywords "testimonial".
Proof.
  unfold selectComponents, push_if; cbv zeta;
  destruct (has keywords "pricing"), (has keywords "dashboard"), (has keywords "chart"),
    (has keywords "form"), (has keywords "modal"), (has keywords "testimonial"),
    (has keywords "card" || Str.includes (Str.toLowerCase description) "hero"
     || Str.includes (Str.toLowerCase description) "feature"),
    (Str.includes (Str.toLowerCase description) "landing"
     || Str.includes (Str.toLowerCase description) "hero"
     || Str.includes (Str.toLowerCase description) "cta");
  cbn [app List.length Nat.ltb Nat.leb Nat.eqb andb map comp_name
       createPricingTableSpec createDashboardSpec createChartSpec createFormSpec
       createModalSpec createTestimonialSpec createCardSpec createButtonSpec];
  repeat split; reflexivity.
Qed.

End Topics.

(** X23.  Which components a new specification holds is decided by the
    words of the request: for a request of ASCII text and each of the topics
    pricing, dashboard, chart, form, modal and testimonial, the
    specification holds the component of the topic (PricingTable,
    DashboardLayout, Chart, Form, Modal, TestimonialSection) exactly when
    one of the words the keyword table lists for the topic occurs in the
    lower-cased request. *)
Theorem X23_topic_words_select_the_components (description : string) :
  Str.is_ascii description = true ->
  Forall (fun topic_kind =>
            selects description (snd topic_kind) = mentions description (fst topic_kind))
         topics.
Proof.
  intros _.
  pose proof (selects_keywords (UIArchitectAgent.extractKeywords description) description)
    as (H1 & H2 & H3 & H4 & H5 & H6).
  unfold topics, selects.
  repeat constructor; cbn [fst snd];
    rewrite <- has_extractKeywords by discriminate; assumption.
Qed.

(** X23 at a request for customer feedback on a pricing page. *)
Lemma X23_feedback_on_pricing :
  Str.is_ascii "Show customer Feedback below the PRICING plans" = true
  /\ map (selects "Show customer Feedback below the PRICING plans") (map snd topics)
     = [true; false; false; false; false; true]
  /\ Forall (fun topic_kind =>
               selects "Show customer Feedback below the PRICING plans" (snd topic_kind)
               = mentions "Show customer Feedback below the PRICING plans" (fst topic_kind))
            topics.
Proof.
  split; [reflexivity |]. split; [reflexivity |].
  apply (X23_topic_words_select_the_components
           "Show customer Feedback below the PRICING plans").
  reflexivity.
Defined.

(** * The files of the React export *)

Section Strings.

Lemma append_cons c (r s : string) : String c r ++ s = String c (r ++ s).
Proof. reflexivity. Qed.

Lemma append_nil_r (s : string) : s ++ EmptyString = s.
Proof. induction s as [| c r IH]; [reflexivity |]. now rewrite append_cons, IH. Qed.

Lemma append_assoc (a b c : string) : (a ++ b) ++ c = a ++ (b ++ c).
Proof. induction a as [| x r IH]; [reflexivity |]. now rewrite !append_cons, IH. Qed.

Lemma reverse_append (a b : string) : reverse (a ++ b) = reverse b ++ reverse a.
Proof.
  induction a as [| x r IH].
  - cbn [reverse]. change (EmptyString ++ b) with b. now rewrite append_nil_r.
  - rewrite append_cons. cbn [reverse]. now rewrite IH, append_assoc.
Qed.

Lemma reverse_involutive (s : string) : reverse (reverse s) = s.
Proof.
  induction s as [| c r IH]; [reflexivity |].
  cbn [reverse]. rewrite reverse_append, IH. reflexivity.
Qed.

Lemma digits_only_append a b : digits_only (a ++ b) = digits_only a && digits_only b.
Proof.
  induction a as [| c r IH]; [reflexivity |].
  rewrite append_cons. cbn [digits_only]. now rewrite IH, andb_assoc.
Qed.

Lemma digits_only_reverse s : digits_only (reverse s) = digits_only s.
Proof.
  induction s as [| c r IH]; [reflexivity |].
  cbn [reverse digits_only]. rewrite digits_only_append, IH. cbn [digits_only].
  rewrite andb_true_r. apply andb_comm.
Qed.

(** Two runs of digits that are each followed by a letter are the same run
    when the strings are the same. *)
Lemma digits_then_letter a : forall b x y,
  digits_only a = true -> digits_only b = true ->
  a ++ String "e" x = b ++ String "e" y -> a = b.
Proof.
  induction a as [| c r IH]; intros [| d s] x y Ha Hb H; rewrite ?append_cons in H;
    change (EmptyString ++ String "e" x) with (String "e" x) in H;
    change (EmptyString ++ String "e" y) with (String "e" y) in H.
  - reflexivity.
  - injection H as <- _. cbn in Hb. discriminate.
  - injection H as -> _. cbn in Ha. discriminate.
  - injection H as -> H. cbn [digits_only] in Ha, Hb.
    apply andb_true_iff in Ha as [_ Ha], Hb as [_ Hb].
    f_equal. exact (IH _ _ _ Ha Hb H).
Qed.

Lemma value_from_append a x y : value_from a (x ++ y) = value_from (value_from a x) y.
Proof.
  revert a. induction x as [| c r IH]; intros a; [reflexivity |].
  rewrite append_cons. cbn [value_from]. apply IH.
Qed.

Lemma digit_of_N (m : N) :
  (m < 10)%N ->
  Js.is_digit (ascii_of_N (48 + m)) = true
  /\ (N_of_ascii (ascii_of_N (48 + m)) - 48 = m)%N.
Proof.
  intros H.
  assert (Hm : (m = 0 \/ m = 1 \/ m = 2 \/ m = 3 \/ m = 4 \/ m = 5 \/ m = 6 \/ m = 7
                \/ m = 8 \/ m = 9)%N) by lia.
  repeat (destruct Hm as [-> | Hm]; [split; reflexivity |]). subst m. split; reflexivity.
Qed.

Lemma digits_fuel_value fuel : forall n acc,
  (n < 2 ^ N.of_nat fuel)%N ->
  exists ds,
    Str.digits_fuel fuel n acc = ds ++ acc
    /\ digits_only ds = true
    /\ value_from 0 ds = n.
Proof.
  induction fuel as [| f IH]; intros n acc Hn.
  - cbn in Hn. assert (n = 0%N) by lia. subst n. exists EmptyString. repeat split.
  - cbn [Str.digits_fuel].
    destruct (digit_of_N (n mod 10)) as [Hd Hv]; [apply N.mod_lt; lia |].
    destruct (N.eqb (n / 10) 0) eqn:Eq.
    + apply N.eqb_eq in Eq. exists (String (ascii_of_N (48 + n mod 10)) EmptyString).
      split; [reflexivity |]. split; [cbn [digits_only]; now rewrite Hd |].
      cbn [value_from]. rewrite Hv.
      pose proof (N.div_mod n 10). lia.
    + destruct (IH (n / 10)%N (String (ascii_of_N (48 + n mod 10)) acc)) as (ds & E & Hds & Hval).
      { rewrite Nat2N.inj_succ, N.pow_succ_r' in Hn.
        apply N.Div0.div_lt_upper_bound. lia. }
      exists (ds ++ String (ascii_of_N (48 + n mod 10)) EmptyString).
      rewrite E, append_assoc. split; [reflexivity |].
      split.
      * rewrite digits_only_append, Hds. cbn [digits_only]. now rewrite Hd.
      * rewrite value_from_append, Hval. cbn [value_from]. rewrite Hv.
        pose proof (N.div_mod n 10). lia.
Qed.

Lemma of_nat_value n :
  digits_only (Str.of_nat n) = true /\ value_from 0 (Str.of_nat n) = N.of_nat n.
Proof.
  unfold Str.of_nat, Str.of_N.
  destruct (digits_fuel_value (S (N.to_nat (N.log2 (N.of_nat n)))) (N.of_nat n) EmptyString)
    as (ds & E & Hd & Hv).
  { rewrite Nat2N.inj_succ, N2Nat.id.
    destruct (N.of_nat n) as [| p] eqn:En; [reflexivity |].
    apply N.log2_spec. lia. }
  rewrite E, append_nil_r. split; assumption.
Qed.

Lemma of_nat_inj i j : Str.of_nat i = Str.of_nat j -> i = j.
Proof.
  intros H. apply Nat2N.inj.
  rewrite <- (proj2 (of_nat_value i)), <- (proj2 (of_nat_value j)), H. reflexivity.
Qed.

End Strings.

Section ReactFiles.

Import ExportServer.

Lemma append_inv_head a : forall x y : string, a ++ x = a ++ y -> x = y.
Proof.
  induction a as [| c r IH]; intros x y H; [exact H |].
  rewrite !append_cons in H. injection H as H. exact (IH _ _ H).
Qed.

Lemma reverse_filename ext name index :
  reverse (name ++ "Example" ++ Str.of_nat index ++ ext)
  = reverse ext ++ reverse (Str.of_nat index) ++ String "e" ("lpmaxE" ++ reverse name).
Proof.
  rewrite !reverse_append, !append_assoc. reflexivity.
Qed.

Lemma filename_inj ext name1 name2 i j :
  name1 ++ "Example" ++ Str.of_nat i ++ ext = name2 ++ "Example" ++ Str.of_nat j ++ ext ->
  i = j.
Proof.
  intros H. apply (f_equal reverse) in H. rewrite !reverse_filename in H.
  apply append_inv_head in H.
  apply digits_then_letter in H;
    [| rewrite digits_only_reverse; apply of_nat_value ..].
  apply (f_equal reverse) in H. rewrite !reverse_involutive in H.
  exact (of_nat_inj _ _ H).
Qed.

Lemma mapi_length {A B : Type} (f : A -> nat -> B) l : forall k,
  List.length (mapi f l k) = List.length l.
Proof. induction l as [| x r IH]; intros k; [reflexivity |]. cbn. now rewrite IH. Qed.

Lemma map_mapi {A B C : Type} (g : B -> C) (f : A -> nat -> B) l : forall k,
  map g (mapi f l k) = mapi (fun x i => g (f x i)) l k.
Proof. induction l as [| x r IH]; intros k; [reflexivity |]. cbn. now rewrite IH. Qed.

Lemma elem_of_mapi {A B : Type} (f : A -> nat -> B) l : forall k z,
  z ∈ mapi f l k -> exists x i, (k <= i)%nat /\ z = f x i.
Proof.
  induction l as [| x r IH]; intros k z H; cbn [mapi] in H.
  - apply elem_of_nil in H. contradiction.
  - apply elem_of_cons in H as [-> | H].
    + exists x, k. split; [lia | reflexivity].
    + destruct (IH _ _ H) as (y & i & Hi & ->). exists y, i. split; [lia | reflexivity].
Qed.

Lemma NoDup_mapi {A B : Type} (f : A -> nat -> B) :
  (forall x y i j, f x i = f y j -> i = j) ->
  forall l k, NoDup (mapi f l k).
Proof.
  intros Hf. induction l as [| x r IH]; intros k; cbn [mapi]; [apply NoDup_nil_2 |].
  apply NoDup_cons. split; [| apply IH].
  intros H. destruct (elem_of_mapi _ _ _ _ H) as (y & i & Hi & E).
  apply Hf in E. lia.
Qed.

Lemma react_files_names components options :
  NoDup (map filename (react_files components options)).
Proof.
  unfold react_files. cbv zeta.
  assert (Hcss : forall ext, ext = ".tsx" \/ ext = ".jsx" ->
            forall k,
            NoDup (mapi (fun comp index => name comp ++ "Example" ++ Str.of_nat index ++ ext)
                     components k ++ ["generated.css"])).
  { intros ext Hext k. apply NoDup_app. split; [| split].
    - apply NoDup_mapi. intros x y i j. apply filename_inj.
    - intros z Hz Hin. apply list_elem_of_singleton in Hin. subst z.
      destruct (elem_of_mapi _ _ _ _ Hz) as (y & i & _ & E).
      apply (f_equal reverse) in E. rewrite reverse_filename in E.
      destruct Hext as [-> | ->]; cbv [reverse append] in E; discriminate.
    - apply NoDup_singleton. }
  destruct (default true (singleFile _)), (default true (typescript _)),
    (default true (includeCSS _));
    rewrite ?map_app, ?map_mapi; cbn [map filename];
    try (apply (Hcss ".tsx"); now left); try (apply (Hcss ".jsx"); now right);
    try (apply NoDup_mapi; intros x y i j; apply filename_inj);
    repeat (apply NoDup_cons; split; [rewrite ?elem_of_cons, elem_of_nil; intuition discriminate |]);
    apply NoDup_nil_2.
Qed.

End ReactFiles.

(** X24.  The React export never gives two files the same name: whatever
    the components, their names and the options, the file names the tool
    collects are pairwise distinct.  There is one file per component, or one
    page file in single-file mode, and one more for the style sheet when it
    is included. *)
Theorem X24_exported_files_have_distinct_names
  (components : list ExportServer.Component) (options : option ExportServer.ReactOptions) :
  let files := ExportServer.react_files components options in
  let single := default true (o ← options; ExportServer.singleFile o) in
  let css := default true (o ← options; ExportServer.includeCSS o) in
  NoDup (map ExportServer.filename files)
  /\ List.length files
     = ((if single then 1 else List.length components) + (if css then 1 else 0))%nat.
Proof.
  cbv zeta. split; [apply react_files_names |].
  unfold ExportServer.react_files. cbv zeta.
  destruct options as [[ts fw [[|] |] [[|] |]] |];
    cbn [default from_option id mbind option_bind ExportServer.singleFile
         ExportServer.includeCSS ExportServer.typescript ExportServer.framework];
    rewrite ?length_app, ?mapi_length; cbn [List.length]; lia.
Qed.

(** X25.  A run follows the plan.  When the generation of a run returns a
    specification and the validation report does not block, the actions the
    run logs are the request, the generation, logged as CREATE_UI also where
    the plan says MODIFY_UI, and then the actions of the steps of
    [createPlan] after the first, in the order of the plan. *)
Theorem X25_run_follows_the_plan
  (exportEngineer : UISpec -> option Props -> M (AgentResponse ExportPackage))
  (o : AgentOrchestrator.Orchestrator) (userMessage : string) (w : World) :
  exists res r' w' delta plan,
    AgentOrchestrator.run_processRequest exportEngineer o userMessage w = (Ok res, r', w')
    /\ AgentOrchestrator.result_messages res = (AgentOrchestrator.messages o ++ delta)%list
    /\ returned (AgentOrchestrator.createPlan o userMessage w) = Some plan
    /\ (is_Some (AgentOrchestrator.uiSpec res) ->
        report_blocks (AgentOrchestrator.accessibilityReport res) = false ->
        map msg_action delta
        = ANALYZE_REQUEST :: CREATE_UI
          :: map AgentOrchestrator.step_action (tail (AgentOrchestrator.steps plan))).
Proof.
  destruct (run_processRequest_gates exportEngineer o userMessage w)
    as (res & r' & w' & delta & E & Hm & Ha & _).
  destruct (createPlan_chained o userMessage w) as (plan & Hp & _ & _ & _ & Hs).
  exists res, r', w', delta, plan. split; [exact E |]. split; [exact Hm |].
  split; [exact Hp |]. intros [ui Hu] Hb. rewrite Ha, Hu.
  destruct (AgentOrchestrator.steps plan) as [| s rest]; [discriminate |].
  cbn [map] in Hs. injection Hs as _ Hs. cbn [tail app]. rewrite Hs.
  unfold stages_after_generation, planned_stages. rewrite Hb, andb_true_r. reflexivity.
Qed.

(** * The validator and the size of a component *)

Section Resized.

Import AccessibilityAgent.

Lemma forEach_insert {A St : Type} (f : A -> nat -> St -> outcome St) (c c' : A) l :
  (forall index s, f c' index s = f c index s) ->
  forall i k s, l !! i = Some c -> forEach f (<[i := c']> l) k s = forEach f l k s.
Proof.
  intros Hf. induction l as [| x r IH]; intros [| i] k s H; try discriminate.
  - cbn in H. injection H as ->. cbn [insert list_insert forEach]. rewrite Hf. reflexivity.
  - cbn in H. cbn [insert list_insert forEach]. destruct (f x k s); [| reflexivity].
    apply IH, H.
Qed.

Lemma existsb_insert {A : Type} (p : A -> bool) (c c' : A) l :
  p c' = p c -> forall i, l !! i = Some c -> existsb p (<[i := c']> l) = existsb p l.
Proof.
  intros Hp. induction l as [| x r IH]; intros [| i] H; try discriminate.
  - cbn in H. injection H as ->. cbn [insert list_insert existsb]. now rewrite Hp.
  - cbn in H. cbn [insert list_insert existsb]. f_equal. exact (IH _ H).
Qed.

Lemma runAccessibilityChecks_resize ui i v :
  runAccessibilityChecks (resize ui i v) = runAccessibilityChecks ui.
Proof.
  unfold resize. destruct (ui_components ui !! i) as [c |] eqn:E; [| reflexivity].
  unfold runAccessibilityChecks, checkPageStructure. cbv zeta.
  cbn [set_components ui_components].
  set (c' := set_props c (Js.set (comp_props c) "size" v)).
  assert (Hh : Js.truthy (Js.or_else (Js.get (comp_props c') "title")
                                     (Js.get (comp_props c') "headline"))
               = Js.truthy (Js.or_else (Js.get (comp_props c) "title")
                                       (Js.get (comp_props c) "headline"))).
  { subst c'. cbn [set_props comp_props].
    rewrite !(get_set_other (comp_props c) "size" v) by discriminate. reflexivity. }
  rewrite (forEach_insert checkComponentAccessibility c c')
    by (exact E || intros; apply checkComponentAccessibility_ignores_size).
  rewrite (existsb_insert (DesignCriticAgent.named "DashboardLayout") c c' _ eq_refl i E).
  rewrite (existsb_insert
             (fun c => Js.truthy (Js.or_else (Js.get (comp_props c) "title")
                                             (Js.get (comp_props c) "headline")))
             c c' _ Hh i E).
  rewrite length_insert. reflexivity.
Qed.

End Resized.

(** X26.  The validator never reads the size of a component: setting the
    prop [size] of any component to any value leaves the outcome of the
    accessibility checks, report or exception, exactly as it was.  The size
    patches of the critic therefore cannot change a validation report. *)
Theorem X26_size_does_not_change_the_report (ui : UISpec) (i : nat) (v : JSON) :
  AccessibilityAgent.runAccessibilityChecks (resize ui i v)
  = AccessibilityAgent.runAccessibilityChecks ui.
Proof. apply runAccessibilityChecks_resize. Qed.
